(** * pyats.contrib.creators.topology: the discovery and graph-merge engine

    A shallow embedding of the [Topology] creator of
    [src/pyats/contrib/creators/topology.py] and the properties of its
    neighbor normalizer, device registry, connection ledger, link grouper
    and proxy chain synthesizer.

    Conventions of the embedding:
    - Python [str] is [string], one character per code point: the strings
      covered are those whose code points are below 256 (ASCII and the
      Latin-1 supplement), and a character is written by its code, as
      [ascii_of_nat 233] for U+00E9.  The character classes of [re] and
      [str] ([\w], [\d], white space, [lower]) are the Unicode ones on that
      range.  [a in b] on strings is [str_in a b];
    - Python [set] of strings is [gset]; the registry [device_list], which
      is only looked up and updated by key, is a [gmap];
    - dictionaries that are iterated ([connection_dict], neighbor tables,
      [testbed.devices]) are association lists in insertion order;
    - a method that mutates its arguments returns the mutated objects next
      to an [outcome], which is a normal return value or a raised exception;
    - mutable lists reachable from two places (proxy chains) live in a
      store and are referred to by location. *)

From Stdlib Require Import ZArith List String Ascii Bool Lia DecimalString.
From stdpp Require Import base option list strings gmap.

Import ListNotations.
Local Open Scope string_scope.

(** * Part I: the embedding *)

(** ** Exceptions *)

Inductive exn : Type :=
| KeyError
| TypeError
| IndexError
| AttributeError
| AddressValueError
| DuplicateLinkError.

(** The way a call ends: a value is returned or an exception propagates. *)
Inductive outcome (A : Type) : Type :=
| Return (a : A)
| Raise (e : exn).

Arguments Return {A} a.
Arguments Raise {A} e.

Definition bind {A B : Type} (m : outcome A) (k : A -> outcome B) : outcome B :=
  match m with
  | Return a => k a
  | Raise e => Raise e
  end.

(** [d[k]] on a value that may be missing. *)
Definition subscript {A : Type} (o : option A) : outcome A :=
  match o with
  | Some a => Return a
  | None => Raise KeyError
  end.

(** [obj.attr] on an attribute that may be missing. *)
Definition getattr {A : Type} (o : option A) : outcome A :=
  match o with
  | Some a => Return a
  | None => Raise AttributeError
  end.

Notation "'let*' x ':=' m 'in' k" := (bind m (fun x => k))
  (at level 10, x name, m at level 100, k at level 200).

(** ** Python strings *)

Module PyStr.

(** [sub in s] for two [str] values: [sub] occurs as a contiguous slice. *)
Fixpoint str_in (sub s : string) : bool :=
  String.prefix sub s
  || match s with
     | EmptyString => false
     | String _ s' => str_in sub s'
     end.

(** White space as [str.split()] and [str.isspace] see it: U+0009 to
    U+000D, U+001C to U+001F, the space, U+0085 and the no-break space
    U+00A0. *)
Definition is_space (c : ascii) : bool :=
  let n := nat_of_ascii c in
  (n =? 32)%nat || ((9 <=? n)%nat && (n <=? 13)%nat)
  || ((28 <=? n)%nat && (n <=? 31)%nat)
  || (n =? 133)%nat || (n =? 160)%nat.

(** [s.split()]: the maximal runs of non-whitespace characters.  [cur] is
    the run being read, kept reversed. *)
Fixpoint split_go (cur : list ascii) (s : string) : list string :=
  let flush (k : list string) :=
    match cur with
    | [] => k
    | _ => string_of_list_ascii (rev cur) :: k
    end in
  match s with
  | EmptyString => flush []
  | String c s' =>
      if is_space c then flush (split_go [] s')
      else split_go (c :: cur) s'
  end.

Definition split (s : string) : list string := split_go [] s.

(** [s.split(sep)] for a one-character separator: empty pieces are kept. *)
Fixpoint split_on (sep : ascii) (cur : list ascii) (s : string) : list string :=
  match s with
  | EmptyString => [string_of_list_ascii (rev cur)]
  | String c s' =>
      if Ascii.eqb c sep then string_of_list_ascii (rev cur) :: split_on sep [] s'
      else split_on sep (c :: cur) s'
  end.

(** [\d] in a [str] pattern, the decimal digits: below 256 these are
    [0] to [9]. *)
Definition is_digit (c : ascii) : bool :=
  let n := nat_of_ascii c in (48 <=? n)%nat && (n <=? 57)%nat.

(** The ASCII letters. *)
Definition is_alpha (c : ascii) : bool :=
  let n := nat_of_ascii c in
  ((65 <=? n)%nat && (n <=? 90)%nat) || ((97 <=? n)%nat && (n <=? 122)%nat).

(** [\w] in a [str] pattern: the underscore and what [str.isalnum]
    accepts.  Above the ASCII letters and digits these are the ordinal
    indicators U+00AA and U+00BA, the micro sign U+00B5, the superscripts
    U+00B2, U+00B3 and U+00B9, the fractions U+00BC to U+00BE, and the
    letters U+00C0 to U+00FF without the signs U+00D7 and U+00F7. *)
Definition is_word (c : ascii) : bool :=
  let n := nat_of_ascii c in
  is_alpha c || is_digit c || (n =? 95)%nat
  || (n =? 170)%nat || (n =? 178)%nat || (n =? 179)%nat || (n =? 181)%nat
  || (n =? 185)%nat || (n =? 186)%nat || ((188 <=? n)%nat && (n <=? 190)%nat)
  || ((192 <=? n)%nat && (n <=? 214)%nat) || ((216 <=? n)%nat && (n <=? 246)%nat)
  || (248 <=? n)%nat.

(** [str(n)] for a natural number. *)
Definition str_of_nat (n : nat) : string :=
  DecimalString.NilZero.string_of_uint (Nat.to_uint n).

End PyStr.

(** ** Insertion-ordered dictionaries with string keys *)

Module PyDict.

Definition t (V : Type) : Type := list (string * V).

Fixpoint get {V : Type} (k : string) (d : t V) : option V :=
  match d with
  | [] => None
  | (k', v) :: d' => if String.eqb k k' then Some v else get k d'
  end.

(** [d[k] = v]: an existing key keeps its position, a new key goes last. *)
Fixpoint set {V : Type} (k : string) (v : V) (d : t V) : t V :=
  match d with
  | [] => [(k, v)]
  | (k', v') :: d' =>
      if String.eqb k k' then (k', v) :: d' else (k', v') :: set k v d'
  end.

Definition mem {V : Type} (k : string) (d : t V) : bool :=
  match get k d with Some _ => true | None => false end.

Definition keys {V : Type} (d : t V) : list string := map fst d.

End PyDict.

(** ** The [ipaddress] module, as far as the creator uses it *)

Module ipaddress.

(** A parsed network: [ipaddress.ip_network] yields either kind. *)
Inductive ip_network : Type :=
| IPv4Network (network_address netmask : Z)
| IPv6Network (network_address netmask : Z).

Fixpoint int_of_digits (acc : Z) (s : string) : Z :=
  match s with
  | EmptyString => acc
  | String c s' => int_of_digits (10 * acc + Z.of_nat (nat_of_ascii c - 48)) s'
  end.

Fixpoint all_digits (s : string) : bool :=
  match s with
  | EmptyString => true
  | String c s' => PyStr.is_digit c && all_digits s'
  end.

(** One decimal octet: non-empty, digits only, at most three of them, no
    leading zero, at most 255. *)
Definition parse_octet (o : string) : option Z :=
  match o with
  | EmptyString => None
  | String c rest =>
      if negb (all_digits o) then None
      else if (3 <? String.length o)%nat then None
      else if Ascii.eqb c "0" && negb (String.eqb o "0") then None
      else
        let v := int_of_digits 0 o in
        if (255 <? v)%Z then None else Some v
  end.

(** [IPv4Address(s)] for a string: the address as an integer, or [None]
    where the constructor raises [AddressValueError]. *)
Definition IPv4Address (s : string) : option Z :=
  match PyStr.split_on "." [] s with
  | [a; b; c; d] =>
      match parse_octet a, parse_octet b, parse_octet c, parse_octet d with
      | Some a, Some b, Some c, Some d =>
          Some (Z.lor (Z.shiftl a 24) (Z.lor (Z.shiftl b 16) (Z.lor (Z.shiftl c 8) d)))
      | _, _, _, _ => None
      end
  | _ => None
  end.

(** [IPv4Address(..) in net]: a network of the other version contains
    nothing; otherwise the masked address is compared with the network
    address. *)
Definition contains (net : ip_network) (ip : Z) : bool :=
  match net with
  | IPv4Network network_address netmask => (Z.land ip netmask =? network_address)%Z
  | IPv6Network _ _ => false
  end.

(** The IPv4 network [a.b.c.d/len], given by its address and prefix length. *)
Definition ipv4_net (address : Z) (prefixlen : Z) : ip_network :=
  IPv4Network address (Z.shiftl (Z.ones prefixlen) (32 - prefixlen)).

End ipaddress.

(** ** The hostname filter

    [re.compile(r'^.*?(?P<hostname>[-\w]+)\s?').match(s)]: the lazy prefix
    skips the characters before the first hostname character (none of them
    may be a newline, which [.] does not match), and the group is the maximal
    run of hostname characters that starts there: the characters of the
    class [[-\w]], a hyphen or a word character. *)

Definition is_hostname_char (c : ascii) : bool :=
  PyStr.is_word c || Ascii.eqb c "-".

Fixpoint hostname_run (s : string) : string :=
  match s with
  | EmptyString => EmptyString
  | String c s' => if is_hostname_char c then String c (hostname_run s') else EmptyString
  end.

(** The [hostname] group of the match, [None] when there is no match. *)
Fixpoint domain_filter (s : string) : option string :=
  match s with
  | EmptyString => None
  | String c s' =>
      if is_hostname_char c then Some (hostname_run s)
      else if Ascii.eqb c "010" then None
      else domain_filter s'
  end.

(** The name after the filter: the group when the pattern matches, the
    name as it is otherwise. *)
Definition strip_domain (host : string) : string :=
  match domain_filter host with
  | Some hostname => hostname
  | None => host
  end.

(** ** Operating system inference *)

(** [get_os]: the function falls off its end, returning [None], when no
    marker is found.  The NX-OS test is a second [if] statement, placed after
    an IOS branch all of whose arms return. *)
Definition get_os (system_string platform_name : string) : option string :=
  if PyStr.str_in "IOS" system_string || PyStr.str_in "IOS" platform_name then
    if PyStr.str_in "XE" system_string || PyStr.str_in "XE" platform_name then
      Some "iosxe"
    else if PyStr.str_in "XR" system_string || PyStr.str_in "XR" platform_name then
      Some "iosxr"
    else
      Some "ios"
  else if PyStr.str_in "NX-OS" system_string || PyStr.str_in "NX-OS" platform_name then
    Some "nxos"
  else
    None.

(** ** The testbed

    [genie.conf.base] objects as the creator reads and writes them.  An
    interface is identified by its device name and its own name; links and
    proxy step lists are mutable objects, kept in stores and referred to by
    their position there. *)

(** One step of a proxy chain: the dictionary [{'device': .., 'command': ..}]. *)
Record proxy_step : Type := mk_step {
  step_device : string;
  step_command : string }.

(** The value of a connection's [proxy]: [None], a device name, a list of
    steps (by location), or anything else. *)
Inductive proxy_value : Type :=
| ProxyNone
| ProxyName (name : string)
| ProxySteps (loc : nat)
| ProxyOther.

(** A connection of a device.  A field is [None] when the attribute is not
    set on the connection. *)
Record connection_detail : Type := mk_connection {
  cd_protocol : option string;
  cd_ip : option string;
  cd_proxy : option proxy_value }.

Record interface_obj : Type := mk_interface {
  link : option nat }.

Record device : Type := mk_device {
  connections : PyDict.t connection_detail;
  interfaces : PyDict.t interface_obj }.

Record link_obj : Type := mk_link {
  link_name : string;
  link_interfaces : list (string * string) }.

Record testbed : Type := mk_testbed {
  devices : PyDict.t device;
  link_store : list link_obj }.

(** The creator's own settings that the processing reads.
    [_exclude_interfaces] is the argument as given: a string. *)
Record Topology : Type := mk_Topology {
  _only_links : bool;
  _exclude_interfaces : string }.

(** ** Device registry *)

(** An address as it reaches the registry: a string, or [None] when an LLDP
    neighbor carries no management address. *)
Abbreviation address := (option string).

(** An entry of [device_list].  The keys ['ip'], ['os'] and ['finder'] are
    absent ([None]) from the entries made for a discovering device. *)
Record fact : Type := mk_fact {
  ports : gset string;
  ip : option (gset address);
  os : option (option string);
  finder : option (string * gset address);
  new_device : bool }.

Definition add_port (p : string) (f : fact) : fact :=
  mk_fact (ports f ∪ {[ p ]}) (ip f) (os f) (finder f) (new_device f).

Definition set_os (o : option string) (f : fact) : fact :=
  mk_fact (ports f) (ip f) (Some o) (finder f) (new_device f).

Definition set_ip (i : gset address) (f : fact) : fact :=
  mk_fact (ports f) (Some i) (os f) (finder f) (new_device f).

(** The last statement of [add_to_device_list], under the comment "add new
    interfaces for discovering device": the [else] arm adds [interface] to
    the entry of [dest_host]. *)
Definition add_discoverer_interface (device_list : gmap string fact)
    (dest_host discover_name interface : string) : gmap string fact * outcome unit :=
  match device_list !! discover_name with
  | None =>
      (<[discover_name := mk_fact {[ interface ]} None None None false]> device_list,
       Return tt)
  | Some _ =>
      match device_list !! dest_host with
      | Some f => (<[dest_host := add_port interface f]> device_list, Return tt)
      | None => (device_list, Raise KeyError)
      end
  end.

(** [add_to_device_list]: the registry after the call, and how the call
    ended.  The caller's [int_address] is narrowed first. *)
Definition add_to_device_list (device_list : gmap string fact)
    (dest_host dest_port : string) (int_address mgmt_address : gset address)
    (os_guess : option string) (discover_name interface : string)
    : gmap string fact * outcome unit :=
  let int_address := int_address ∖ mgmt_address in
  match device_list !! dest_host with
  | None =>
      add_discoverer_interface
        (<[dest_host := mk_fact {[ dest_port ]} (Some mgmt_address) (Some os_guess)
                          (Some (discover_name, int_address)) true]> device_list)
        dest_host discover_name interface
  | Some f =>
      let f := add_port dest_port f in
      let device_list := <[dest_host := f]> device_list in
      if negb (new_device f) then (device_list, Return tt)
      else
        match os f with
        | None => (device_list, Raise KeyError)
        | Some current =>
            let f := match current with None => set_os os_guess f | Some _ => f end in
            let device_list := <[dest_host := f]> device_list in
            match ip f with
            | None => (device_list, Raise KeyError)
            | Some addresses =>
                add_discoverer_interface
                  (<[dest_host := set_ip (addresses ∪ mgmt_address) f]> device_list)
                  dest_host discover_name interface
            end
        end
  end.

(** ** Connection ledger *)

Record conn_entry : Type := mk_entry {
  dest_host : string;
  dest_port : string }.

Definition same_entry (host port : string) (entry : conn_entry) : bool :=
  String.eqb (dest_host entry) host && String.eqb (dest_port entry) port.

(** [add_to_device_connections]; [dev] is only logged. *)
Definition add_to_device_connections (device_connections : PyDict.t (list conn_entry))
    (host port interface dev : string) : PyDict.t (list conn_entry) :=
  let new_entry := mk_entry host port in
  match PyDict.get interface device_connections with
  | None => PyDict.set interface [new_entry] device_connections
  | Some entries =>
      if existsb (same_entry host port) entries then device_connections
      else PyDict.set interface (entries ++ [new_entry])%list device_connections
  end.

(** ** Neighbor record normalizer *)

(** What one neighbor record contributes once it passed the filters. *)
Record adjacency : Type := mk_adjacency {
  adj_interface : string;
  adj_dest_host : string;
  adj_dest_port : string;
  adj_mgmt_set : gset address;
  adj_int_set : gset address;
  adj_os : option string }.

(** [IPv4Address(v)]: [None] stands for [AddressValueError]. *)
Definition IPv4Address_of (v : address) : option Z :=
  match v with
  | Some s => ipaddress.IPv4Address s
  | None => None
  end.

(** The exclusion loop over [product(addresses, exclude_networks)]: leaves
    with [True] at the first address inside a network, raises when an
    address is not IPv4. *)
Fixpoint excluded_scan (pairs : list (address * ipaddress.ip_network)) : outcome bool :=
  match pairs with
  | [] => Return false
  | (a, net) :: rest =>
      match IPv4Address_of a with
      | None => Raise AddressValueError
      | Some n => if ipaddress.contains net n then Return true else excluded_scan rest
      end
  end.

(** [product(xs, ys)]. *)
Definition product {A B : Type} (xs : list A) (ys : list B) : list (A * B) :=
  list_prod xs ys.

(** A loop whose body updates the state [S] and may raise. *)
Fixpoint for_each {S A : Type} (body : A -> S -> S * outcome unit) (l : list A) (s : S)
    : S * outcome unit :=
  match l with
  | [] => (s, Return tt)
  | a :: l' =>
      match body a s with
      | (s', Return _) => for_each body l' s'
      | (s', Raise e) => (s', Raise e)
      end
  end.

(** What both processing loops do with a record that passed the filters. *)
Definition record_adjacency (device_name : string) (a : adjacency)
    (st : gmap string fact * PyDict.t (list conn_entry))
    : (gmap string fact * PyDict.t (list conn_entry)) * outcome unit :=
  match add_to_device_list (fst st) (adj_dest_host a) (adj_dest_port a)
          (adj_int_set a) (adj_mgmt_set a) (adj_os a) device_name (adj_interface a) with
  | (device_list, Return _) =>
      ((device_list,
        add_to_device_connections (snd st) (adj_dest_host a) (adj_dest_port a)
          (adj_interface a) device_name),
       Return tt)
  | (device_list, Raise e) => ((device_list, snd st), Raise e)
  end.

(** One entry of the CDP parser output.  [None] is a missing key. *)
Record cdp_connection : Type := mk_cdp {
  system_name : option string;
  device_id : option string;
  cdp_port_id : option string;
  local_interface : option string;
  management_addresses : option (list string);
  interface_addresses : option (list string);
  software_version : option string;
  platform : option string }.

(** The table of entries; its integer keys are kept as their decimal
    strings. *)
Record cdp_result : Type := mk_cdp_result {
  cdp_index : option (PyDict.t cdp_connection) }.

(** The body of the CDP loop up to the calls that record: [Return None] is
    a [continue]. *)
Definition cdp_filter (self : Topology) (tb : testbed)
    (exclude_networks : list ipaddress.ip_network) (connection : cdp_connection)
    : outcome (option adjacency) :=
  let host :=
    match system_name connection with
    | Some (String c s) => Some (String c s)
    | _ => device_id connection
    end in
  match host with
  | None => Raise TypeError
  | Some host =>
      let host := strip_domain host in
      if _only_links self && negb (PyDict.mem host (devices tb)) then Return None
      else
        let* port := subscript (cdp_port_id connection) in
        let* interface := subscript (local_interface connection) in
        if PyStr.str_in interface (_exclude_interfaces self) then Return None
        else if PyStr.str_in port (_exclude_interfaces self) then Return None
        else
          match interface_addresses connection, management_addresses connection with
          | Some int_address, Some mgmt_address =>
              let int_set : gset address := list_to_set (map Some int_address) in
              let mgmt_set : gset address := list_to_set (map Some mgmt_address) in
              let* stop_int := excluded_scan (product (elements int_set) exclude_networks) in
              let* stop_mgmt := excluded_scan (product (elements mgmt_set) exclude_networks) in
              if stop_int || stop_mgmt then Return None
              else
                let* version := subscript (software_version connection) in
                let* plat := subscript (platform connection) in
                Return (Some (mk_adjacency interface host port mgmt_set int_set
                                (get_os version plat)))
          | _, _ => Raise TypeError
          end
  end.

Definition cdp_body (self : Topology) (device_name : string) (tb : testbed)
    (exclude_networks : list ipaddress.ip_network) (connection : cdp_connection)
    (st : gmap string fact * PyDict.t (list conn_entry))
    : (gmap string fact * PyDict.t (list conn_entry)) * outcome unit :=
  match cdp_filter self tb exclude_networks connection with
  | Raise e => (st, Raise e)
  | Return None => (st, Return tt)
  | Return (Some a) => record_adjacency device_name a st
  end.

Definition _process_cdp_information (self : Topology) (result : cdp_result)
    (device_name : string) (device_list : gmap string fact)
    (exclude_networks : list ipaddress.ip_network) (tb : testbed)
    (device_connections : PyDict.t (list conn_entry))
    : (gmap string fact * PyDict.t (list conn_entry)) * outcome unit :=
  match cdp_index result with
  | None => ((device_list, device_connections), Raise KeyError)
  | Some index =>
      for_each (cdp_body self device_name tb exclude_networks) (map snd index)
        (device_list, device_connections)
  end.

(** The LLDP parser output: interface, then port, then neighbor. *)
Record lldp_neighbor : Type := mk_neighbor {
  management_address : option string;
  management_address_v4 : option string;
  system_description : option string }.

Record lldp_port : Type := mk_lldp_port {
  neighbors : option (PyDict.t lldp_neighbor) }.

Record lldp_interface : Type := mk_lldp_interface {
  lldp_port_id : option (PyDict.t lldp_port) }.

Record lldp_result : Type := mk_lldp_result {
  total_entries : option Z;
  lldp_interfaces : option (PyDict.t lldp_interface) }.

(** The management address of an LLDP neighbor, with its IPv4 fallback. *)
Definition lldp_ip_address (neighbor : lldp_neighbor) : option string :=
  match management_address neighbor with
  | Some a => Some a
  | None => management_address_v4 neighbor
  end.

(** The body of the inner LLDP loop up to the calls that record.  The
    neighbor is looked up under the filtered host name. *)
Definition lldp_filter (self : Topology) (tb : testbed)
    (exclude_networks : list ipaddress.ip_network) (interface port : string)
    (entry : lldp_port) : outcome (option adjacency) :=
  let* nbrs := subscript (neighbors entry) in
  match PyDict.keys nbrs with
  | [] => Raise IndexError
  | first :: _ =>
      let host := strip_domain first in
      if _only_links self && negb (PyDict.mem host (devices tb)) then Return None
      else if PyStr.str_in interface (_exclude_interfaces self) then Return None
      else if PyStr.str_in port (_exclude_interfaces self) then Return None
      else
        let* neighbor := subscript (PyDict.get host nbrs) in
        let ip_address := lldp_ip_address neighbor in
        let* stop :=
          match ip_address, exclude_networks with
          | Some _, _ :: _ => excluded_scan (product [ip_address] exclude_networks)
          | _, _ => Return false
          end in
        if stop then Return None
        else
          let* description := subscript (system_description neighbor) in
          Return (Some (mk_adjacency interface host port {[ ip_address ]} ∅
                          (get_os description "")))
  end.

Definition lldp_body (self : Topology) (device_name : string) (tb : testbed)
    (exclude_networks : list ipaddress.ip_network) (interface : string)
    (item : string * lldp_port)
    (st : gmap string fact * PyDict.t (list conn_entry))
    : (gmap string fact * PyDict.t (list conn_entry)) * outcome unit :=
  match lldp_filter self tb exclude_networks interface (fst item) (snd item) with
  | Raise e => (st, Raise e)
  | Return None => (st, Return tt)
  | Return (Some a) => record_adjacency device_name a st
  end.

Definition _process_lldp_information (self : Topology) (result : lldp_result)
    (device_name : string) (device_list : gmap string fact)
    (exclude_networks : list ipaddress.ip_network) (tb : testbed)
    (device_connections : PyDict.t (list conn_entry))
    : (gmap string fact * PyDict.t (list conn_entry)) * outcome unit :=
  match lldp_interfaces result with
  | None => ((device_list, device_connections), Raise KeyError)
  | Some table =>
      for_each
        (fun (item : string * lldp_interface) st =>
           match lldp_port_id (snd item) with
           | None => (st, Raise KeyError)
           | Some port_list =>
               for_each (lldp_body self device_name tb exclude_networks (fst item))
                 port_list st
           end)
        table (device_list, device_connections)
  end.

(** ** Processing one round of neighbor data *)

(** What one device's poll produced.  [None] is a missing key or a value
    that is false as a condition; both skip the protocol. *)
Record neighbor_data : Type := mk_data {
  cdp : option cdp_result;
  lldp : option lldp_result }.

(** What [get_device_connections] hands back. *)
Inductive conn_value : Type :=
| PyNone
| PyConnections (d : PyDict.t (list conn_entry)).

(** [get_device_connections] together with its local [device_connections]
    as it stands when the method ends.  No [return] statement is left in
    the method: a run that ends normally yields [None]. *)
Definition get_device_connections_frame (self : Topology) (data : neighbor_data)
    (device_name : string) (device_list : gmap string fact)
    (exclude_networks : list ipaddress.ip_network) (tb : testbed)
    : (gmap string fact * PyDict.t (list conn_entry)) * outcome conn_value :=
  let device_connections : PyDict.t (list conn_entry) := [] in
  let after_cdp :=
    match cdp data with
    | Some result =>
        _process_cdp_information self result device_name device_list exclude_networks
          tb device_connections
    | None => ((device_list, device_connections), Return tt)
    end in
  match after_cdp with
  | (st, Raise e) => (st, Raise e)
  | (st, Return _) =>
      match lldp data with
      | None => (st, Return PyNone)
      | Some result =>
          match total_entries result with
          | None => (st, Raise KeyError)
          | Some n =>
              if (n =? 0)%Z then (st, Return PyNone)
              else
                match _process_lldp_information self result device_name (fst st)
                        exclude_networks tb (snd st) with
                | (st, Raise e) => (st, Raise e)
                | (st, Return _) => (st, Return PyNone)
                end
          end
      end
  end.

(** What the caller sees: the registry, which it shares, and the value. *)
Definition get_device_connections (self : Topology) (data : neighbor_data)
    (device_name : string) (device_list : gmap string fact)
    (exclude_networks : list ipaddress.ip_network) (tb : testbed)
    : gmap string fact * outcome conn_value :=
  let r := get_device_connections_frame self data device_name device_list
             exclude_networks tb in
  (fst (fst r), snd r).

(** The two nested loops of [process_neighbor_data] over the polled
    devices, threading the registry and [conn_dict]. *)
Fixpoint process_entry (self : Topology) (tb : testbed)
    (exclude_networks : list ipaddress.ip_network) (entry : PyDict.t neighbor_data)
    (device_list : gmap string fact) (conn_dict : PyDict.t conn_value)
    : (gmap string fact * PyDict.t conn_value) * outcome unit :=
  match entry with
  | [] => ((device_list, conn_dict), Return tt)
  | (device_name, data) :: rest =>
      match get_device_connections self data device_name device_list exclude_networks tb with
      | (device_list, Raise e) => ((device_list, conn_dict), Raise e)
      | (device_list, Return v) =>
          process_entry self tb exclude_networks rest device_list
            (PyDict.set device_name v conn_dict)
      end
  end.

Fixpoint process_entries (self : Topology) (tb : testbed)
    (exclude_networks : list ipaddress.ip_network) (result : list (PyDict.t neighbor_data))
    (device_list : gmap string fact) (conn_dict : PyDict.t conn_value)
    : (gmap string fact * PyDict.t conn_value) * outcome unit :=
  match result with
  | [] => ((device_list, conn_dict), Return tt)
  | entry :: rest =>
      match process_entry self tb exclude_networks entry device_list conn_dict with
      | ((device_list, conn_dict), Return _) =>
          process_entries self tb exclude_networks rest device_list conn_dict
      | (st, Raise e) => (st, Raise e)
      end
  end.

Definition process_neighbor_data (self : Topology) (tb : testbed)
    (device_list : gmap string fact) (exclude_networks : list ipaddress.ip_network)
    (result : list (PyDict.t neighbor_data))
    : gmap string fact * outcome (PyDict.t conn_value) :=
  match process_entries self tb exclude_networks result device_list [] with
  | ((device_list, conn_dict), Return _) => (device_list, Return conn_dict)
  | ((device_list, _), Raise e) => (device_list, Raise e)
  end.

(** The device names of a round's result, in polling order. *)
Definition polled (result : list (PyDict.t neighbor_data)) : list string :=
  concat (map PyDict.keys result).

(** ** Link grouper *)

(** An interface object, named by its device and its own name. *)
Abbreviation iface := (string * string)%type.

Definition iface_eqb (a b : iface) : bool :=
  String.eqb (fst a) (fst b) && String.eqb (snd a) (snd b).

Definition iface_in (i : iface) (l : list iface) : bool := existsb (iface_eqb i) l.

(** [testbed.devices[dev].interfaces[name]]. *)
Definition find_interface (tb : testbed) (i : iface) : outcome interface_obj :=
  let* d := subscript (PyDict.get (fst i) (devices tb)) in
  subscript (PyDict.get (snd i) (interfaces d)).

(** [interface.link = l] on an interface of the testbed. *)
Definition set_link (tb : testbed) (i : iface) (l : nat) : testbed :=
  match PyDict.get (fst i) (devices tb) with
  | Some d =>
      mk_testbed
        (PyDict.set (fst i)
           (mk_device (connections d)
              (PyDict.set (snd i) (mk_interface (Some l)) (interfaces d)))
           (devices tb))
        (link_store tb)
  | None => tb
  end.

(** [link.connect_interface(i)]: the interface joins the link's list and
    the link becomes the interface's [link]. *)
Definition connect_interface (tb : testbed) (l : nat) (i : iface) : testbed :=
  set_link
    (mk_testbed (devices tb)
       (alter (fun o => mk_link (link_name o) (link_interfaces o ++ [i])%list) l
          (link_store tb)))
    i l.

(** [Link(name, interfaces=int_list)]: a new link object to which every
    interface of the list is connected. *)
Definition Link (tb : testbed) (name : string) (int_list : list iface) : testbed :=
  let l := length (link_store tb) in
  fold_left (fun tb i => set_link tb i l) int_list
    (mk_testbed (devices tb) (link_store tb ++ [mk_link name int_list])%list).

Fixpoint dedup_nat (l : list nat) : list nat :=
  match l with
  | [] => []
  | x :: l' => if existsb (Nat.eqb x) l' then dedup_nat l' else x :: dedup_nat l'
  end.

(** The links held by the interfaces of the testbed's devices, each
    once. *)
Definition testbed_links (tb : testbed) : list nat :=
  dedup_nat
    (concat (map (fun d => omap (fun i => link (snd i)) (interfaces (snd d)))
               (devices tb))).

Fixpoint distinct_names (names : list string) : bool :=
  match names with
  | [] => true
  | name :: rest => negb (existsb (String.eqb name) rest) && distinct_names rest
  end.

(** [testbed.links] as the property answers: the links the interfaces hold,
    or [DuplicateLinkError] when two of them bear the same name. *)
Definition links (tb : testbed) : outcome (list nat) :=
  let live := testbed_links tb in
  if distinct_names (omap (fun l => link_name <$> link_store tb !! l) live)
  then Return live
  else Raise DuplicateLinkError.

(** The first branch's loop: collect the interfaces to join. *)
Fixpoint collect_interfaces (tb : testbed) (entries : list conn_entry)
    (int_list : list iface) : outcome (list iface) :=
  match entries with
  | [] => Return int_list
  | entry :: rest =>
      let i := (dest_host entry, dest_port entry) in
      let* _ := find_interface tb i in
      collect_interfaces tb rest
        (if iface_in i int_list then int_list else (int_list ++ [i])%list)
  end.

(** The second branch's loop: extend the link the interface already has. *)
Definition extend_link (l : nat) (entry : conn_entry) (tb : testbed)
    : testbed * outcome unit :=
  let i := (dest_host entry, dest_port entry) in
  match find_interface tb i with
  | Raise e => (tb, Raise e)
  | Return _ =>
      match link_store tb !! l with
      | Some o =>
          if iface_in i (link_interfaces o) then (tb, Return tt)
          else (connect_interface tb l i, Return tt)
      | None => (tb, Raise AttributeError)
      end
  end.

(** The body of the loop over one device's interfaces. *)
Definition write_interface (device_name : string)
    (item : string * list conn_entry) (tb : testbed) : testbed * outcome unit :=
  let interface := (device_name, fst item) in
  match find_interface tb interface with
  | Raise e => (tb, Raise e)
  | Return obj =>
      match link obj with
      | None =>
          match collect_interfaces tb (snd item) [interface] with
          | Raise e => (tb, Raise e)
          | Return int_list =>
              match links tb with
              | Raise e => (tb, Raise e)
              | Return live =>
                  (Link tb ("Link_" ++ PyStr.str_of_nat (length live)) int_list,
                   Return tt)
              end
          end
      | Some l => for_each (extend_link l) (snd item) tb
      end
  end.

(** [_write_connections_to_testbed]: iterating a [None] value of
    [connection_dict] raises [TypeError]. *)
Definition _write_connections_to_testbed (connection_dict : PyDict.t conn_value)
    (tb : testbed) : testbed * outcome unit :=
  for_each
    (fun (item : string * conn_value) tb =>
       match snd item with
       | PyNone => (tb, Raise TypeError)
       | PyConnections d => for_each (write_interface (fst item)) d tb
       end)
    connection_dict tb.

(** The links an interface is a member of. *)
Definition links_of (tb : testbed) (i : iface) : list nat :=
  List.filter (fun l =>
                 match link_store tb !! l with
                 | Some o => iface_in i (link_interfaces o)
                 | None => false
                 end)
    (seq 0 (length (link_store tb))).

(** ** Proxy chain synthesizer *)

(** The loop over the finder's connections: the proxy and address of the
    first ssh connection that has a proxy, [None] when the loop runs to its
    [else]. *)
Fixpoint find_ssh_proxy (conns : PyDict.t connection_detail)
    : outcome (option (proxy_value * string)) :=
  match conns with
  | [] => Return None
  | (conn, connection_detail) :: rest =>
      if String.eqb conn "defaults" then find_ssh_proxy rest
      else
        let* protocol := getattr (cd_protocol connection_detail) in
        if String.eqb protocol "ssh" then
          match cd_proxy connection_detail with
          | Some new_proxy =>
              let* conn_ip := getattr (cd_ip connection_detail) in
              Return (Some (new_proxy, conn_ip))
          | None => find_ssh_proxy rest
          end
        else find_ssh_proxy rest
  end.

(** [steps[-1]['command'] = command] on a non-empty list. *)
Fixpoint set_last_command (command : string) (steps : list proxy_step) : list proxy_step :=
  match steps with
  | [] => []
  | [last] => [mk_step (step_device last) command]
  | step :: rest => step :: set_last_command command rest
  end.

(** [write_proxy_chain] over the store of step lists: the store after the
    call and the value returned.  A list built by the call is a new object
    at the end of the store. *)
Definition write_proxy_chain (finder_name : string) (tb : testbed)
    (credentials : PyDict.t (PyDict.t string)) (ip_addr : string)
    (store : list (list proxy_step)) : list (list proxy_step) * outcome proxy_value :=
  let lookup :=
    let* finder_device := subscript (PyDict.get finder_name (devices tb)) in
    let* default := subscript (PyDict.get "default" credentials) in
    let* user := subscript (PyDict.get "username" default) in
    let* found := find_ssh_proxy (connections finder_device) in
    Return (user, found) in
  match lookup with
  | Raise e => (store, Raise e)
  | Return (user, None) => (store, Return (ProxyName finder_name))
  | Return (user, Some (ProxyNone, conn_ip)) => (store, Return (ProxyName finder_name))
  | Return (user, Some (ProxySteps loc, conn_ip)) =>
      match store !! loc with
      | None | Some [] => (store, Raise IndexError)
      | Some steps =>
          let steps := set_last_command ("ssh " ++ user ++ "@" ++ conn_ip) steps in
          let steps := (steps ++ [mk_step finder_name ("ssh " ++ user ++ "@" ++ ip_addr)])%list in
          (<[loc := steps]> store, Return (ProxySteps loc))
      end
  | Return (user, Some (ProxyName new_proxy, conn_ip)) =>
      let proxy_steps :=
        [mk_step new_proxy ("ssh " ++ conn_ip);
         mk_step finder_name ("ssh " ++ user ++ "@" ++ ip_addr)] in
      ((store ++ [proxy_steps])%list, Return (ProxySteps (length store)))
  | Return (user, Some (ProxyOther, conn_ip)) => (store, Return ProxyNone)
  end.

(** The step list a returned proxy value stands for. *)
Definition steps_of (store : list (list proxy_step)) (v : proxy_value)
    : option (list proxy_step) :=
  match v with
  | ProxySteps loc => store !! loc
  | _ => None
  end.

(** The proxy list held by the finder's first ssh connection with a proxy. *)
Definition stored_proxy (tb : testbed) (finder_name : string)
    (store : list (list proxy_step)) : option (list proxy_step) :=
  match PyDict.get finder_name (devices tb) with
  | Some d =>
      match find_ssh_proxy (connections d) with
      | Return (Some (v, _)) => steps_of store v
      | _ => None
      end
  | None => None
  end.

(** ** Notions used by the statements *)

(** [m] occurs in [s]: some slice of [s] is [m]. *)
Definition occurs (m s : string) : Prop :=
  exists pre post : string, s = pre ++ m ++ post.

(** A marker appears in either of the two free-text fields. *)
Definition appears (m system_string platform_name : string) : Prop :=
  occurs m system_string \/ occurs m platform_name.

(** The number of ledger entries for [(host, port)] under [interface]. *)
Definition entries_for (interface host port : string)
    (device_connections : PyDict.t (list conn_entry)) : nat :=
  match PyDict.get interface device_connections with
  | Some entries => length (List.filter (same_entry host port) entries)
  | None => 0
  end.

(** A ledger call: local interface, remote host, remote port. *)
Abbreviation ledger_call := (string * string * string)%type.

Definition ledger_add (dev : string) (device_connections : PyDict.t (list conn_entry))
    (c : ledger_call) : PyDict.t (list conn_entry) :=
  add_to_device_connections device_connections (snd (fst c)) (snd c) (fst (fst c)) dev.

(** The ledger of [dev] after a sequence of calls, starting empty as
    [get_device_connections] starts it. *)
Definition ledger_after (dev : string) (calls : list ledger_call)
    : PyDict.t (list conn_entry) :=
  fold_left (ledger_add dev) calls [].

(** No (interface, host, port) combination has two entries. *)
Definition at_most_once (device_connections : PyDict.t (list conn_entry)) : Prop :=
  forall interface host port : string,
    entries_for interface host port device_connections <= 1.

(** The ['os'] value of a device's registry entry, when it has one. *)
Definition registry_os (device_list : gmap string fact) (name : string)
    : option (option string) :=
  match device_list !! name with
  | Some f => os f
  | None => None
  end.

(** The port set of a device's registry entry. *)
Definition registry_ports (device_list : gmap string fact) (name : string)
    : option (gset string) :=
  match device_list !! name with
  | Some f => Some (ports f)
  | None => None
  end.

(** An address inside one of the excluded networks. *)
Definition excluded (exclude_networks : list ipaddress.ip_network) (a : string) : Prop :=
  exists (n : Z) (net : ipaddress.ip_network),
    ipaddress.IPv4Address a = Some n
    /\ In net exclude_networks
    /\ ipaddress.contains net n = true.

(** The candidate addresses of a CDP record: its interface and management
    addresses. *)
Definition cdp_candidates (connection : cdp_connection) : list string :=
  (default [] (interface_addresses connection)
   ++ default [] (management_addresses connection))%list.

(** The candidate address of an LLDP record: the management address of the
    neighbor the loop body looks up. *)
Definition lldp_candidate (entry : lldp_port) : option string :=
  match neighbors entry with
  | Some nbrs =>
      match PyDict.keys nbrs with
      | first :: _ =>
          match PyDict.get (strip_domain first) nbrs with
          | Some neighbor => lldp_ip_address neighbor
          | None => None
          end
      | [] => None
      end
  | None => None
  end.

(** Every value of a [conn_dict] is [None]. *)
Definition all_None (conn_dict : PyDict.t conn_value) : Prop :=
  forall (device : string) (v : conn_value), In (device, v) conn_dict -> v = PyNone.

(** ** Sample data

    The devices of the scenarios: [R1] is in the testbed, [R2] and [R3]
    are its neighbors. *)

Module Sample.

(** [R2] is known and resolved, [R1] is the entry made for its finder. *)
Definition R2_fact : fact :=
  mk_fact {[ "Ethernet0/2" ]} (Some {[ Some "10.0.0.2" ]}) (Some (Some "iosxe"))
    (Some ("R1", ∅)) true.

Definition R1_fact : fact := mk_fact {[ "Ethernet0/1" ]} None None None false.

Definition registry : gmap string fact :=
  <["R1" := R1_fact]> (<["R2" := R2_fact]> ∅).

Definition R1_device : device :=
  mk_device
    [("cli", mk_connection (Some "ssh") (Some "10.1.1.1") (Some (ProxyName "jump1")))]
    [("Ethernet0/1", mk_interface None)].

Definition tb : testbed := mk_testbed [("R1", R1_device)] [].

Definition self : Topology := mk_Topology false "".

(** [R1] sees [R2.example.com] on [Ethernet0/1]. *)
Definition cdp_R2 : cdp_connection :=
  mk_cdp (Some "R2.example.com") (Some "R2.example.com") (Some "Ethernet0/2")
    (Some "Ethernet0/1") (Some ["10.0.0.2"]) (Some [])
    (Some "Cisco IOS Software, IOS-XE Software") (Some "cisco CSR1000V").

(** A neighbor at [192.168.1.5], and the excluded range [192.168.1.0/24]. *)
Definition cdp_excluded : cdp_connection :=
  mk_cdp (Some "R9") (Some "R9") (Some "Ethernet0/9") (Some "Ethernet0/3")
    (Some ["192.168.1.5"]) (Some []) (Some "Cisco IOS Software") (Some "cisco").

Definition lldp_excluded : lldp_port :=
  mk_lldp_port
    (Some [("R9", mk_neighbor (Some "192.168.1.5") None (Some "Cisco IOS Software"))]).

Definition net_192_168_1 : ipaddress.ip_network := ipaddress.ipv4_net 3232235776 24.

(** The exclusion argument names one interface, [Ethernet0/10]. *)
Definition self_exclude : Topology := mk_Topology false "Ethernet0/10".

Definition lldp_R2 : lldp_port :=
  mk_lldp_port
    (Some [("R2", mk_neighbor (Some "10.0.0.2") None (Some "Cisco IOS Software"))]).

(** One round in which [R1] was polled and reported [R2] over CDP. *)
Definition round : list (PyDict.t neighbor_data) :=
  [[("R1", mk_data (Some (mk_cdp_result (Some [("1", cdp_R2)]))) None)]].

(** Three devices with one interface each, none in a link yet. *)
Definition tb3 : testbed :=
  mk_testbed
    [("R1", mk_device [] [("Ethernet1", mk_interface None)]);
     ("R2", mk_device [] [("Ethernet2", mk_interface None)]);
     ("R3", mk_device [] [("Ethernet3", mk_interface None)])]
    [].

(** [R2] reports [R3] on [Ethernet2], [R1] reports [R2]'s [Ethernet2] on
    [Ethernet1]; [R2] was polled first. *)
Definition chain_dict : PyDict.t conn_value :=
  [("R2", PyConnections [("Ethernet2", [mk_entry "R3" "Ethernet3"])]);
   ("R1", PyConnections [("Ethernet1", [mk_entry "R2" "Ethernet2"])])].

(** The same two facts with [R1] polled first. *)
Definition chain_dict_R1_first : PyDict.t conn_value :=
  [("R1", PyConnections [("Ethernet1", [mk_entry "R2" "Ethernet2"])]);
   ("R2", PyConnections [("Ethernet2", [mk_entry "R3" "Ethernet3"])])].

Definition credentials : PyDict.t (PyDict.t string) :=
  [("default", [("username", "admin"); ("password", "secret")])].

(** [R1] reached over a chain of one hop, held at location 0. *)
Definition tb_chained : testbed :=
  mk_testbed
    [("R1",
      mk_device
        [("cli", mk_connection (Some "ssh") (Some "10.1.1.1") (Some (ProxySteps 0)))]
        [("Ethernet0/1", mk_interface None)])]
    [].

Definition store : list (list proxy_step) := [[mk_step "jump1" "ssh 10.0.0.254"]].

End Sample.

(** ** The supported operating systems *)

Definition SUPPORTED_OS : list string := ["nxos"; "iosxr"; "iosxe"; "ios"].

(** ** Creating the devices that were found *)

(** [c.lower()] for one character: the ASCII capitals and the capitals
    U+00C0 to U+00DE, without the sign U+00D7, move up by 32; no other
    character below 256 has another lower case. *)
Definition lower_char (c : ascii) : ascii :=
  let n := nat_of_ascii c in
  if ((65 <=? n)%nat && (n <=? 90)%nat)
     || ((192 <=? n)%nat && (n <=? 214)%nat)
     || ((216 <=? n)%nat && (n <=? 222)%nat)
  then ascii_of_nat (n + 32) else c.

(** [s.lower()] *)
Fixpoint lower (s : string) : string :=
  match s with
  | EmptyString => EmptyString
  | String c s' => String (lower_char c) (lower s')
  end.

Definition is_newline (c : ascii) : bool := Ascii.eqb c "010".

(** The lazy run of [.+?(?=\d)] after its first character: the characters
    up to the next decimal digit, none of them a newline ([.] matches every
    character but U+000A). *)
Fixpoint until_digit (s : string) : option string :=
  match s with
  | EmptyString => None
  | String c s' =>
      if PyStr.is_digit c then Some EmptyString
      else if is_newline c then None
      else option_map (String c) (until_digit s')
  end.

(** [re.compile(r'.+?(?=\d)').match(s)]: group 0 of the match, [None] when
    there is none.  The pattern takes at least one character, whatever it is
    but a newline, and as few as possible until a digit follows. *)
Definition interface_filter (s : string) : option string :=
  match s with
  | EmptyString => None
  | String c s' =>
      if is_newline c then None else option_map (String c) (until_digit s')
  end.

(** [type_name[0].lower()] for [type_name = interface_filter.match(name)]:
    subscripting [None] raises [TypeError]. *)
Definition interface_type (name : string) : outcome string :=
  match interface_filter name with
  | Some type_name => Return (lower type_name)
  | None => Raise TypeError
  end.

(** A connection as [create_new_device] writes it: the three keys are
    always there. *)
Record new_connection : Type := mk_new_connection {
  nc_protocol : string;
  nc_ip : address;
  nc_proxy : proxy_value }.

(** The [Device] object built for a device that was found, with its
    interfaces as a dictionary from name to type. *)
Record Device : Type := mk_Device {
  dev_name : string;
  dev_os : option string;
  dev_credentials : PyDict.t (PyDict.t string);
  dev_type : string;
  dev_connections : PyDict.t new_connection;
  dev_abstraction_order : list string;
  dev_abstraction_os : option string;
  dev_interfaces : PyDict.t string }.

(** The value [format] writes for an address. *)
Definition str_of_address (a : address) : string := default "None" a.

(** The first loop of [create_new_device]: one connection per proxy, named
    ['ssh' + proxy]; a later address overwrites the connection of an earlier
    one. *)
Definition management_connections (addresses : list address) (proxies : list string)
    (connections : PyDict.t new_connection) : PyDict.t new_connection :=
  fold_left
    (fun connections (pair : address * string) =>
       PyDict.set ("ssh" ++ snd pair)
         (mk_new_connection "ssh" (fst pair) (ProxyName (snd pair))) connections)
    (product addresses proxies) connections.

(** The second loop: one call of [write_proxy_chain] per interface address
    of the finder, each overwriting the connection ['finder_proxy']. *)
Fixpoint finder_connections (finder_name : string) (tb : testbed)
    (credentials : PyDict.t (PyDict.t string)) (addresses : list address)
    (connections : PyDict.t new_connection) (store : list (list proxy_step))
    : (list (list proxy_step) * PyDict.t new_connection) * outcome unit :=
  match addresses with
  | [] => ((store, connections), Return tt)
  | a :: rest =>
      match write_proxy_chain finder_name tb credentials (str_of_address a) store with
      | (store, Raise e) => ((store, connections), Raise e)
      | (store, Return finder_proxy) =>
          finder_connections finder_name tb credentials rest
            (PyDict.set "finder_proxy" (mk_new_connection "ssh" a finder_proxy) connections)
            store
      end
  end.

(** The last loop: one interface per port, typed by the letters before its
    first digit. *)
Fixpoint new_interfaces (port_names : list string) (interfaces : PyDict.t string)
    : outcome (PyDict.t string) :=
  match port_names with
  | [] => Return interfaces
  | interface :: rest =>
      let* type_name := interface_type interface in
      new_interfaces rest (PyDict.set interface type_name interfaces)
  end.

(** [create_new_device].  [credentials_of] holds the [credentials]
    attribute of the testbed's devices, which the testbed record does not
    carry; sets are run through in the order of [elements]. *)
Definition create_new_device (tb : testbed)
    (credentials_of : PyDict.t (PyDict.t (PyDict.t string)))
    (device_data : fact) (proxy_set : gset string) (device_name : string)
    (store : list (list proxy_step)) : list (list proxy_step) * outcome Device :=
  match finder device_data with
  | None => (store, Raise KeyError)
  | Some found =>
      match PyDict.get (fst found) (devices tb) with
      | None => (store, Raise KeyError)
      | Some finder_dev =>
          let credentials := default [] (PyDict.get (fst found) credentials_of) in
          match ip device_data with
          | None => (store, Raise KeyError)
          | Some addresses =>
              let connections :=
                management_connections (elements addresses) (elements proxy_set) [] in
              match finder_connections (fst found) tb credentials (elements (snd found))
                      connections store with
              | ((store, connections), Raise e) => (store, Raise e)
              | ((store, connections), Return _) =>
                  match os device_data with
                  | None => (store, Raise KeyError)
                  | Some os_value =>
                      match new_interfaces (elements (ports device_data)) [] with
                      | Raise e => (store, Raise e)
                      | Return interfaces =>
                          (store,
                           Return (mk_Device device_name os_value credentials "device"
                                     connections ["os"] os_value interfaces))
                      end
                  end
              end
          end
      end
  end.

(** ** The alias argument

    The alias loop of [_generate]: every whitespace-separated entry of the
    argument is split at its colons and must have two parts. *)

(** [raise Exception('{} is not valid entry'.format(alias_mapping))]. *)
Inductive alias_error : Type :=
| InvalidEntry (alias_mapping : string).

Fixpoint alias_loop (mappings : list string) (alias_dict : PyDict.t string)
    : alias_error + PyDict.t string :=
  match mappings with
  | [] => inr alias_dict
  | alias_mapping :: rest =>
      match PyStr.split_on ":" [] alias_mapping with
      | [device_part; alias_part] =>
          alias_loop rest (PyDict.set device_part alias_part alias_dict)
      | _ => inl (InvalidEntry alias_mapping)
      end
  end.

(** [alias_dict] as [_generate] fills it from the argument, starting from
    the empty dictionary of [_init_arguments]. *)
Definition alias_dict_of (alias : string) : alias_error + PyDict.t string :=
  alias_loop (PyStr.split alias) [].

(** ** The helpers of the Netbox creator *)

Module Netbox.

Definition valid_os : list string :=
  ["com"; "asa"; "dnac"; "ios-xe"; "ios-xr"; "iosxe"; "iosxr"; "ios"; "junos";
   "linux"; "nxos"; "yang"].

Definition valid_types : list string := ["ethernet"; "loopback"].

(** [s and valid in s] as a condition. *)
Definition and_in (valid : string) (s : option string) : bool :=
  match s with
  | Some (String c rest) => PyStr.str_in valid (String c rest)
  | _ => false
  end.

(** The loop both parsers run: the first entry of the list that occurs in
    the given string, [None] when the loop ends. *)
Fixpoint first_valid (valid_list : list string) (s : option string) : option string :=
  match valid_list with
  | [] => None
  | valid :: rest => if and_in valid s then Some valid else first_valid rest s
  end.

Definition _parse_os (os : option string) : option string := first_valid valid_os os.

Definition _format_type (interface_type : option string) : option string :=
  first_valid valid_types interface_type.

(** [s[-1]]. *)
Fixpoint last_char (s : string) : option ascii :=
  match s with
  | EmptyString => None
  | String c EmptyString => Some c
  | String _ rest => last_char rest
  end.

(** [_format_url]: [base[-1]] raises [IndexError] on an empty base. *)
Definition _format_url (base route : string) : outcome string :=
  match last_char base with
  | None => Raise IndexError
  | Some c => Return (base ++ (if Ascii.eqb c "/" then "" else "/") ++ route)
  end.

(** [container.setdefault(key, entry)]. *)
Definition setdefault {V : Type} (key : string) (entry : V) (container : PyDict.t V)
    : PyDict.t V :=
  if PyDict.mem key container then container else PyDict.set key entry container.

(** [_set_value_if_exists]: the container after the call and the value
    returned. *)
Definition _set_value_if_exists {V : Type} (container : PyDict.t V) (key : string)
    (entry : option V) : PyDict.t V * bool :=
  match entry with
  | Some value => (setdefault key value container, true)
  | None => (container, false)
  end.

End Netbox.

(** ** Further notions used by the statements *)

(** Every character of a string passes a test. *)
Fixpoint string_forall (p : ascii -> bool) (s : string) : bool :=
  match s with
  | EmptyString => true
  | String c s' => p c && string_forall p s'
  end.

(** One registry entry carries at least what another does: no port and no
    management address is lost, and the finder and the pending flag are the
    same. *)
Definition fact_le (f f' : fact) : Prop :=
  ports f ⊆ ports f'
  /\ finder f' = finder f
  /\ new_device f' = new_device f
  /\ (forall i : gset address, ip f = Some i ->
        exists i' : gset address, ip f' = Some i' /\ i ⊆ i').

(** Every device of one registry is a device of the other, with at least
    the same facts. *)
Definition registry_le (device_list device_list' : gmap string fact) : Prop :=
  forall (name : string) (f : fact),
    device_list !! name = Some f ->
    exists f' : fact, device_list' !! name = Some f' /\ fact_le f f'.

(** Every pending entry has the keys ['ip'] and ['os'], as the entries the
    creator makes for new devices have. *)
Definition registry_wf (device_list : gmap string fact) : Prop :=
  forall (name : string) (f : fact),
    device_list !! name = Some f ->
    new_device f = true -> is_Some (ip f) /\ is_Some (os f).

(** The number of occurrences of a character. *)
Fixpoint count_char (c : ascii) (s : string) : nat :=
  match s with
  | EmptyString => 0
  | String x s' => (if Ascii.eqb x c then 1 else 0) + count_char c s'
  end.

(** The first value that is there, among candidates tried in order. *)
Fixpoint first_some {V : Type} (candidates : list (option V)) : option V :=
  match candidates with
  | [] => None
  | Some v :: _ => Some v
  | None :: rest => first_some rest
  end.

(** Candidates offered in turn for one key, as [_generate] offers the
    primary addresses for ['ip']: the container at the end, and whether any
    call returned [True]. *)
Definition offer_all {V : Type} (container : PyDict.t V) (key : string)
    (candidates : list (option V)) : PyDict.t V * bool :=
  fold_left
    (fun (st : PyDict.t V * bool) entry =>
       let r := Netbox._set_value_if_exists (fst st) key entry in
       (fst r, snd st || snd r))
    candidates (container, false).

(** Every operating system recorded in the registry is a supported one. *)
Definition registry_supported (device_list : gmap string fact) : Prop :=
  forall (name : string) (f : fact) (o : string),
    device_list !! name = Some f -> os f = Some (Some o) -> In o SUPPORTED_OS.

(** The links of one store are links of the other at the same places, with
    the same names and with their interface lists extended at the end. *)
Definition link_store_le (ls ls' : list link_obj) : Prop :=
  forall (l : nat) (o : link_obj),
    ls !! l = Some o ->
    exists o' : link_obj,
      ls' !! l = Some o'
      /\ link_name o' = link_name o
      /\ exists more : list iface, link_interfaces o' = (link_interfaces o ++ more)%list.

(** Every interface of one testbed is an interface of the other, and one
    that has a link still has one. *)
Definition interfaces_kept (tb tb' : testbed) : Prop :=
  forall (i : iface) (obj : interface_obj),
    find_interface tb i = Return obj ->
    exists obj' : interface_obj,
      find_interface tb' i = Return obj' /\ (is_Some (link obj) -> is_Some (link obj')).

Definition testbed_le (tb tb' : testbed) : Prop :=
  link_store_le (link_store tb) (link_store tb') /\ interfaces_kept tb tb'.

(** No connection besides ['defaults'] is an ssh connection with a proxy;
    each has its protocol set. *)
Definition no_ssh_proxy (conns : PyDict.t connection_detail) : Prop :=
  forall (name : string) (detail : connection_detail),
    In (name, detail) conns -> name <> "defaults" ->
    exists protocol : string,
      cd_protocol detail = Some protocol
      /\ (protocol = "ssh" -> cd_proxy detail = None).

(** ** More sample data *)

Module Sample2.

(** An LLDP neighbor listed under its fully qualified name. *)
Definition neighbors_fqdn : PyDict.t lldp_neighbor :=
  [("R2.example.com", mk_neighbor (Some "10.0.0.2") None (Some "Cisco IOS Software"))].

Definition lldp_fqdn : lldp_port := mk_lldp_port (Some neighbors_fqdn).

(** Characters above the ASCII range, by code point: U+00C9, U+00E9 and
    the no-break space U+00A0. *)
Definition E_acute : ascii := ascii_of_nat 201.

Definition e_acute : ascii := ascii_of_nat 233.

Definition nbsp : ascii := ascii_of_nat 160.

(** Seven devices with one interface each, none in a link. *)
Definition tb7 : testbed :=
  mk_testbed
    [("R1", mk_device [] [("Ethernet1", mk_interface None)]);
     ("R2", mk_device [] [("Ethernet2", mk_interface None)]);
     ("R3", mk_device [] [("Ethernet3", mk_interface None)]);
     ("R4", mk_device [] [("Ethernet4", mk_interface None)]);
     ("R5", mk_device [] [("Ethernet5", mk_interface None)]);
     ("R6", mk_device [] [("Ethernet6", mk_interface None)]);
     ("R7", mk_device [] [("Ethernet7", mk_interface None)])]
    [].

(** [R1] reports [R2]; [R3] reports both interfaces of that link; [R4]
    reports [R5]; [R6] reports [R7]. *)
Definition dict7 : PyDict.t conn_value :=
  [("R1", PyConnections [("Ethernet1", [mk_entry "R2" "Ethernet2"])]);
   ("R3", PyConnections [("Ethernet3", [mk_entry "R1" "Ethernet1";
                                        mk_entry "R2" "Ethernet2"])]);
   ("R4", PyConnections [("Ethernet4", [mk_entry "R5" "Ethernet5"])]);
   ("R6", PyConnections [("Ethernet6", [mk_entry "R7" "Ethernet7"])])].

(** [R1:Ethernet1] and [R2:Ethernet2] joined by [Link_0], [R3:Ethernet3]
    without a link. *)
Definition tb_linked : testbed :=
  mk_testbed
    [("R1", mk_device [] [("Ethernet1", mk_interface (Some 0))]);
     ("R2", mk_device [] [("Ethernet2", mk_interface (Some 0))]);
     ("R3", mk_device [] [("Ethernet3", mk_interface None)])]
    [mk_link "Link_0" [("R1", "Ethernet1"); ("R2", "Ethernet2")]].



(** [R3], found by [R1] over the interface address [172.16.0.9] only. *)
Definition R3_fact : fact :=
  mk_fact {[ "Ethernet0/0" ]} (Some ∅) (Some (Some "ios"))
    (Some ("R1", {[ Some "172.16.0.9" ]})) true.

(** [R4], found by [R1] with a management address and no interface
    address. *)
Definition R4_fact : fact :=
  mk_fact {[ "Ethernet0/0" ]} (Some {[ Some "10.0.0.4" ]}) (Some (Some "ios"))
    (Some ("R1", ∅)) true.

(** A device seen on a port whose name has no digit. *)
Definition R5_fact : fact :=
  mk_fact {[ "Management" ]} (Some {[ Some "10.0.0.5" ]}) (Some None)
    (Some ("R1", ∅)) true.

Definition credentials_of : PyDict.t (PyDict.t (PyDict.t string)) :=
  [("R1", Sample.credentials)].

End Sample2.

(** ** Writing the testbed into the YAML dictionary *)

(** What [create_yaml_dict] reads of an interface of the testbed: its type,
    the name of its link ([None] when [interface.link] is [None]) and
    [str(interface.ipv4)] ([None] when [interface.ipv4] is [None]). *)
Record interface_view : Type := mk_interface_view {
  iv_type : string;
  iv_link : option string;
  iv_ipv4 : option string }.

(** What it reads of a device: type, os, the connections by name and the
    interfaces by name, both in the order of the device's dictionaries. *)
Record device_view : Type := mk_device_view {
  dv_type : string;
  dv_os : option string;
  dv_connections : PyDict.t connection_detail;
  dv_interfaces : PyDict.t interface_view }.

(** An entry of a device's ['connections'] in the YAML dictionary: the three
    values read with [.get] ([None] also for a missing one), or the
    ['defaults'] entry with its ['via']. *)
Inductive yaml_connection : Type :=
| Connection (protocol ip : option string) (proxy : proxy_value)
| Defaults (via : string).

(** An entry of ['devices']. *)
Record yaml_device : Type := mk_yaml_device {
  yd_type : string;
  yd_os : option string;
  yd_credentials : PyDict.t (PyDict.t string);
  yd_connections : PyDict.t yaml_connection }.

(** An entry of ['topology']: its ['interfaces'], [None] when the entry has
    no such key.  An interface is a dictionary of strings. *)
Record topology_entry : Type := mk_topology_entry {
  te_interfaces : option (PyDict.t (PyDict.t string)) }.

(** The YAML dictionary.  [yaml_devices] is [None] when the dictionary has no
    ['devices'] key; [yaml_topology] is [None] when
    [testbed_yaml.get('topology')] is. *)
Record yaml_file : Type := mk_yaml_file {
  yaml_devices : option (PyDict.t yaml_device);
  yaml_topology : option (PyDict.t topology_entry) }.

(** The exceptions of [create_yaml_dict]: a missing key, and the loop
    variable [connect] read before any loop has bound it. *)
Inductive yaml_error : Type :=
| YamlKeyError (key : string)
| UnboundLocalError (name : string).

(** [d.update(new)] *)
Definition update {V : Type} (d new : PyDict.t V) : PyDict.t V :=
  fold_left (fun acc item => PyDict.set (fst item) (snd item) acc) new d.

(** [connection.get('proxy')] *)
Definition get_proxy (c : connection_detail) : proxy_value :=
  match cd_proxy c with
  | Some proxy => proxy
  | None => ProxyNone
  end.

(** The loop over a new device's connections: it fills [conn_dict] and
    leaves the last name in the variable [connect], which keeps the value it
    had when the device has no connection. *)
Definition connections_loop (conns : PyDict.t connection_detail)
    (connect : option string) : PyDict.t yaml_connection * option string :=
  fold_left
    (fun st item =>
       (PyDict.set (fst item)
          (Connection (cd_protocol (snd item)) (cd_ip (snd item)) (get_proxy (snd item)))
          (fst st),
        Some (fst item)))
    conns ([], connect).

(** The dictionary written for one interface. *)
Definition interface_entry (i : interface_view) : PyDict.t string :=
  let e := [("type", iv_type i)] in
  let e := match iv_link i with
           | Some name => PyDict.set "link" name e
           | None => e
           end in
  match iv_ipv4 i with
  | Some a => PyDict.set "ipv4" a e
  | None => e
  end.

(** [interface_dict['interfaces']] of a device. *)
Definition interface_dict (device : device_view) : PyDict.t (PyDict.t string) :=
  fold_left (fun acc item => PyDict.set (fst item) (interface_entry (snd item)) acc)
    (dv_interfaces device) [].

(** The first loop, over the devices of the testbed.  The state is the
    ['devices'] of the YAML dictionary, [yaml_dict['topology']] and the
    variable [connect]. *)
Fixpoint devices_loop (credential_dict : PyDict.t (PyDict.t string))
    (tb : PyDict.t device_view) (devs : option (PyDict.t yaml_device))
    (topology : PyDict.t (PyDict.t (PyDict.t string))) (connect : option string)
  : option (PyDict.t yaml_device) * PyDict.t (PyDict.t (PyDict.t string))
    * option yaml_error :=
  match tb with
  | [] => (devs, topology, None)
  | (name, device) :: rest =>
      match devs with
      | None => (None, topology, Some (YamlKeyError "devices"))
      | Some entries =>
          let topology' := PyDict.set name (interface_dict device) topology in
          if PyDict.mem name entries then
            devices_loop credential_dict rest (Some entries) topology' connect
          else
            let (conn_dict, connect') := connections_loop (dv_connections device) connect in
            let entry := mk_yaml_device (dv_type device) (dv_os device) credential_dict in
            match connect' with
            | None =>
                (Some (PyDict.set name (entry conn_dict) entries), topology,
                 Some (UnboundLocalError "connect"))
            | Some via =>
                devices_loop credential_dict rest
                  (Some (PyDict.set name
                           (entry (PyDict.set "defaults" (Defaults via) conn_dict))
                           entries))
                  topology' connect'
            end
      end
  end.

(** The second loop, over [yaml_dict['topology']], when the YAML dictionary
    has a topology. *)
Fixpoint topology_loop (new : PyDict.t (PyDict.t (PyDict.t string)))
    (topology : PyDict.t topology_entry)
  : PyDict.t topology_entry * option yaml_error :=
  match new with
  | [] => (topology, None)
  | (device, interfaces) :: rest =>
      match PyDict.get device topology with
      | None =>
          topology_loop rest
            (PyDict.set device (mk_topology_entry (Some interfaces)) topology)
      | Some entry =>
          match te_interfaces entry with
          | None => (topology, Some (YamlKeyError "interfaces"))
          | Some old =>
              topology_loop rest
                (PyDict.set device (mk_topology_entry (Some (update old interfaces)))
                   topology)
          end
      end
  end.

(** [create_yaml_dict]: the YAML dictionary after the call, which is also the
    value returned, and the exception when the call raised one. *)
Definition create_yaml_dict (tb : PyDict.t device_view) (testbed_yaml : yaml_file)
    (credential_dict : PyDict.t (PyDict.t string)) : yaml_file * option yaml_error :=
  match devices_loop credential_dict tb (yaml_devices testbed_yaml) [] None with
  | (devs, _, Some e) => (mk_yaml_file devs (yaml_topology testbed_yaml), Some e)
  | (devs, topology, None) =>
      match yaml_topology testbed_yaml with
      | None =>
          (mk_yaml_file devs
             (Some (map (fun item => (fst item, mk_topology_entry (Some (snd item))))
                      topology)),
           None)
      | Some old =>
          let (merged, e) := topology_loop topology old in
          (mk_yaml_file devs (Some merged), e)
      end
  end.

(** ** Sample data for the YAML dictionary *)

Module Sample3.

Definition R1 : device_view :=
  mk_device_view "router" (Some "iosxe")
    [("cli", mk_connection (Some "ssh") (Some "10.0.0.1") None)]
    [("Ethernet0/1", mk_interface_view "ethernet" (Some "Link_0") None)].

Definition R2 : device_view :=
  mk_device_view "device" (Some "ios")
    [("finder_proxy", mk_connection (Some "ssh") (Some "172.16.0.9") (Some (ProxyName "R1")))]
    [("Ethernet0/2", mk_interface_view "ethernet" (Some "Link_0") (Some "172.16.0.9/24"))].

Definition R3 : device_view :=
  mk_device_view "device" None [] [("Ethernet0/3", mk_interface_view "ethernet" None None)].

Definition tb : PyDict.t device_view := [("R1", R1); ("R2", R2); ("R3", R3)].

Definition tb_R3_first : PyDict.t device_view := [("R1", R1); ("R3", R3); ("R2", R2)].

Definition credential_dict : PyDict.t (PyDict.t string) :=
  [("default", [("username", "admin"); ("password", "cisco")])].

Definition R1_entry : yaml_device :=
  mk_yaml_device "router" (Some "iosxe") credential_dict
    [("cli", Connection (Some "ssh") (Some "10.0.0.1") ProxyNone)].

Definition file : yaml_file :=
  mk_yaml_file (Some [("R1", R1_entry)])
    (Some [("R1", mk_topology_entry
                    (Some [("Ethernet0/1", [("alias", "uplink"); ("type", "ethernet")]);
                           ("Loopback0", [("type", "loopback")])]))]).

End Sample3.

(** * Part II: properties *)

(** ** Strings *)

Lemma append_cons (c : ascii) (p post : string) :
  String c p ++ post = String c (p ++ post).
Proof. reflexivity. Qed.

Lemma append_nil (post : string) : EmptyString ++ post = post.
Proof. reflexivity. Qed.

Lemma prefix_true_iff (p s : string) :
  String.prefix p s = true <-> exists post : string, s = p ++ post.
Proof.
  revert s. induction p as [|c p IH]; intros s; simpl.
  - split; [intros _; exists s; reflexivity | intros _; destruct s; reflexivity].
  - destruct s as [|c' s]; simpl.
    + split; [discriminate | intros [post H]; discriminate].
    + destruct (Ascii.ascii_dec c c') as [->|Hne].
      * rewrite IH. split; intros [post H]; exists post.
        -- rewrite H. reflexivity.
        -- rewrite append_cons in H. injection H as H. exact H.
      * split; [discriminate | intros [post H]; rewrite append_cons in H; congruence].
Qed.

Lemma str_in_unfold (m s : string) :
  PyStr.str_in m s =
  String.prefix m s
  || match s with EmptyString => false | String _ s' => PyStr.str_in m s' end.
Proof. destruct s; reflexivity. Qed.

Lemma str_in_occurs (m s : string) : PyStr.str_in m s = true <-> occurs m s.
Proof.
  induction s as [|c s IH]; rewrite str_in_unfold.
  - rewrite orb_false_r, prefix_true_iff. split.
    + intros [post H]. exists EmptyString, post. exact H.
    + intros [pre [post H]]. destruct pre; [exists post; exact H|discriminate].
  - rewrite orb_true_iff, prefix_true_iff, IH. split.
    + intros [[post H]|[pre [post H]]].
      * exists EmptyString, post. exact H.
      * exists (String c pre), post. rewrite append_cons. congruence.
    + intros [pre [post H]]. destruct pre as [|c' pre].
      * left. exists post. exact H.
      * right. exists pre, post. rewrite append_cons in H. congruence.
Qed.

Lemma str_in_false_occurs (m s : string) : PyStr.str_in m s = false <-> ~ occurs m s.
Proof.
  rewrite <- str_in_occurs. destruct (PyStr.str_in m s); split; congruence.
Qed.

(** ** Operating system inference *)

Lemma appears_orb (m s p : string) :
  PyStr.str_in m s || PyStr.str_in m p = true <-> appears m s p.
Proof. unfold appears. rewrite orb_true_iff, !str_in_occurs. reflexivity. Qed.

Lemma not_appears_orb (m s p : string) :
  PyStr.str_in m s || PyStr.str_in m p = false <-> ~ appears m s p.
Proof.
  rewrite <- appears_orb. destruct (PyStr.str_in m s || PyStr.str_in m p); split; congruence.
Qed.

(** C6, as stated, fails: with both markers present the IOS branch returns
    and the NX-OS test is never reached. *)
Lemma get_os_nxos_after_ios_counterexample :
  ~ (appears "NX-OS" "Cisco NX-OS Software, BIOS 3.1" "N7K" ->
     get_os "Cisco NX-OS Software, BIOS 3.1" "N7K" = Some "nxos").
Proof.
  intros H. assert (Ha : appears "NX-OS" "Cisco NX-OS Software, BIOS 3.1" "N7K").
  { left. exists "Cisco ", " Software, BIOS 3.1". reflexivity. }
  specialize (H Ha). vm_compute in H. discriminate.
Qed.

(** C6 (amended): [get_os] returns iosxe when IOS and XE appear in either
    field, else iosxr when IOS and XR appear, else ios when IOS appears;
    nxos when NX-OS appears and IOS appears in neither field; [None] when
    neither IOS nor NX-OS appears. *)
Theorem get_os_precedence (system_string platform_name : string) :
  let has m := appears m system_string platform_name in
  (has "IOS" -> has "XE" -> get_os system_string platform_name = Some "iosxe")
  /\ (has "IOS" -> ~ has "XE" -> has "XR" ->
      get_os system_string platform_name = Some "iosxr")
  /\ (has "IOS" -> ~ has "XE" -> ~ has "XR" ->
      get_os system_string platform_name = Some "ios")
  /\ (~ has "IOS" -> has "NX-OS" -> get_os system_string platform_name = Some "nxos")
  /\ (~ has "IOS" -> ~ has "NX-OS" -> get_os system_string platform_name = None).
Proof.
  cbv zeta. unfold get_os.
  repeat split; intros;
    repeat match goal with
      | H : appears _ _ _ |- _ => apply appears_orb in H; rewrite H
      | H : ~ appears _ _ _ |- _ => apply not_appears_orb in H; rewrite H
      end; reflexivity.
Qed.

Lemma get_os_precedence_witness :
  get_os "Cisco IOS Software, IOS-XE Software" "cisco CSR1000V" = Some "iosxe"
  /\ get_os "Cisco Nexus Operating System (NX-OS) Software" "N9K-C9300v" = Some "nxos".
Proof.
  split.
  - apply (get_os_precedence "Cisco IOS Software, IOS-XE Software" "cisco CSR1000V").
    + apply appears_orb. reflexivity.
    + apply appears_orb. reflexivity.
  - apply (get_os_precedence "Cisco Nexus Operating System (NX-OS) Software" "N9K-C9300v").
    + apply not_appears_orb. reflexivity.
    + apply appears_orb. reflexivity.
Defined.

(** ** Dictionaries *)

Lemma get_set_eq {V : Type} (k : string) (v : V) (d : PyDict.t V) :
  PyDict.get k (PyDict.set k v d) = Some v.
Proof.
  induction d as [|[k' v'] d IH]; simpl.
  - rewrite String.eqb_refl. reflexivity.
  - destruct (String.eqb k k') eqn:E; simpl; rewrite E; [reflexivity|exact IH].
Qed.

Lemma get_set_ne {V : Type} (k k0 : string) (v : V) (d : PyDict.t V) :
  k0 <> k -> PyDict.get k0 (PyDict.set k v d) = PyDict.get k0 d.
Proof.
  intros Hne. induction d as [|[k' v'] d IH]; simpl.
  - destruct (String.eqb_spec k0 k); [contradiction|reflexivity].
  - destruct (String.eqb_spec k k') as [->|Hkk']; simpl.
    + destruct (String.eqb_spec k0 k'); [contradiction|reflexivity].
    + destruct (String.eqb_spec k0 k'); [reflexivity|exact IH].
Qed.

Lemma set_get_same {V : Type} (k : string) (v : V) (d : PyDict.t V) :
  PyDict.get k d = Some v -> PyDict.set k v d = d.
Proof.
  induction d as [|[k' v'] d IH]; simpl; [discriminate|].
  destruct (String.eqb_spec k k') as [->|Hne].
  - intros [= ->]. reflexivity.
  - intros H. rewrite (IH H). reflexivity.
Qed.

(** ** Connection ledger *)

Lemma same_entry_true (h p h' p' : string) :
  same_entry h' p' (mk_entry h p) = true <-> h = h' /\ p = p'.
Proof.
  unfold same_entry. simpl. rewrite andb_true_iff, !String.eqb_eq. reflexivity.
Qed.

Lemma filter_none (h p : string) (entries : list conn_entry) :
  existsb (same_entry h p) entries = false ->
  List.filter (same_entry h p) entries = [].
Proof.
  induction entries as [|e entries IH]; simpl; [reflexivity|].
  destruct (same_entry h p e); simpl; [discriminate|exact IH].
Qed.

Lemma filter_some (h p : string) (entries : list conn_entry) :
  existsb (same_entry h p) entries = true ->
  1 <= length (List.filter (same_entry h p) entries).
Proof.
  induction entries as [|e entries IH]; simpl; [discriminate|].
  destruct (same_entry h p e); simpl; [lia|exact IH].
Qed.

Lemma entries_for_add_other (dc : PyDict.t (list conn_entry))
    (i h p dev i' h' p' : string) :
  (i', h', p') <> (i, h, p) ->
  entries_for i' h' p' (add_to_device_connections dc h p i dev) = entries_for i' h' p' dc.
Proof.
  intros Hne. unfold add_to_device_connections, entries_for.
  destruct (String.eqb_spec i' i) as [->|Hi].
  - destruct (PyDict.get i dc) as [entries|] eqn:Hget.
    + destruct (existsb (same_entry h p) entries) eqn:Hex.
      * rewrite Hget. reflexivity.
      * rewrite get_set_eq, List.filter_app, List.length_app. simpl.
        destruct (same_entry h' p' (mk_entry h p)) eqn:Hs; simpl; [|lia].
        apply same_entry_true in Hs. destruct Hs as [-> ->]. contradiction.
    + rewrite get_set_eq. simpl.
      destruct (same_entry h' p' (mk_entry h p)) eqn:Hs; simpl; [|reflexivity].
      apply same_entry_true in Hs. destruct Hs as [-> ->]. contradiction.
  - destruct (PyDict.get i dc) as [entries|] eqn:Hget.
    + destruct (existsb (same_entry h p) entries); [reflexivity|].
      rewrite get_set_ne by exact Hi. reflexivity.
    + rewrite get_set_ne by exact Hi. reflexivity.
Qed.

Lemma entries_for_add_same (dc : PyDict.t (list conn_entry)) (i h p dev : string) :
  entries_for i h p dc <= 1 ->
  entries_for i h p (add_to_device_connections dc h p i dev) = 1.
Proof.
  unfold add_to_device_connections, entries_for.
  destruct (PyDict.get i dc) as [entries|] eqn:Hget.
  - destruct (existsb (same_entry h p) entries) eqn:Hex.
    + rewrite Hget. intros Hle. apply filter_some in Hex. lia.
    + intros _. rewrite get_set_eq, List.filter_app, List.length_app, (filter_none _ _ _ Hex).
      simpl. assert (Hs : same_entry h p (mk_entry h p) = true)
        by (apply same_entry_true; split; reflexivity).
      rewrite Hs. reflexivity.
  - intros _. rewrite get_set_eq. simpl.
    assert (Hs : same_entry h p (mk_entry h p) = true)
      by (apply same_entry_true; split; reflexivity).
    rewrite Hs. reflexivity.
Qed.

Lemma add_preserves_at_most_once (dc : PyDict.t (list conn_entry)) (i h p dev : string) :
  at_most_once dc -> at_most_once (add_to_device_connections dc h p i dev).
Proof.
  intros Hinv i' h' p'.
  destruct (decide ((i', h', p') = (i, h, p))) as [[= -> -> ->]|Hne].
  - rewrite entries_for_add_same; [lia|apply Hinv].
  - rewrite entries_for_add_other by exact Hne. apply Hinv.
Qed.

Lemma fold_preserves_at_most_once (dev : string) (calls : list ledger_call)
    (dc : PyDict.t (list conn_entry)) :
  at_most_once dc -> at_most_once (fold_left (ledger_add dev) calls dc).
Proof.
  revert dc. induction calls as [|c calls IH]; intros dc Hinv; simpl; [exact Hinv|].
  apply IH. apply add_preserves_at_most_once. exact Hinv.
Qed.

Lemma ledger_after_at_most_once (dev : string) (calls : list ledger_call) :
  at_most_once (ledger_after dev calls).
Proof.
  apply fold_preserves_at_most_once. intros i h p. unfold entries_for. simpl. lia.
Qed.

(** A repeated call finds its own entry and changes nothing. *)
Lemma add_twice (dc : PyDict.t (list conn_entry)) (i h p dev dev' : string) :
  let d1 := add_to_device_connections dc h p i dev in
  add_to_device_connections d1 h p i dev' = d1.
Proof.
  cbv zeta.
  assert (Hfound : exists entries,
             PyDict.get i (add_to_device_connections dc h p i dev) = Some entries
             /\ existsb (same_entry h p) entries = true).
  { unfold add_to_device_connections.
    assert (Hs : same_entry h p (mk_entry h p) = true)
      by (apply same_entry_true; split; reflexivity).
    destruct (PyDict.get i dc) as [entries|] eqn:Hget.
    - destruct (existsb (same_entry h p) entries) eqn:Hex.
      + exists entries. split; assumption.
      + exists (entries ++ [mk_entry h p])%list. rewrite get_set_eq. split; [reflexivity|].
        rewrite existsb_app. simpl. rewrite Hs. apply orb_true_iff. right. reflexivity.
    - exists [mk_entry h p]. rewrite get_set_eq. split; [reflexivity|].
      simpl. rewrite Hs. reflexivity. }
  destruct Hfound as [entries [Hget Hex]].
  remember (add_to_device_connections dc h p i dev) as d1 eqn:Hd1.
  unfold add_to_device_connections. rewrite Hget, Hex. reflexivity.
Qed.

(** C4: on a ledger built by the processing, recording a triple that was
    just recorded changes nothing, and the ledger holds exactly one entry
    for the triple, however often the recording is repeated. *)
Theorem add_to_device_connections_idempotent
    (dev : string) (calls : list ledger_call) (interface host port : string) (n : nat) :
  let record d := add_to_device_connections d host port interface dev in
  let d1 := record (ledger_after dev calls) in
  record d1 = d1
  /\ entries_for interface host port d1 = 1
  /\ Nat.iter n record d1 = d1
  /\ entries_for interface host port (Nat.iter n record d1) = 1.
Proof.
  cbv zeta.
  assert (H1 : entries_for interface host port
                 (add_to_device_connections (ledger_after dev calls) host port interface dev) = 1).
  { apply entries_for_add_same. apply ledger_after_at_most_once. }
  assert (Hn : Nat.iter n (fun d => add_to_device_connections d host port interface dev)
                 (add_to_device_connections (ledger_after dev calls) host port interface dev)
               = add_to_device_connections (ledger_after dev calls) host port interface dev).
  { induction n as [|n IH]; simpl; [reflexivity|]. rewrite IH. apply add_twice. }
  repeat split.
  - apply add_twice.
  - exact H1.
  - exact Hn.
  - rewrite Hn. exact H1.
Qed.

(** ** Device registry *)

Lemma registry_os_insert (dl : gmap string fact) (k h : string) (f : fact) :
  registry_os (<[k := f]> dl) h = if decide (k = h) then os f else registry_os dl h.
Proof.
  unfold registry_os. destruct (decide (k = h)) as [->|Hne].
  - rewrite lookup_insert_eq. reflexivity.
  - rewrite lookup_insert_ne by exact Hne. reflexivity.
Qed.

Lemma registry_os_lookup (dl : gmap string fact) (h : string) (f : fact) :
  dl !! h = Some f -> registry_os dl h = os f.
Proof. unfold registry_os. intros ->. reflexivity. Qed.

(** The closing statement never touches an ['os'] value that is there. *)
Lemma registry_os_discoverer (dl : gmap string fact)
    (dest_host discover_name interface h : string) (f : fact) :
  dl !! h = Some f ->
  registry_os (fst (add_discoverer_interface dl dest_host discover_name interface)) h
  = os f.
Proof.
  intros Hh. unfold add_discoverer_interface.
  destruct (dl !! discover_name) as [g|] eqn:Hd.
  - destruct (dl !! dest_host) as [g'|] eqn:Hg; simpl.
    + rewrite registry_os_insert. destruct (decide (dest_host = h)) as [->|Hne].
      * rewrite Hh in Hg. injection Hg as <-. reflexivity.
      * apply registry_os_lookup. exact Hh.
    + apply registry_os_lookup. exact Hh.
  - simpl. rewrite registry_os_insert.
    destruct (decide (discover_name = h)) as [->|Hne]; [congruence|].
    apply registry_os_lookup. exact Hh.
Qed.

(** What a call does to the ['os'] value of an entry [h] that exists. *)
Lemma add_to_device_list_os (device_list : gmap string fact) (h : string) (f : fact)
    (host port : string) (int_address mgmt_address : gset address)
    (os_guess : option string) (discover_name interface : string) :
  device_list !! h = Some f ->
  registry_os
    (fst (add_to_device_list device_list host port int_address mgmt_address os_guess
            discover_name interface)) h
  = if decide (host = h) then
      if new_device f then
        match os f with Some None => Some os_guess | other => other end
      else os f
    else os f.
Proof.
  intros Hh. unfold add_to_device_list.
  destruct (decide (host = h)) as [->|Hne].
  - rewrite Hh. simpl. destruct (new_device f) eqn:Hnew; simpl.
    + destruct (os f) as [[o|]|] eqn:Hos; simpl.
      * destruct (ip f) as [addresses|] eqn:Hip; simpl.
        -- erewrite registry_os_discoverer by apply lookup_insert_eq. simpl. exact Hos.
        -- rewrite registry_os_insert, decide_True by reflexivity. simpl. exact Hos.
      * destruct (ip f) as [addresses|] eqn:Hip; simpl.
        -- erewrite registry_os_discoverer by apply lookup_insert_eq. reflexivity.
        -- rewrite registry_os_insert, decide_True by reflexivity. reflexivity.
      * rewrite registry_os_insert, decide_True by reflexivity. simpl. exact Hos.
    + rewrite registry_os_insert, decide_True by reflexivity. reflexivity.
  - destruct (device_list !! host) as [g|] eqn:Hg.
    + simpl. destruct (new_device g); simpl.
      * destruct (os g) as [current|]; simpl.
        -- match goal with
           | |- context [ip ?x] => destruct (ip x) as [addresses|]; simpl
           end.
           ++ erewrite registry_os_discoverer; [reflexivity|].
              rewrite !lookup_insert_ne by exact Hne. exact Hh.
           ++ rewrite !registry_os_insert, !decide_False by exact Hne.
              apply registry_os_lookup. exact Hh.
        -- rewrite registry_os_insert, decide_False by exact Hne.
           apply registry_os_lookup. exact Hh.
      * rewrite registry_os_insert, decide_False by exact Hne.
        apply registry_os_lookup. exact Hh.
    + erewrite registry_os_discoverer; [reflexivity|].
      rewrite lookup_insert_ne by exact Hne. exact Hh.
Qed.

(** C5: an ['os'] value that is not [None] survives every later call,
    whatever the guess; a call changes the value only when it is [None], and
    then to the guess of a call for that very host. *)
Theorem add_to_device_list_keeps_os (device_list : gmap string fact) (h : string)
    (f : fact) (host port : string) (int_address mgmt_address : gset address)
    (os_guess : option string) (discover_name interface : string) :
  device_list !! h = Some f ->
  let after :=
    registry_os
      (fst (add_to_device_list device_list host port int_address mgmt_address os_guess
              discover_name interface)) h in
  (forall o : string, os f = Some (Some o) -> after = Some (Some o))
  /\ (after <> os f -> os f = Some None /\ host = h /\ after = Some os_guess).
Proof.
  intros Hh. cbv zeta.
  rewrite (add_to_device_list_os _ _ _ _ _ _ _ _ _ _ Hh). split.
  - intros o Hos. rewrite Hos. destruct (decide (host = h)); [|reflexivity].
    destruct (new_device f); reflexivity.
  - destruct (decide (host = h)) as [->|Hne]; [|congruence].
    destruct (new_device f); [|congruence].
    destruct (os f) as [[o|]|]; try congruence. intros _. repeat split.
Qed.

Lemma add_to_device_list_keeps_os_witness :
  registry_os
    (fst (add_to_device_list Sample.registry "R2" "Ethernet0/4" ∅ {[ Some "10.0.0.9" ]}
            (Some "nxos") "R1" "Ethernet0/3")) "R2"
  = Some (Some "iosxe").
Proof.
  apply (proj1 (add_to_device_list_keeps_os Sample.registry "R2" Sample.R2_fact
                  "R2" "Ethernet0/4" ∅ {[ Some "10.0.0.9" ]} (Some "nxos") "R1"
                  "Ethernet0/3" eq_refl) "iosxe").
  reflexivity.
Defined.

(** C8, at a registry that already holds the discovering device [R1]: the
    call for neighbor [R2] seen on [R1]'s [Ethernet0/3] leaves [R1]'s port
    set as it was and puts the interface into [R2]'s port set. *)
Theorem add_to_device_list_discoverer_ports :
  let after :=
    fst (add_to_device_list Sample.registry "R2" "Ethernet0/2" ∅ {[ Some "10.0.0.2" ]}
           None "R1" "Ethernet0/3") in
  registry_ports Sample.registry "R1" = Some {[ "Ethernet0/1" ]}
  /\ registry_ports after "R1" = Some {[ "Ethernet0/1" ]}
  /\ ("Ethernet0/3" ∉ ({[ "Ethernet0/1" ]} : gset string))
  /\ registry_ports after "R2" = Some ({[ "Ethernet0/2" ]} ∪ {[ "Ethernet0/3" ]}).
Proof.
  cbv zeta. split; [|split; [|split]].
  - vm_compute. reflexivity.
  - vm_compute. reflexivity.
  - set_solver.
  - vm_compute. reflexivity.
Qed.

(** The same method, called for a remote host whose entry is not pending:
    it returns before the discovering device is looked at, and [R3] gets no
    entry. *)
Lemma add_to_device_list_returns_early :
  let r :=
    add_to_device_list Sample.registry "R1" "Ethernet0/7" ∅ {[ Some "10.0.0.1" ]}
      None "R3" "Ethernet0/5" in
  snd r = Return tt /\ (fst r) !! "R3" = None.
Proof. cbv zeta. split; vm_compute; reflexivity. Qed.

(** When the remote host is new and the discovering device has no entry,
    the discovering device gets a non-pending entry with that one port. *)
Lemma add_to_device_list_new_discoverer (device_list : gmap string fact)
    (host port : string) (int_address mgmt_address : gset address)
    (os_guess : option string) (discover_name interface : string) :
  device_list !! host = None ->
  device_list !! discover_name = None ->
  host <> discover_name ->
  fst (add_to_device_list device_list host port int_address mgmt_address os_guess
         discover_name interface) !! discover_name
  = Some (mk_fact {[ interface ]} None None None false).
Proof.
  intros Hhost Hd Hne. unfold add_to_device_list, add_discoverer_interface.
  rewrite Hhost. rewrite lookup_insert_ne by exact Hne. rewrite Hd. simpl.
  apply lookup_insert_eq.
Qed.

(** ** Exclusion by network range *)

(** The scan cannot end with [False] when an address of the product lies
    in its network: it stops there, or raised before. *)
Lemma excluded_scan_found (pairs : list (address * ipaddress.ip_network))
    (a : string) (n : Z) (net : ipaddress.ip_network) :
  In (Some a, net) pairs ->
  ipaddress.IPv4Address a = Some n ->
  ipaddress.contains net n = true ->
  excluded_scan pairs <> Return false.
Proof.
  intros Hin Hparse Hnet. induction pairs as [|[b net'] pairs IH]; [contradiction|].
  simpl. destruct Hin as [[= -> ->]|Hin].
  - simpl. rewrite Hparse, Hnet. discriminate.
  - destruct (IPv4Address_of b) as [m|]; [|discriminate].
    destruct (ipaddress.contains net' m); [discriminate|]. apply IH. exact Hin.
Qed.

Lemma excluded_scan_set (addresses : list string) (nets : list ipaddress.ip_network)
    (a : string) :
  In a addresses -> excluded nets a ->
  excluded_scan
    (product (elements (list_to_set (map Some addresses) : gset address)) nets)
  <> Return false.
Proof.
  intros Hin (n & net & Hparse & Hnet & Hcontains).
  apply (excluded_scan_found _ a n net); try assumption.
  apply in_prod; [|exact Hnet].
  apply list_elem_of_In, elem_of_elements, elem_of_list_to_set, list_elem_of_In.
  apply in_map. exact Hin.
Qed.

Lemma cdp_filter_excluded (self : Topology) (tb : testbed)
    (nets : list ipaddress.ip_network) (connection : cdp_connection) (a : string) :
  In a (cdp_candidates connection) -> excluded nets a ->
  forall adj : adjacency, cdp_filter self tb nets connection <> Return (Some adj).
Proof.
  intros Hin Hex adj. unfold cdp_filter, cdp_candidates in *.
  destruct (match system_name connection with
            | Some (String c s) => Some (String c s)
            | _ => device_id connection
            end) as [host|]; [|discriminate].
  destruct (_only_links self && negb (PyDict.mem (strip_domain host) (devices tb)));
    [discriminate|].
  destruct (cdp_port_id connection) as [port|]; simpl; [|discriminate].
  destruct (local_interface connection) as [interface|]; simpl; [|discriminate].
  destruct (PyStr.str_in interface (_exclude_interfaces self)); [discriminate|].
  destruct (PyStr.str_in port (_exclude_interfaces self)); [discriminate|].
  destruct (interface_addresses connection) as [int_address|];
    destruct (management_addresses connection) as [mgmt_address|]; try discriminate.
  simpl in Hin. apply in_app_or in Hin.
  destruct (excluded_scan (product (elements
              (list_to_set (map Some int_address) : gset address)) nets))
    as [stop_int|e] eqn:Hint; simpl; [|discriminate].
  destruct (excluded_scan (product (elements
              (list_to_set (map Some mgmt_address) : gset address)) nets))
    as [stop_mgmt|e] eqn:Hmgmt; simpl; [|discriminate].
  destruct stop_int; simpl; [discriminate|].
  destruct stop_mgmt; simpl; [discriminate|].
  destruct Hin as [Hin|Hin].
  - exfalso. exact (excluded_scan_set _ _ _ Hin Hex Hint).
  - exfalso. exact (excluded_scan_set _ _ _ Hin Hex Hmgmt).
Qed.

Lemma lldp_filter_excluded (self : Topology) (tb : testbed)
    (nets : list ipaddress.ip_network) (interface port : string) (entry : lldp_port)
    (a : string) :
  lldp_candidate entry = Some a -> excluded nets a ->
  forall adj : adjacency, lldp_filter self tb nets interface port entry <> Return (Some adj).
Proof.
  intros Hcand Hex adj. unfold lldp_filter, lldp_candidate in *.
  destruct (neighbors entry) as [nbrs|]; cbn [bind subscript]; [|discriminate].
  destruct (PyDict.keys nbrs) as [|first rest]; [discriminate|].
  destruct (_only_links self && negb (PyDict.mem (strip_domain first) (devices tb)));
    [discriminate|].
  destruct (PyStr.str_in interface (_exclude_interfaces self)); [discriminate|].
  destruct (PyStr.str_in port (_exclude_interfaces self)); [discriminate|].
  destruct (PyDict.get (strip_domain first) nbrs) as [neighbor|];
    cbn [bind subscript]; [|discriminate].
  rewrite Hcand.
  destruct Hex as (n & net & Hparse & Hnet & Hcontains).
  destruct nets as [|net0 nets]; [contradiction|].
  destruct (excluded_scan (product [Some a] (net0 :: nets))) as [stop|e] eqn:Hscan;
    cbn [bind]; [|discriminate].
  destruct stop; [discriminate|]. exfalso.
  apply (excluded_scan_found _ a n net) in Hscan; try assumption.
  apply in_prod; [left; reflexivity|exact Hnet].
Qed.

(** A loop whose bodies all leave the state alone leaves it alone. *)
Lemma for_each_unchanged {S A : Type} (body : A -> S -> S * outcome unit)
    (l : list A) (s : S) :
  (forall x, In x l -> fst (body x s) = s) -> fst (for_each body l s) = s.
Proof.
  induction l as [|x l IH]; intros Hall; simpl; [reflexivity|].
  pose proof (Hall x (or_introl eq_refl)) as Hx.
  destruct (body x s) as [s' [u|e]]; simpl in Hx; subst s'.
  - apply IH. intros y Hy. apply Hall. right. exact Hy.
  - reflexivity.
Qed.

(** C3: a CDP or LLDP record with a candidate address inside an excluded
    network leaves the registry and the ledger as they were, and a CDP
    table all of whose records are such leaves them as they were. *)
Theorem excluded_adjacency_not_recorded (self : Topology) (device_name : string)
    (tb : testbed) (nets : list ipaddress.ip_network) (a : string)
    (device_list : gmap string fact) (device_connections : PyDict.t (list conn_entry)) :
  excluded nets a ->
  (forall connection : cdp_connection,
     In a (cdp_candidates connection) ->
     fst (cdp_body self device_name tb nets connection (device_list, device_connections))
     = (device_list, device_connections))
  /\ (forall (interface port : string) (entry : lldp_port),
        lldp_candidate entry = Some a ->
        fst (lldp_body self device_name tb nets interface (port, entry)
               (device_list, device_connections))
        = (device_list, device_connections))
  /\ (forall result : cdp_result,
        (forall connection, In connection (map snd (default [] (cdp_index result))) ->
                            In a (cdp_candidates connection)) ->
        fst (_process_cdp_information self result device_name device_list nets tb
               device_connections)
        = (device_list, device_connections)).
Proof.
  intros Hex.
  assert (Hcdp : forall connection st, In a (cdp_candidates connection) ->
                   fst (cdp_body self device_name tb nets connection st) = st).
  { intros connection st Hin. unfold cdp_body.
    pose proof (cdp_filter_excluded self tb nets connection a Hin Hex) as Hno.
    destruct (cdp_filter self tb nets connection) as [[adj|]|e]; try reflexivity.
    exfalso. exact (Hno adj eq_refl). }
  split; [|split].
  - intros connection Hin. apply Hcdp. exact Hin.
  - intros interface port entry Hcand. unfold lldp_body. simpl.
    pose proof (lldp_filter_excluded self tb nets interface port entry a Hcand Hex) as Hno.
    destruct (lldp_filter self tb nets interface port entry) as [[adj|]|e]; try reflexivity.
    exfalso. exact (Hno adj eq_refl).
  - intros result Hall. unfold _process_cdp_information.
    destruct (cdp_index result) as [index|]; [|reflexivity].
    apply for_each_unchanged. intros connection Hin. apply Hcdp. apply Hall. exact Hin.
Qed.

Lemma excluded_adjacency_not_recorded_witness :
  fst (cdp_body Sample.self "R1" Sample.tb [Sample.net_192_168_1] Sample.cdp_excluded (∅, []))
  = (∅, [])
  /\ fst (lldp_body Sample.self "R1" Sample.tb [Sample.net_192_168_1] "Ethernet0/3"
            ("Ethernet0/9", Sample.lldp_excluded) (∅, []))
     = (∅, []).
Proof.
  assert (Hex : excluded [Sample.net_192_168_1] "192.168.1.5").
  { exists 3232235781%Z, Sample.net_192_168_1.
    split; [reflexivity|]. split; [left; reflexivity|reflexivity]. }
  pose proof (excluded_adjacency_not_recorded Sample.self "R1" Sample.tb
                [Sample.net_192_168_1] "192.168.1.5" ∅ [] Hex) as [Hc [Hl _]].
  split.
  - apply Hc. left. reflexivity.
  - apply Hl. reflexivity.
Defined.

(** ** The value handed back by [get_device_connections] *)

Lemma get_device_connections_None (self : Topology) (data : neighbor_data)
    (device_name : string) (device_list : gmap string fact)
    (nets : list ipaddress.ip_network) (tb : testbed) (v : conn_value) :
  snd (get_device_connections self data device_name device_list nets tb) = Return v ->
  v = PyNone.
Proof.
  unfold get_device_connections, get_device_connections_frame. cbn [snd].
  assert (Hlldp : forall st : gmap string fact * PyDict.t (list conn_entry),
             snd (match lldp data with
                  | None => (st, Return PyNone)
                  | Some result =>
                      match total_entries result with
                      | None => (st, Raise KeyError)
                      | Some n =>
                          if (n =? 0)%Z then (st, Return PyNone)
                          else
                            match _process_lldp_information self result device_name
                                    (fst st) nets tb (snd st) with
                            | (st, Raise e) => (st, Raise e)
                            | (st, Return _) => (st, Return PyNone)
                            end
                      end
                  end) = Return v -> v = PyNone).
  { intros st. destruct (lldp data) as [result|]; [|cbn; congruence].
    destruct (total_entries result) as [n|]; [|cbn; intros H; discriminate H].
    destruct (n =? 0)%Z; [cbn; congruence|].
    destruct (_process_lldp_information self result device_name (fst st) nets tb (snd st))
      as [st' [u'|e']]; [cbn; congruence|cbn; intros H; discriminate H]. }
  destruct (cdp data) as [result|].
  - destruct (_process_cdp_information self result device_name device_list nets tb [])
      as [st [u|e]]; [apply Hlldp|cbn; intros H; discriminate H].
  - apply Hlldp.
Qed.

Lemma all_None_set (device : string) (conn_dict : PyDict.t conn_value) :
  all_None conn_dict -> all_None (PyDict.set device PyNone conn_dict).
Proof.
  intros Hall. induction conn_dict as [|[k v] d IH]; simpl.
  - intros k' v' [[= <- <-]|[]]. reflexivity.
  - assert (Hd : all_None d) by (intros k' v' Hin; apply (Hall k' v'); right; exact Hin).
    destruct (String.eqb device k).
    + intros k' v' [[= <- <-]|Hin]; [reflexivity|]. apply (Hd k' v' Hin).
    + intros k' v' [[= <- <-]|Hin]; [apply (Hall k v); left; reflexivity|].
      apply (IH Hd k' v' Hin).
Qed.

Lemma get_set_None (device k : string) (conn_dict : PyDict.t conn_value) :
  device = k \/ PyDict.get device conn_dict = Some PyNone ->
  PyDict.get device (PyDict.set k PyNone conn_dict) = Some PyNone.
Proof.
  destruct (String.eqb_spec device k) as [->|Hne].
  - intros _. apply get_set_eq.
  - intros [Heq|Hget]; [contradiction|]. rewrite get_set_ne by exact Hne. exact Hget.
Qed.

Lemma process_entry_None (self : Topology) (tb : testbed)
    (nets : list ipaddress.ip_network) (entry : PyDict.t neighbor_data) :
  forall (device_list : gmap string fact) (conn_dict : PyDict.t conn_value)
         (device_list' : gmap string fact) (conn_dict' : PyDict.t conn_value)
         (out : outcome unit),
    process_entry self tb nets entry device_list conn_dict
    = ((device_list', conn_dict'), out) ->
    all_None conn_dict ->
    all_None conn_dict'
    /\ (out = Return tt ->
        forall device,
          In device (PyDict.keys entry) \/ PyDict.get device conn_dict = Some PyNone ->
          PyDict.get device conn_dict' = Some PyNone).
Proof.
  induction entry as [|[device_name data] rest IH];
    intros device_list conn_dict device_list' conn_dict' out Hrun Hall;
    cbn [process_entry] in Hrun.
  - injection Hrun as <- <- <-. split; [exact Hall|].
    intros _ device [[]|Hget]. exact Hget.
  - pose proof (get_device_connections_None self data device_name device_list nets tb) as Hv.
    destruct (get_device_connections self data device_name device_list nets tb)
      as [dl1 [v|e]]; simpl in Hv.
    + rewrite (Hv v eq_refl) in Hrun.
      destruct (IH _ _ _ _ _ Hrun (all_None_set device_name _ Hall)) as [Hall' Hkeys].
      split; [exact Hall'|]. intros Hout device Hdev. apply (Hkeys Hout).
      destruct Hdev as [[<-|Hin]|Hget].
      * right. apply get_set_eq.
      * left. exact Hin.
      * right. apply get_set_None. right. exact Hget.
    + injection Hrun as <- <- <-. split; [exact Hall|]. discriminate.
Qed.

Lemma process_entries_None (self : Topology) (tb : testbed)
    (nets : list ipaddress.ip_network) (result : list (PyDict.t neighbor_data)) :
  forall (device_list : gmap string fact) (conn_dict : PyDict.t conn_value)
         (device_list' : gmap string fact) (conn_dict' : PyDict.t conn_value)
         (out : outcome unit),
    process_entries self tb nets result device_list conn_dict
    = ((device_list', conn_dict'), out) ->
    all_None conn_dict ->
    all_None conn_dict'
    /\ (out = Return tt ->
        forall device,
          In device (polled result) \/ PyDict.get device conn_dict = Some PyNone ->
          PyDict.get device conn_dict' = Some PyNone).
Proof.
  induction result as [|entry rest IH];
    intros device_list conn_dict device_list' conn_dict' out Hrun Hall;
    cbn [process_entries] in Hrun.
  - injection Hrun as <- <- <-. split; [exact Hall|].
    intros _ device [[]|Hget]. exact Hget.
  - destruct (process_entry self tb nets entry device_list conn_dict)
      as [[dl1 cd1] [u|e]] eqn:Hentry.
    + destruct (process_entry_None _ _ _ _ _ _ _ _ _ Hentry Hall) as [Hall1 Hkeys1].
      destruct (IH _ _ _ _ _ Hrun Hall1) as [Hall' Hkeys].
      split; [exact Hall'|]. intros Hout device Hdev. apply (Hkeys Hout).
      unfold polled in Hdev. simpl in Hdev.
      destruct Hdev as [Hin|Hget].
      * apply in_app_or in Hin. destruct Hin as [Hin|Hin].
        -- right. destruct u. apply (Hkeys1 eq_refl). left. exact Hin.
        -- left. exact Hin.
      * right. destruct u. apply (Hkeys1 eq_refl). right. exact Hget.
    + injection Hrun as <- <- <-.
      destruct (process_entry_None _ _ _ _ _ _ _ _ _ Hentry Hall) as [Hall1 _].
      split; [exact Hall1|]. discriminate.
Qed.

(** Iterating a dictionary whose first value is [None] raises at once. *)
Lemma write_connections_None (conn_dict : PyDict.t conn_value) (tb : testbed) :
  conn_dict <> [] -> all_None conn_dict ->
  _write_connections_to_testbed conn_dict tb = (tb, Raise TypeError).
Proof.
  intros Hne Hall. destruct conn_dict as [|[device v] rest]; [contradiction|].
  rewrite (Hall device v (or_introl eq_refl)). reflexivity.
Qed.

(** C1: [get_device_connections] never hands back anything but [None];
    when [process_neighbor_data] returns, its dictionary maps every polled
    device to [None] and holds no other value; and with at least one device
    polled, writing that dictionary to the testbed raises [TypeError] and
    leaves the testbed as it was. *)
Theorem polled_devices_map_to_None (self : Topology) (tb : testbed)
    (nets : list ipaddress.ip_network) :
  (forall (data : neighbor_data) (device_name : string)
          (device_list : gmap string fact) (v : conn_value),
      snd (get_device_connections self data device_name device_list nets tb) = Return v ->
      v = PyNone)
  /\ (forall (device_list : gmap string fact) (result : list (PyDict.t neighbor_data))
             (conn_dict : PyDict.t conn_value),
        snd (process_neighbor_data self tb device_list nets result) = Return conn_dict ->
        (forall device, In device (polled result) ->
                        PyDict.get device conn_dict = Some PyNone)
        /\ all_None conn_dict
        /\ (polled result <> [] ->
            forall tb' : testbed,
              _write_connections_to_testbed conn_dict tb' = (tb', Raise TypeError))).
Proof.
  split.
  - intros data device_name device_list v. apply get_device_connections_None.
  - intros device_list result conn_dict Hrun. unfold process_neighbor_data in Hrun.
    destruct (process_entries self tb nets result device_list [])
      as [[dl' cd'] [u|e]] eqn:Hentries; simpl in Hrun; [|discriminate].
    injection Hrun as ->.
    assert (Hempty : all_None []) by (intros k v []).
    destruct (process_entries_None _ _ _ _ _ _ _ _ _ Hentries Hempty) as [Hall Hkeys].
    destruct u. specialize (Hkeys eq_refl).
    split; [|split].
    + intros device Hin. apply Hkeys. left. exact Hin.
    + exact Hall.
    + intros Hne tb'. apply write_connections_None; [|exact Hall].
      destruct (polled result) as [|device others] eqn:Hp; [contradiction|].
      intros ->. specialize (Hkeys device (or_introl (or_introl eq_refl))). discriminate.
Qed.

Lemma polled_devices_map_to_None_witness :
  snd (fst (get_device_connections_frame Sample.self
              (mk_data (Some (mk_cdp_result (Some [("1", Sample.cdp_R2)]))) None)
              "R1" ∅ [] Sample.tb))
  = [("Ethernet0/1", [mk_entry "R2" "Ethernet0/2"])]
  /\ snd (process_neighbor_data Sample.self Sample.tb ∅ [] Sample.round)
     = Return [("R1", PyNone)]
  /\ _write_connections_to_testbed [("R1", PyNone)] Sample.tb
     = (Sample.tb, Raise TypeError).
Proof.
  split; [vm_compute; reflexivity|].
  assert (Hrun : snd (process_neighbor_data Sample.self Sample.tb ∅ [] Sample.round)
                 = Return [("R1", PyNone)]) by (vm_compute; reflexivity).
  split; [exact Hrun|].
  apply (proj2 (polled_devices_map_to_None Sample.self Sample.tb [])
           ∅ Sample.round [("R1", PyNone)] Hrun).
  discriminate.
Defined.

(** ** Exclusion by interface name *)

(** What the filter does: a local interface or remote port that occurs as
    a slice of the exclusion argument stops the record. *)
Lemma cdp_filter_interface_in (self : Topology) (tb : testbed)
    (nets : list ipaddress.ip_network) (connection : cdp_connection)
    (interface port : string) :
  local_interface connection = Some interface ->
  cdp_port_id connection = Some port ->
  occurs interface (_exclude_interfaces self) \/ occurs port (_exclude_interfaces self) ->
  forall adj : adjacency, cdp_filter self tb nets connection <> Return (Some adj).
Proof.
  intros Hi Hp Hocc adj. unfold cdp_filter.
  destruct (match system_name connection with
            | Some (String c s) => Some (String c s)
            | _ => device_id connection
            end) as [host|]; [|discriminate].
  destruct (_only_links self && negb (PyDict.mem (strip_domain host) (devices tb)));
    [discriminate|].
  rewrite Hi, Hp. cbn [bind subscript].
  destruct (PyStr.str_in interface (_exclude_interfaces self)) eqn:Hin; [discriminate|].
  destruct (PyStr.str_in port (_exclude_interfaces self)) eqn:Hpin; [discriminate|].
  apply str_in_false_occurs in Hin, Hpin. destruct Hocc; contradiction.
Qed.

Lemma string_of_list_snoc (l : list ascii) (c : ascii) (s : string) :
  string_of_list_ascii (l ++ [c]) ++ s = string_of_list_ascii l ++ String c s.
Proof.
  induction l as [|a l IH]; [reflexivity|].
  change ((a :: l) ++ [c])%list with (a :: (l ++ [c]))%list.
  cbn [string_of_list_ascii]. rewrite !append_cons, IH. reflexivity.
Qed.

Lemma occurs_tail (x : string) (c : ascii) (s : string) :
  occurs x s -> occurs x (String c s).
Proof.
  intros [pre [post H]]. exists (String c pre), post. rewrite append_cons, H. reflexivity.
Qed.

Lemma append_empty_r (s : string) : s ++ EmptyString = s.
Proof. induction s as [|c s IH]; [reflexivity|]. rewrite append_cons, IH. reflexivity. Qed.

(** A piece of [split] is the run being read followed by a prefix of the
    rest, or lies inside the rest. *)
Lemma split_go_occurs (s : string) :
  forall (cur : list ascii) (x : string),
    In x (PyStr.split_go cur s) ->
    (exists post : string, string_of_list_ascii (rev cur) ++ s = x ++ post)
    \/ occurs x s.
Proof.
  induction s as [|c s IH]; intros cur x Hin; cbn [PyStr.split_go] in Hin.
  - destruct cur as [|a cur]; [destruct Hin|].
    destruct Hin as [<-|[]]. left. exists EmptyString. reflexivity.
  - destruct (PyStr.is_space c).
    + assert (Hrest : In x (PyStr.split_go [] s) -> occurs x (String c s)).
      { intros H. apply occurs_tail. destruct (IH [] x H) as [[post Hp]|Hocc].
        - exists EmptyString, post. exact Hp.
        - exact Hocc. }
      destruct cur as [|a cur]; [right; apply Hrest; exact Hin|].
      destruct Hin as [<-|Hin]; [|right; apply Hrest; exact Hin].
      left. exists (String c s). reflexivity.
    + destruct (IH (c :: cur) x Hin) as [[post Hp]|Hocc].
      * left. exists post. rewrite <- Hp. cbn [rev]. rewrite string_of_list_snoc.
        reflexivity.
      * right. apply occurs_tail. exact Hocc.
Qed.

(** Every entry of the whitespace-separated list is a slice of the
    argument, so a listed interface is always dropped. *)
Lemma split_entry_occurs (x s : string) : In x (PyStr.split s) -> occurs x s.
Proof.
  intros Hin. destruct (split_go_occurs s [] x Hin) as [[post Hp]|Hocc]; [|exact Hocc].
  exists EmptyString, post. exact Hp.
Qed.

Lemma cdp_filter_listed_interface (self : Topology) (tb : testbed)
    (nets : list ipaddress.ip_network) (connection : cdp_connection)
    (interface port : string) :
  local_interface connection = Some interface ->
  cdp_port_id connection = Some port ->
  In interface (PyStr.split (_exclude_interfaces self))
  \/ In port (PyStr.split (_exclude_interfaces self)) ->
  forall adj : adjacency, cdp_filter self tb nets connection <> Return (Some adj).
Proof.
  intros Hi Hp Hlisted. apply (cdp_filter_interface_in self tb nets connection interface port Hi Hp).
  destruct Hlisted as [H|H]; [left|right]; apply split_entry_occurs; exact H.
Qed.

(** C7, at the exclusion argument ["Ethernet0/10"]: neither [Ethernet0/1]
    nor [Ethernet0/2] is an entry of the list, yet the CDP record and the
    LLDP record over these two interfaces are dropped; without the
    exclusion argument the same CDP record is recorded. *)
Theorem exclude_interfaces_drops_unlisted :
  PyStr.split (_exclude_interfaces Sample.self_exclude) = ["Ethernet0/10"]
  /\ ~ In "Ethernet0/1" (PyStr.split (_exclude_interfaces Sample.self_exclude))
  /\ ~ In "Ethernet0/2" (PyStr.split (_exclude_interfaces Sample.self_exclude))
  /\ cdp_body Sample.self_exclude "R1" Sample.tb [] Sample.cdp_R2 (∅, [])
     = ((∅, []), Return tt)
  /\ lldp_body Sample.self_exclude "R1" Sample.tb [] "Ethernet0/1"
       ("Ethernet0/2", Sample.lldp_R2) (∅, [])
     = ((∅, []), Return tt)
  /\ snd (fst (cdp_body Sample.self "R1" Sample.tb [] Sample.cdp_R2 (∅, [])))
     = [("Ethernet0/1", [mk_entry "R2" "Ethernet0/2"])].
Proof.
  split; [reflexivity|].
  split; [intros [H|[]]; discriminate H|].
  split; [intros [H|[]]; discriminate H|].
  split; [vm_compute; reflexivity|].
  split; vm_compute; reflexivity.
Qed.

(** ** Link grouper *)

Lemma link_store_set_link (tb : testbed) (i : iface) (l : nat) :
  link_store (set_link tb i l) = link_store tb.
Proof. unfold set_link. destruct (PyDict.get (fst i) (devices tb)); reflexivity. Qed.

Lemma for_each_invariant {S A : Type} (P : S -> Prop)
    (body : A -> S -> S * outcome unit) (l : list A) :
  (forall x s, P s -> P (fst (body x s))) ->
  forall s, P s -> P (fst (for_each body l s)).
Proof.
  intros Hbody. induction l as [|x l IH]; intros s Hs; simpl; [exact Hs|].
  pose proof (Hbody x s Hs) as Hx.
  destruct (body x s) as [s' [u|e]]; simpl in Hx; [apply IH|]; exact Hx.
Qed.

(** An interface that has a link keeps the number of link objects: its
    link is the one that is extended. *)
Lemma write_interface_reuses_link (device_name : string)
    (item : string * list conn_entry) (tb : testbed) (obj : interface_obj) (l : nat) :
  find_interface tb (device_name, fst item) = Return obj ->
  link obj = Some l ->
  length (link_store (fst (write_interface device_name item tb)))
  = length (link_store tb).
Proof.
  intros Hfind Hlink. unfold write_interface. rewrite Hfind, Hlink.
  apply (for_each_invariant (fun tb' => length (link_store tb') = length (link_store tb)));
    [|reflexivity].
  intros entry tb' Hlen. unfold extend_link.
  destruct (find_interface tb' (dest_host entry, dest_port entry)); [|exact Hlen].
  destruct (link_store tb' !! l) as [o|]; [|exact Hlen].
  destruct (iface_in (dest_host entry, dest_port entry) (link_interfaces o)); [exact Hlen|].
  simpl. unfold connect_interface. rewrite link_store_set_link. simpl.
  rewrite length_alter. exact Hlen.
Qed.

(** C2, at two facts [R2:Ethernet2 -> R3:Ethernet3] and
    [R1:Ethernet1 -> R2:Ethernet2] with [R2] polled first: the call ends
    normally with two link objects; [R2:Ethernet2], which had a link when
    it was referenced, is a member of both, and no link holds the three
    interfaces. *)
Theorem write_connections_chain_two_links :
  let r := _write_connections_to_testbed Sample.chain_dict Sample.tb3 in
  snd r = Return tt
  /\ link_store (fst r)
     = [mk_link "Link_0" [("R2", "Ethernet2"); ("R3", "Ethernet3")];
        mk_link "Link_1" [("R1", "Ethernet1"); ("R2", "Ethernet2")]]
  /\ links_of (fst r) ("R2", "Ethernet2") = [0; 1]
  /\ links_of (fst r) ("R1", "Ethernet1") = [1]
  /\ links_of (fst r) ("R3", "Ethernet3") = [0].
Proof. cbv zeta. repeat (split; [vm_compute; reflexivity|]). vm_compute. reflexivity. Qed.

(** The same two facts with [R1] polled first end in one link. *)
Lemma write_connections_chain_R1_first :
  link_store (fst (_write_connections_to_testbed Sample.chain_dict_R1_first Sample.tb3))
  = [mk_link "Link_0" [("R1", "Ethernet1"); ("R2", "Ethernet2"); ("R3", "Ethernet3")]].
Proof. vm_compute. reflexivity. Qed.

(** ** Proxy chain synthesizer *)

Lemma set_last_command_app (command : string) (steps : list proxy_step)
    (last : proxy_step) :
  set_last_command command (steps ++ [last])
  = (steps ++ [mk_step (step_device last) command])%list.
Proof.
  induction steps as [|step steps IH]; [reflexivity|].
  change ((step :: steps) ++ [last])%list with (step :: (steps ++ [last]))%list.
  destruct (steps ++ [last])%list as [|x rest] eqn:Heq.
  - destruct steps; discriminate Heq.
  - change (set_last_command command (step :: x :: rest))
      with (step :: set_last_command command (x :: rest)).
    rewrite IH. reflexivity.
Qed.

(** C9: the extension is not applied to a copy of the chain.  For [R1],
    reached over the one-step chain that its [cli] connection holds, the call
    hands back that very list object, and the list the connection holds,
    one step through [jump1] to 10.0.0.254 before the call, is two steps
    after it: through [jump1] to [R1]'s own address and through [R1] to the
    interface address.  The finder's stored proxy list is not left
    unchanged. *)
Lemma write_proxy_chain_changes_stored_list :
  let r := write_proxy_chain "R1" Sample.tb_chained Sample.credentials "172.16.0.9"
             Sample.store in
  snd r = Return (ProxySteps 0)
  /\ stored_proxy Sample.tb_chained "R1" Sample.store
     = Some [mk_step "jump1" "ssh 10.0.0.254"]
  /\ stored_proxy Sample.tb_chained "R1" (fst r)
     = Some [mk_step "jump1" "ssh admin@10.1.1.1"; mk_step "R1" "ssh admin@172.16.0.9"]
  /\ stored_proxy Sample.tb_chained "R1" (fst r)
     <> stored_proxy Sample.tb_chained "R1" Sample.store.
Proof.
  cbv zeta. split; [reflexivity|]. split; [reflexivity|]. split; [reflexivity|].
  vm_compute. intros H. discriminate H.
Qed.

(** The list branch on every input, which is how the stored list comes to
    change: the call rewrites the last step's command to reach the finder's
    connection address and appends the step through the finder to the
    interface address on the list object that the finder's connection
    holds; no copy is made, the list handed back is that object, and no
    other list of the store changes. *)
Theorem write_proxy_chain_extends_in_place (finder_name : string) (tb : testbed)
    (credentials : PyDict.t (PyDict.t string)) (ip_addr : string)
    (store : list (list proxy_step)) (d : device) (default : PyDict.t string)
    (user : string) (loc : nat) (conn_ip : string) (steps : list proxy_step)
    (last : proxy_step) :
  PyDict.get finder_name (devices tb) = Some d ->
  PyDict.get "default" credentials = Some default ->
  PyDict.get "username" default = Some user ->
  find_ssh_proxy (connections d) = Return (Some (ProxySteps loc, conn_ip)) ->
  store !! loc = Some (steps ++ [last])%list ->
  let chain :=
    (steps ++ [mk_step (step_device last) ("ssh " ++ user ++ "@" ++ conn_ip);
               mk_step finder_name ("ssh " ++ user ++ "@" ++ ip_addr)])%list in
  let r := write_proxy_chain finder_name tb credentials ip_addr store in
  snd r = Return (ProxySteps loc)
  /\ steps_of (fst r) (ProxySteps loc) = Some chain
  /\ stored_proxy tb finder_name (fst r) = Some chain
  /\ (forall loc' : nat, loc' <> loc -> fst r !! loc' = store !! loc').
Proof.
  intros Hdev Hdefault Huser Hfind Hloc. cbv zeta.
  assert (Hrun : write_proxy_chain finder_name tb credentials ip_addr store
                 = (<[loc :=
                       (steps ++ [mk_step (step_device last) ("ssh " ++ user ++ "@" ++ conn_ip);
                                  mk_step finder_name ("ssh " ++ user ++ "@" ++ ip_addr)])%list]>
                      store,
                    Return (ProxySteps loc))).
  { unfold write_proxy_chain. rewrite Hdev, Hdefault. cbn [bind subscript].
    rewrite Huser. cbn [bind subscript]. rewrite Hfind. cbn [bind]. rewrite Hloc.
    destruct (steps ++ [last])%list as [|x rest] eqn:Heq.
    { destruct steps; discriminate Heq. }
    rewrite <- Heq, set_last_command_app, <- app_assoc. reflexivity. }
  rewrite Hrun. cbn [fst snd].
  assert (Hlt : loc < length store) by (eapply lookup_lt_Some; exact Hloc).
  split; [reflexivity|]. split; [|split].
  - cbn [steps_of]. apply list_lookup_insert_eq. exact Hlt.
  - unfold stored_proxy. rewrite Hdev, Hfind. cbn [steps_of].
    apply list_lookup_insert_eq. exact Hlt.
  - intros loc' Hne. apply list_lookup_insert_ne. congruence.
Qed.

Lemma write_proxy_chain_extends_in_place_witness :
  stored_proxy Sample.tb_chained "R1"
    (fst (write_proxy_chain "R1" Sample.tb_chained Sample.credentials "172.16.0.9"
            Sample.store))
  = Some [mk_step "jump1" "ssh admin@10.1.1.1"; mk_step "R1" "ssh admin@172.16.0.9"].
Proof.
  apply (write_proxy_chain_extends_in_place "R1" Sample.tb_chained Sample.credentials
           "172.16.0.9" Sample.store
           (mk_device
              [("cli", mk_connection (Some "ssh") (Some "10.1.1.1") (Some (ProxySteps 0)))]
              [("Ethernet0/1", mk_interface None)])
           [("username", "admin"); ("password", "secret")] "admin" 0 "10.1.1.1" []
           (mk_step "jump1" "ssh 10.0.0.254")
           eq_refl eq_refl eq_refl eq_refl eq_refl).
Defined.

(** C10: with a device name as the finder's proxy, the call returns a new
    list of exactly two steps, through the proxy to the finder's connection
    address and through the finder to the interface address as the finder's
    default user, and touches no list that was there. *)
Theorem write_proxy_chain_single_hop (finder_name : string) (tb : testbed)
    (credentials : PyDict.t (PyDict.t string)) (ip_addr : string)
    (store : list (list proxy_step)) (d : device) (default : PyDict.t string)
    (user proxy_name conn_ip : string) :
  PyDict.get finder_name (devices tb) = Some d ->
  PyDict.get "default" credentials = Some default ->
  PyDict.get "username" default = Some user ->
  find_ssh_proxy (connections d) = Return (Some (ProxyName proxy_name, conn_ip)) ->
  let r := write_proxy_chain finder_name tb credentials ip_addr store in
  exists v : proxy_value,
    snd r = Return v
    /\ steps_of (fst r) v
       = Some [mk_step proxy_name ("ssh " ++ conn_ip);
               mk_step finder_name ("ssh " ++ user ++ "@" ++ ip_addr)]
    /\ (forall loc : nat, loc < length store -> fst r !! loc = store !! loc)
    /\ stored_proxy tb finder_name (fst r) = stored_proxy tb finder_name store.
Proof.
  intros Hdev Hdefault Huser Hfind. cbv zeta.
  unfold write_proxy_chain. rewrite Hdev, Hdefault. cbn [bind subscript].
  rewrite Huser. cbn [bind subscript]. rewrite Hfind. cbn [bind fst snd].
  exists (ProxySteps (length store)). split; [reflexivity|]. split; [|split].
  - cbn [steps_of]. rewrite lookup_app_r by lia. rewrite Nat.sub_diag. reflexivity.
  - intros loc Hlt. apply lookup_app_l. exact Hlt.
  - unfold stored_proxy. rewrite Hdev, Hfind. reflexivity.
Qed.

Lemma write_proxy_chain_single_hop_witness :
  exists v : proxy_value,
    snd (write_proxy_chain "R1" Sample.tb Sample.credentials "172.16.0.9" []) = Return v
    /\ steps_of (fst (write_proxy_chain "R1" Sample.tb Sample.credentials "172.16.0.9" [])) v
       = Some [mk_step "jump1" "ssh 10.1.1.1"; mk_step "R1" "ssh admin@172.16.0.9"].
Proof.
  destruct (write_proxy_chain_single_hop "R1" Sample.tb Sample.credentials "172.16.0.9" []
              Sample.R1_device [("username", "admin"); ("password", "secret")]
              "admin" "jump1" "10.1.1.1" eq_refl eq_refl eq_refl eq_refl)
    as [v [Hret [Hsteps _]]].
  exists v. split; [exact Hret|exact Hsteps].
Defined.

(** * Part III: further properties *)

(** ** The hostname filter *)

Lemma hostname_run_prefix (s : string) :
  exists post : string, s = hostname_run s ++ post.
Proof.
  induction s as [|c s [post IH]]; [exists EmptyString; reflexivity|].
  cbn [hostname_run]. destruct (is_hostname_char c).
  - exists post. rewrite append_cons, <- IH. reflexivity.
  - exists (String c s). reflexivity.
Qed.

Lemma hostname_run_chars (s : string) :
  string_forall is_hostname_char (hostname_run s) = true.
Proof.
  induction s as [|c s IH]; [reflexivity|]. cbn [hostname_run].
  destruct (is_hostname_char c) eqn:Hc; [|reflexivity].
  cbn [string_forall]. rewrite Hc, IH. reflexivity.
Qed.

Lemma hostname_run_fixed (s : string) :
  string_forall is_hostname_char s = true -> hostname_run s = s.
Proof.
  induction s as [|c s IH]; [reflexivity|]. cbn [string_forall hostname_run].
  intros H. apply andb_true_iff in H. destruct H as [Hc Hs].
  rewrite Hc, (IH Hs). reflexivity.
Qed.

Lemma domain_filter_shape (s h : string) :
  domain_filter s = Some h ->
  exists (c : ascii) (rest : string),
    h = String c rest /\ is_hostname_char c = true
    /\ string_forall is_hostname_char h = true /\ occurs h s.
Proof.
  induction s as [|c s IH]; [discriminate|]. cbn [domain_filter].
  destruct (is_hostname_char c) eqn:Hc.
  - intros [= <-]. cbn [hostname_run]. rewrite Hc.
    exists c, (hostname_run s). split; [reflexivity|]. split; [exact Hc|]. split.
    + cbn [string_forall]. rewrite Hc. apply hostname_run_chars.
    + destruct (hostname_run_prefix s) as [post Hpost].
      exists EmptyString, post. rewrite append_nil, append_cons, <- Hpost. reflexivity.
  - destruct (Ascii.eqb c "010"); [discriminate|]. intros H.
    destruct (IH H) as (c' & rest & Hh & Hc' & Hall & Hocc).
    exists c', rest. repeat (split; [assumption|]). apply occurs_tail. exact Hocc.
Qed.

(** X1: when the hostname pattern matches, the name kept is a non-empty
    slice of the given name made of hyphens and word characters, as [\w] has
    them, only; filtering a filtered name changes nothing. *)
Theorem strip_domain_hostname (s : string) :
  (forall h : string,
     domain_filter s = Some h ->
     h <> EmptyString /\ string_forall is_hostname_char h = true /\ occurs h s)
  /\ strip_domain (strip_domain s) = strip_domain s.
Proof.
  split.
  - intros h Hm. destruct (domain_filter_shape s h Hm) as (c & rest & -> & _ & Hall & Hocc).
    split; [discriminate|]. split; assumption.
  - destruct (domain_filter s) as [h|] eqn:Hm.
    + assert (Hs : strip_domain s = h) by (unfold strip_domain; rewrite Hm; reflexivity).
      rewrite Hs.
      destruct (domain_filter_shape s h Hm) as (c & rest & -> & Hc & Hall & _).
      unfold strip_domain. cbn [domain_filter]. rewrite Hc.
      rewrite (hostname_run_fixed _ Hall). reflexivity.
    + assert (Hs : strip_domain s = s) by (unfold strip_domain; rewrite Hm; reflexivity).
      rewrite !Hs. reflexivity.
Qed.

Lemma strip_domain_hostname_witness :
  strip_domain "n77-1.cisco.com" = "n77-1"
  /\ occurs "n77-1" "n77-1.cisco.com"
  /\ strip_domain (String "R" (String Sample2.e_acute "2.lab"))
     = String "R" (String Sample2.e_acute "2")
  /\ occurs (String "R" (String Sample2.e_acute "2"))
       (String "R" (String Sample2.e_acute "2.lab")).
Proof.
  split; [reflexivity|]. split; [|split; [reflexivity|]].
  - apply (proj1 (strip_domain_hostname "n77-1.cisco.com") "n77-1"). reflexivity.
  - apply (proj1 (strip_domain_hostname (String "R" (String Sample2.e_acute "2.lab")))
             (String "R" (String Sample2.e_acute "2"))).
    reflexivity.
Defined.

(** ** The registry only grows *)

Lemma fact_le_refl (f : fact) : fact_le f f.
Proof.
  split; [reflexivity|]. split; [reflexivity|]. split; [reflexivity|].
  intros i Hi. exists i. split; [exact Hi|reflexivity].
Qed.

Lemma fact_le_trans (f g h : fact) : fact_le f g -> fact_le g h -> fact_le f h.
Proof.
  intros (Hp & Hf & Hn & Hi) (Hp' & Hf' & Hn' & Hi').
  split; [set_solver|]. split; [congruence|]. split; [congruence|].
  intros i Hfi. destruct (Hi i Hfi) as (i1 & Hg & Hsub).
  destruct (Hi' i1 Hg) as (i2 & Hh & Hsub'). exists i2. split; [exact Hh|set_solver].
Qed.

Lemma fact_le_add_port (p : string) (f : fact) : fact_le f (add_port p f).
Proof.
  split; [cbn; set_solver|]. split; [reflexivity|]. split; [reflexivity|].
  intros i Hi. exists i. split; [exact Hi|reflexivity].
Qed.

Lemma fact_le_set_os (o : option string) (f : fact) : fact_le f (set_os o f).
Proof.
  split; [reflexivity|]. split; [reflexivity|]. split; [reflexivity|].
  intros i Hi. exists i. split; [exact Hi|reflexivity].
Qed.

Lemma fact_le_set_ip (i m : gset address) (f : fact) :
  ip f = Some i -> fact_le f (set_ip (i ∪ m) f).
Proof.
  intros Hi. split; [reflexivity|]. split; [reflexivity|]. split; [reflexivity|].
  intros i0 Hi0. exists (i ∪ m). split; [reflexivity|].
  rewrite Hi in Hi0. injection Hi0 as <-. set_solver.
Qed.

Lemma registry_le_refl (dl : gmap string fact) : registry_le dl dl.
Proof. intros name f Hf. exists f. split; [exact Hf|apply fact_le_refl]. Qed.

Lemma registry_le_trans (a b c : gmap string fact) :
  registry_le a b -> registry_le b c -> registry_le a c.
Proof.
  intros Hab Hbc name f Hf. destruct (Hab name f Hf) as (g & Hg & Hfg).
  destruct (Hbc name g Hg) as (h & Hh & Hgh). exists h. split; [exact Hh|].
  exact (fact_le_trans _ _ _ Hfg Hgh).
Qed.

Lemma registry_le_insert_new (dl : gmap string fact) (k : string) (f : fact) :
  dl !! k = None -> registry_le dl (<[k := f]> dl).
Proof.
  intros Hk name g Hg. exists g. split; [|apply fact_le_refl].
  rewrite lookup_insert_ne; [exact Hg|]. intros ->. congruence.
Qed.

Lemma registry_le_insert_le (dl : gmap string fact) (k : string) (f f' : fact) :
  dl !! k = Some f -> fact_le f f' -> registry_le dl (<[k := f']> dl).
Proof.
  intros Hk Hle name g Hg. destruct (decide (k = name)) as [<-|Hne].
  - exists f'. rewrite lookup_insert_eq. split; [reflexivity|].
    rewrite Hk in Hg. injection Hg as <-. exact Hle.
  - exists g. rewrite lookup_insert_ne by exact Hne. split; [exact Hg|apply fact_le_refl].
Qed.

Lemma add_discoverer_interface_le (dl : gmap string fact)
    (host discover_name interface : string) :
  registry_le dl (fst (add_discoverer_interface dl host discover_name interface)).
Proof.
  unfold add_discoverer_interface. destruct (dl !! discover_name) as [g|] eqn:Hd.
  - destruct (dl !! host) as [f|] eqn:Hf; cbn [fst]; [|apply registry_le_refl].
    apply (registry_le_insert_le dl host f); [exact Hf|apply fact_le_add_port].
  - cbn [fst]. apply registry_le_insert_new. exact Hd.
Qed.

Lemma add_to_device_list_le (device_list : gmap string fact)
    (host port : string) (int_address mgmt_address : gset address)
    (os_guess : option string) (discover_name interface : string) :
  registry_le device_list
    (fst (add_to_device_list device_list host port int_address mgmt_address os_guess
            discover_name interface)).
Proof.
  unfold add_to_device_list. destruct (device_list !! host) as [f|] eqn:Hf.
  - cbv zeta.
    assert (H1 : registry_le device_list (<[host := add_port port f]> device_list))
      by (apply (registry_le_insert_le _ _ f); [exact Hf|apply fact_le_add_port]).
    destruct (negb (new_device (add_port port f))); [exact H1|].
    destruct (os (add_port port f)) as [current|]; [|exact H1].
    set (f2 := match current with
               | Some _ => add_port port f
               | None => set_os os_guess (add_port port f)
               end).
    assert (Hf2 : fact_le (add_port port f) f2)
      by (unfold f2; destruct current; [apply fact_le_refl|apply fact_le_set_os]).
    assert (H2 : registry_le device_list
                   (<[host := f2]> (<[host := add_port port f]> device_list))).
    { apply (registry_le_trans _ _ _ H1).
      apply (registry_le_insert_le _ _ (add_port port f));
        [apply lookup_insert_eq|exact Hf2]. }
    destruct (ip f2) as [addresses|] eqn:Hip; [|exact H2].
    eapply registry_le_trans; [|apply add_discoverer_interface_le].
    apply (registry_le_trans _ _ _ H2).
    apply (registry_le_insert_le _ _ f2); [apply lookup_insert_eq|].
    apply fact_le_set_ip. exact Hip.
  - eapply registry_le_trans; [|apply add_discoverer_interface_le].
    apply registry_le_insert_new. exact Hf.
Qed.

(** X2: a call of [add_to_device_list] never removes a device from the
    registry, never removes a port or a management address from an entry,
    and never changes an entry's finder or its pending flag, whether the call
    returns or raises. *)
Theorem add_to_device_list_only_grows (device_list : gmap string fact)
    (host port : string) (int_address mgmt_address : gset address)
    (os_guess : option string) (discover_name interface : string)
    (name : string) (f : fact) :
  device_list !! name = Some f ->
  exists f' : fact,
    fst (add_to_device_list device_list host port int_address mgmt_address os_guess
           discover_name interface) !! name = Some f'
    /\ ports f ⊆ ports f'
    /\ finder f' = finder f
    /\ new_device f' = new_device f
    /\ (forall i : gset address, ip f = Some i ->
          exists i' : gset address, ip f' = Some i' /\ i ⊆ i').
Proof.
  intros Hf.
  exact (add_to_device_list_le device_list host port int_address mgmt_address os_guess
           discover_name interface name f Hf).
Qed.

Lemma add_to_device_list_only_grows_witness :
  exists f' : fact,
    fst (add_to_device_list Sample.registry "R2" "Ethernet0/4" ∅ {[ Some "10.0.0.9" ]}
           (Some "nxos") "R3" "Ethernet0/3") !! "R2" = Some f'
    /\ ports Sample.R2_fact ⊆ ports f'
    /\ finder f' = Some ("R1", ∅).
Proof.
  destruct (add_to_device_list_only_grows Sample.registry "R2" "Ethernet0/4" ∅
              {[ Some "10.0.0.9" ]} (Some "nxos") "R3" "Ethernet0/3" "R2"
              Sample.R2_fact eq_refl) as (f' & Hf' & Hp & Hfin & _).
  exists f'. split; [exact Hf'|]. split; [exact Hp|exact Hfin].
Defined.

(** ** Registries made by the creator never make it raise *)

Lemma registry_wf_insert (dl : gmap string fact) (k : string) (f : fact) :
  registry_wf dl ->
  (new_device f = true -> is_Some (ip f) /\ is_Some (os f)) ->
  registry_wf (<[k := f]> dl).
Proof.
  intros Hwf Hf name g Hg. destruct (decide (k = name)) as [<-|Hne].
  - rewrite lookup_insert_eq in Hg. injection Hg as <-. exact Hf.
  - rewrite lookup_insert_ne in Hg by exact Hne. exact (Hwf name g Hg).
Qed.

Lemma add_discoverer_interface_wf (dl : gmap string fact)
    (host discover_name interface : string) :
  registry_wf dl -> is_Some (dl !! host) ->
  snd (add_discoverer_interface dl host discover_name interface) = Return tt
  /\ registry_wf (fst (add_discoverer_interface dl host discover_name interface)).
Proof.
  intros Hwf [f Hf]. unfold add_discoverer_interface.
  destruct (dl !! discover_name) as [g|].
  - rewrite Hf. cbn [fst snd]. split; [reflexivity|].
    apply registry_wf_insert; [exact Hwf|]. exact (Hwf host f Hf).
  - cbn [fst snd]. split; [reflexivity|].
    apply registry_wf_insert; [exact Hwf|]. discriminate.
Qed.

Lemma add_to_device_list_wf (device_list : gmap string fact)
    (host port : string) (int_address mgmt_address : gset address)
    (os_guess : option string) (discover_name interface : string) :
  registry_wf device_list ->
  snd (add_to_device_list device_list host port int_address mgmt_address os_guess
         discover_name interface) = Return tt
  /\ registry_wf
       (fst (add_to_device_list device_list host port int_address mgmt_address os_guess
               discover_name interface)).
Proof.
  intros Hwf. unfold add_to_device_list. destruct (device_list !! host) as [f|] eqn:Hf.
  - cbv zeta. pose proof (Hwf host f Hf) as Hfwf.
    assert (Hwf1 : registry_wf (<[host := add_port port f]> device_list))
      by (apply registry_wf_insert; [exact Hwf|exact Hfwf]).
    change (new_device (add_port port f)) with (new_device f).
    change (os (add_port port f)) with (os f).
    destruct (new_device f) eqn:Hnew; cbn [negb]; [|split; [reflexivity|exact Hwf1]].
    destruct (Hfwf eq_refl) as [[addresses Hip] [current Hos]]. rewrite Hos.
    set (f2 := match current with
               | Some _ => add_port port f
               | None => set_os os_guess (add_port port f)
               end).
    assert (Hip2 : ip f2 = Some addresses) by (unfold f2; destruct current; exact Hip).
    assert (Hos2 : is_Some (os f2))
      by (unfold f2; destruct current as [o|];
          [exists (Some o); exact Hos|eexists; reflexivity]).
    rewrite Hip2. apply add_discoverer_interface_wf.
    + apply registry_wf_insert; [apply registry_wf_insert; [exact Hwf1|]|].
      * intros _. split; [exists addresses; exact Hip2|exact Hos2].
      * intros _. split; [eexists; reflexivity|exact Hos2].
    + rewrite lookup_insert_eq. eexists; reflexivity.
  - apply add_discoverer_interface_wf.
    + apply registry_wf_insert; [exact Hwf|]. intros _. split; eexists; reflexivity.
    + rewrite lookup_insert_eq. eexists; reflexivity.
Qed.

(** X3: on a registry in which every pending entry has its ['ip'] and
    ['os'] keys — the empty registry is one — [add_to_device_list] returns
    without raising and leaves such a registry: the creator's own registries
    never run into the missing-key paths. *)
Theorem add_to_device_list_never_raises (device_list : gmap string fact)
    (host port : string) (int_address mgmt_address : gset address)
    (os_guess : option string) (discover_name interface : string) :
  registry_wf ∅
  /\ (registry_wf device_list ->
      snd (add_to_device_list device_list host port int_address mgmt_address os_guess
             discover_name interface) = Return tt
      /\ registry_wf
           (fst (add_to_device_list device_list host port int_address mgmt_address
                   os_guess discover_name interface))).
Proof.
  split.
  - intros name f Hf. rewrite lookup_empty in Hf. discriminate.
  - apply add_to_device_list_wf.
Qed.

Lemma add_to_device_list_never_raises_witness :
  snd (add_to_device_list ∅ "R2" "Ethernet0/2" ∅ {[ Some "10.0.0.2" ]} None "R1"
         "Ethernet0/1") = Return tt.
Proof.
  apply (proj2 (add_to_device_list_never_raises ∅ "R2" "Ethernet0/2" ∅
                  {[ Some "10.0.0.2" ]} None "R1" "Ethernet0/1")).
  intros name f Hf. rewrite lookup_empty in Hf. discriminate Hf.
Defined.

(** ** What recording an adjacency leaves behind *)

Lemma add_to_device_list_has_port (device_list : gmap string fact)
    (host port : string) (int_address mgmt_address : gset address)
    (os_guess : option string) (discover_name interface : string) :
  exists f : fact,
    fst (add_to_device_list device_list host port int_address mgmt_address os_guess
           discover_name interface) !! host = Some f
    /\ port ∈ ports f.
Proof.
  assert (Htail : forall dl g, dl !! host = Some g -> port ∈ ports g ->
            exists f, fst (add_discoverer_interface dl host discover_name interface)
                      !! host = Some f /\ port ∈ ports f).
  { intros dl g Hg Hin.
    destruct (add_discoverer_interface_le dl host discover_name interface host g Hg)
      as (f' & Hf' & Hsub & _).
    exists f'. split; [exact Hf'|set_solver]. }
  unfold add_to_device_list. destruct (device_list !! host) as [f|] eqn:Hf.
  - cbv zeta.
    assert (Hin : port ∈ ports (add_port port f)) by (cbn; set_solver).
    destruct (negb (new_device (add_port port f))).
    { exists (add_port port f). cbn [fst]. rewrite lookup_insert_eq.
      split; [reflexivity|exact Hin]. }
    destruct (os (add_port port f)) as [current|].
    2:{ exists (add_port port f). cbn [fst]. rewrite lookup_insert_eq.
        split; [reflexivity|exact Hin]. }
    set (f2 := match current with
               | Some _ => add_port port f
               | None => set_os os_guess (add_port port f)
               end).
    assert (Hin2 : port ∈ ports f2) by (unfold f2; destruct current; exact Hin).
    destruct (ip f2) as [addresses|].
    + apply (Htail _ (set_ip (addresses ∪ mgmt_address) f2));
        [apply lookup_insert_eq|exact Hin2].
    + exists f2. cbn [fst]. rewrite lookup_insert_eq. split; [reflexivity|exact Hin2].
  - eapply Htail; [apply lookup_insert_eq|]. cbn. set_solver.
Qed.

Lemma add_to_device_connections_present (dc : PyDict.t (list conn_entry))
    (host port interface dev : string) :
  exists entries : list conn_entry,
    PyDict.get interface (add_to_device_connections dc host port interface dev)
    = Some entries
    /\ In (mk_entry host port) entries.
Proof.
  unfold add_to_device_connections.
  destruct (PyDict.get interface dc) as [entries|] eqn:Hget.
  - destruct (existsb (same_entry host port) entries) eqn:Hex.
    + exists entries. split; [exact Hget|].
      apply existsb_exists in Hex. destruct Hex as ([h p] & Hin & Hs).
      unfold same_entry in Hs. cbn in Hs. apply andb_true_iff in Hs.
      destruct Hs as [Hh Hp]. apply String.eqb_eq in Hh, Hp. subst. exact Hin.
    + exists (entries ++ [mk_entry host port])%list. rewrite get_set_eq.
      split; [reflexivity|]. apply in_or_app. right. left. reflexivity.
  - exists [mk_entry host port]. rewrite get_set_eq. split; [reflexivity|left; reflexivity].
Qed.

(** X4: a neighbor record that passed the filters, recorded on a registry
    the creator made, ends normally with the remote host in the registry,
    its port among the host's ports, and the (host, port) pair in the ledger
    under the local interface. *)
Theorem record_adjacency_records (device_name : string) (a : adjacency)
    (device_list : gmap string fact) (device_connections : PyDict.t (list conn_entry)) :
  registry_wf device_list ->
  let r := record_adjacency device_name a (device_list, device_connections) in
  snd r = Return tt
  /\ (exists f : fact,
        fst (fst r) !! adj_dest_host a = Some f /\ adj_dest_port a ∈ ports f)
  /\ (exists entries : list conn_entry,
        PyDict.get (adj_interface a) (snd (fst r)) = Some entries
        /\ In (mk_entry (adj_dest_host a) (adj_dest_port a)) entries).
Proof.
  intros Hwf. cbv zeta. unfold record_adjacency. cbn [fst snd].
  pose proof (add_to_device_list_wf device_list (adj_dest_host a) (adj_dest_port a)
                (adj_int_set a) (adj_mgmt_set a) (adj_os a) device_name (adj_interface a)
                Hwf) as [Hret _].
  pose proof (add_to_device_list_has_port device_list (adj_dest_host a) (adj_dest_port a)
                (adj_int_set a) (adj_mgmt_set a) (adj_os a) device_name (adj_interface a))
    as Hport.
  destruct (add_to_device_list device_list (adj_dest_host a) (adj_dest_port a)
              (adj_int_set a) (adj_mgmt_set a) (adj_os a) device_name (adj_interface a))
    as [dl' [u|e]]; cbn [fst snd] in *; [|discriminate Hret].
  split; [reflexivity|]. split; [exact Hport|].
  apply add_to_device_connections_present.
Qed.

Lemma record_adjacency_records_witness :
  snd (cdp_body Sample.self "R1" Sample.tb [] Sample.cdp_R2 (∅, [])) = Return tt
  /\ snd (fst (cdp_body Sample.self "R1" Sample.tb [] Sample.cdp_R2 (∅, [])))
     = [("Ethernet0/1", [mk_entry "R2" "Ethernet0/2"])].
Proof.
  assert (Hwf : registry_wf ∅)
    by (intros name f Hf; rewrite lookup_empty in Hf; discriminate Hf).
  pose proof (record_adjacency_records "R1"
                (mk_adjacency "Ethernet0/1" "R2" "Ethernet0/2" {[ Some "10.0.0.2" ]} ∅
                   (Some "iosxe")) ∅ [] Hwf) as [Hret _].
  split; [exact Hret|vm_compute; reflexivity].
Defined.

(** ** Links-only mode adds no device *)

Lemma add_discoverer_interface_dom (dl : gmap string fact)
    (host discover_name interface name : string) :
  is_Some (fst (add_discoverer_interface dl host discover_name interface) !! name) ->
  is_Some (dl !! name) \/ name = discover_name.
Proof.
  unfold add_discoverer_interface. destruct (dl !! discover_name) as [g|].
  - destruct (dl !! host) as [f|] eqn:Hf; cbn [fst]; [|left; assumption].
    destruct (decide (host = name)) as [<-|Hne].
    + intros _. left. exists f. exact Hf.
    + rewrite lookup_insert_ne by exact Hne. left. assumption.
  - cbn [fst]. destruct (decide (discover_name = name)) as [<-|Hne].
    + right. reflexivity.
    + rewrite lookup_insert_ne by exact Hne. left. assumption.
Qed.

Lemma insert_dom (dl : gmap string fact) (k name : string) (f : fact) :
  is_Some (<[k := f]> dl !! name) -> is_Some (dl !! name) \/ name = k.
Proof.
  destruct (decide (k = name)) as [<-|Hne]; [right; reflexivity|].
  rewrite lookup_insert_ne by exact Hne. left. assumption.
Qed.

Lemma add_to_device_list_dom (device_list : gmap string fact)
    (host port : string) (int_address mgmt_address : gset address)
    (os_guess : option string) (discover_name interface name : string) :
  is_Some (fst (add_to_device_list device_list host port int_address mgmt_address
                  os_guess discover_name interface) !! name) ->
  is_Some (device_list !! name) \/ name = host \/ name = discover_name.
Proof.
  assert (Hins : forall (dl : gmap string fact) f, (forall n, is_Some (dl !! n) ->
                                 is_Some (device_list !! n) \/ n = host) ->
            forall n, is_Some (<[host := f]> dl !! n) ->
                      is_Some (device_list !! n) \/ n = host).
  { intros dl f Hdl n Hn. destruct (insert_dom _ _ _ _ Hn) as [H|H]; [exact (Hdl n H)|].
    right. exact H. }
  assert (Htail : forall dl : gmap string fact, (forall n, is_Some (dl !! n) ->
                                is_Some (device_list !! n) \/ n = host) ->
            is_Some (fst (add_discoverer_interface dl host discover_name interface) !! name) ->
            is_Some (device_list !! name) \/ name = host \/ name = discover_name).
  { intros dl Hdl Hn. destruct (add_discoverer_interface_dom _ _ _ _ _ Hn) as [H|H].
    - destruct (Hdl name H) as [H'|H']; [left; exact H'|right; left; exact H'].
    - right. right. exact H. }
  assert (H0 : forall n, is_Some (device_list !! n) ->
                 is_Some (device_list !! n) \/ n = host) by (intros n H; left; exact H).
  assert (Hweak : forall dl : gmap string fact, (forall n, is_Some (dl !! n) ->
                                is_Some (device_list !! n) \/ n = host) ->
            is_Some (dl !! name) ->
            is_Some (device_list !! name) \/ name = host \/ name = discover_name).
  { intros dl Hdl Hn. destruct (Hdl name Hn) as [H|H]; [left; exact H|right; left; exact H]. }
  unfold add_to_device_list. destruct (device_list !! host) as [f|].
  - cbv zeta. destruct (negb (new_device (add_port port f))).
    { apply Hweak. apply Hins. exact H0. }
    destruct (os (add_port port f)) as [current|].
    2:{ apply Hweak. apply Hins. exact H0. }
    match goal with
    | |- context [ip ?x] => destruct (ip x) as [addresses|]
    end.
    + apply Htail. apply Hins. apply Hins. apply Hins. exact H0.
    + apply Hweak. apply Hins. apply Hins. exact H0.
  - apply Htail. apply Hins. exact H0.
Qed.

Lemma cdp_filter_only_links (self : Topology) (tb : testbed)
    (nets : list ipaddress.ip_network) (connection : cdp_connection) (a : adjacency) :
  _only_links self = true ->
  cdp_filter self tb nets connection = Return (Some a) ->
  PyDict.mem (adj_dest_host a) (devices tb) = true.
Proof.
  intros Honly. unfold cdp_filter. rewrite Honly.
  destruct (match system_name connection with
            | Some (String c s) => Some (String c s)
            | _ => device_id connection
            end) as [host|]; [|discriminate].
  destruct (PyDict.mem (strip_domain host) (devices tb)) eqn:Hmem; [|discriminate].
  cbn [andb negb].
  destruct (cdp_port_id connection) as [port|]; cbn [bind subscript]; [|discriminate].
  destruct (local_interface connection) as [interface|]; cbn [bind subscript];
    [|discriminate].
  destruct (PyStr.str_in interface (_exclude_interfaces self)); [discriminate|].
  destruct (PyStr.str_in port (_exclude_interfaces self)); [discriminate|].
  destruct (interface_addresses connection) as [int_address|];
    destruct (management_addresses connection) as [mgmt_address|]; try discriminate.
  destruct (excluded_scan (product (elements
              (list_to_set (map Some int_address) : gset address)) nets))
    as [stop_int|e]; cbn [bind]; [|discriminate].
  destruct (excluded_scan (product (elements
              (list_to_set (map Some mgmt_address) : gset address)) nets))
    as [stop_mgmt|e]; cbn [bind]; [|discriminate].
  destruct (stop_int || stop_mgmt); [discriminate|].
  destruct (software_version connection) as [version|]; cbn [bind subscript];
    [|discriminate].
  destruct (platform connection) as [plat|]; cbn [bind subscript]; [|discriminate].
  intros [= <-]. exact Hmem.
Qed.

Lemma lldp_filter_only_links (self : Topology) (tb : testbed)
    (nets : list ipaddress.ip_network) (interface port : string) (entry : lldp_port)
    (a : adjacency) :
  _only_links self = true ->
  lldp_filter self tb nets interface port entry = Return (Some a) ->
  PyDict.mem (adj_dest_host a) (devices tb) = true.
Proof.
  intros Honly. unfold lldp_filter. rewrite Honly.
  destruct (neighbors entry) as [nbrs|]; cbn [bind subscript]; [|discriminate].
  destruct (PyDict.keys nbrs) as [|first rest]; [discriminate|].
  destruct (PyDict.mem (strip_domain first) (devices tb)) eqn:Hmem; [|discriminate].
  cbn [andb negb].
  destruct (PyStr.str_in interface (_exclude_interfaces self)); [discriminate|].
  destruct (PyStr.str_in port (_exclude_interfaces self)); [discriminate|].
  destruct (PyDict.get (strip_domain first) nbrs) as [neighbor|];
    cbn [bind subscript]; [|discriminate].
  destruct (match lldp_ip_address neighbor with
            | Some _ =>
                match nets with
                | [] => Return false
                | _ :: _ => excluded_scan (product [lldp_ip_address neighbor] nets)
                end
            | None => Return false
            end) as [stop|e]; cbn [bind]; [|discriminate].
  destruct stop; [discriminate|].
  destruct (system_description neighbor) as [description|]; cbn [bind subscript];
    [|discriminate].
  intros [= <-]. exact Hmem.
Qed.

Lemma record_adjacency_dom (device_name : string) (a : adjacency)
    (st : gmap string fact * PyDict.t (list conn_entry)) (name : string) :
  is_Some (fst (fst (record_adjacency device_name a st)) !! name) ->
  is_Some (fst st !! name) \/ name = adj_dest_host a \/ name = device_name.
Proof.
  unfold record_adjacency.
  pose proof (add_to_device_list_dom (fst st) (adj_dest_host a) (adj_dest_port a)
                (adj_int_set a) (adj_mgmt_set a) (adj_os a) device_name (adj_interface a)
                name) as Hdom.
  destruct (add_to_device_list (fst st) (adj_dest_host a) (adj_dest_port a)
              (adj_int_set a) (adj_mgmt_set a) (adj_os a) device_name (adj_interface a))
    as [dl' [u|e]]; cbn [fst] in *; exact Hdom.
Qed.

(** The names a links-only round may hold in the registry. *)
Lemma only_links_body_names (self : Topology) (device_name : string) (tb : testbed)
    (device_list : gmap string fact) (name : string)
    (st st' : gmap string fact * PyDict.t (list conn_entry)) (a : adjacency) :
  PyDict.mem (adj_dest_host a) (devices tb) = true ->
  (is_Some (fst st !! name) ->
   is_Some (device_list !! name) \/ name = device_name
   \/ PyDict.mem name (devices tb) = true) ->
  is_Some (fst (fst (record_adjacency device_name a st)) !! name) ->
  is_Some (device_list !! name) \/ name = device_name
  \/ PyDict.mem name (devices tb) = true.
Proof.
  intros Hmem Hst Hn. destruct (record_adjacency_dom _ _ _ _ Hn) as [H|[H|H]].
  - exact (Hst H).
  - subst name. right. right. exact Hmem.
  - subst name. right. left. reflexivity.
Qed.

(** X5: with [only_links] set, processing a device's CDP and LLDP data
    puts no name into the registry besides the names already there, the
    polled device itself and the names of devices of the testbed. *)
Theorem only_links_adds_no_device (self : Topology) (data : neighbor_data)
    (device_name : string) (device_list : gmap string fact)
    (nets : list ipaddress.ip_network) (tb : testbed) (name : string) :
  _only_links self = true ->
  is_Some (fst (get_device_connections self data device_name device_list nets tb)
           !! name) ->
  is_Some (device_list !! name) \/ name = device_name
  \/ PyDict.mem name (devices tb) = true.
Proof.
  intros Honly.
  set (P := fun st : gmap string fact * PyDict.t (list conn_entry) =>
              forall n, is_Some (fst st !! n) ->
                        is_Some (device_list !! n) \/ n = device_name
                        \/ PyDict.mem n (devices tb) = true).
  assert (Hcdp : forall connection st, P st ->
                   P (fst (cdp_body self device_name tb nets connection st))).
  { intros connection st Hst. unfold cdp_body.
    pose proof (cdp_filter_only_links self tb nets connection) as Hmem.
    destruct (cdp_filter self tb nets connection) as [[a|]|e]; try exact Hst.
    intros n Hn. exact (only_links_body_names self device_name tb device_list n st st a
                          (Hmem a Honly eq_refl) (Hst n) Hn). }
  assert (Hlldp : forall interface item st, P st ->
                    P (fst (lldp_body self device_name tb nets interface item st))).
  { intros interface item st Hst. unfold lldp_body.
    pose proof (lldp_filter_only_links self tb nets interface (fst item) (snd item))
      as Hmem.
    destruct (lldp_filter self tb nets interface (fst item) (snd item)) as [[a|]|e];
      try exact Hst.
    intros n Hn. exact (only_links_body_names self device_name tb device_list n st st a
                          (Hmem a Honly eq_refl) (Hst n) Hn). }
  assert (Hpc : forall result dl dc, P (dl, dc) ->
                  P (fst (_process_cdp_information self result device_name dl nets tb dc))).
  { intros result dl dc Hst. unfold _process_cdp_information.
    destruct (cdp_index result) as [index|]; [|exact Hst].
    apply (for_each_invariant P); [|exact Hst]. intros x s. apply Hcdp. }
  assert (Hpl : forall result dl dc, P (dl, dc) ->
                  P (fst (_process_lldp_information self result device_name dl nets tb dc))).
  { intros result dl dc Hst. unfold _process_lldp_information.
    destruct (lldp_interfaces result) as [table|]; [|exact Hst].
    apply (for_each_invariant P); [|exact Hst]. intros item s Hs.
    destruct (lldp_port_id (snd item)) as [port_list|]; [|exact Hs].
    apply (for_each_invariant P); [|exact Hs]. intros x s'. apply Hlldp. }
  assert (H0 : P (device_list, [])) by (intros n Hn; left; exact Hn).
  intros Hname. apply (fun HP : P (fst (get_device_connections_frame self data device_name
                                          device_list nets tb)) => HP name Hname).
  unfold get_device_connections_frame.
  assert (Hl : forall st : gmap string fact * PyDict.t (list conn_entry), P st ->
            P (fst (match lldp data with
                    | None => (st, Return PyNone)
                    | Some result =>
                        match total_entries result with
                        | None => (st, Raise KeyError)
                        | Some n =>
                            if (n =? 0)%Z then (st, Return PyNone)
                            else
                              match _process_lldp_information self result device_name
                                      (fst st) nets tb (snd st) with
                              | (st, Raise e) => (st, Raise e)
                              | (st, Return _) => (st, Return PyNone)
                              end
                        end
                    end))).
  { intros st Hst. destruct (lldp data) as [result|]; [|exact Hst].
    destruct (total_entries result) as [n|]; [|exact Hst].
    destruct (n =? 0)%Z; [exact Hst|].
    pose proof (Hpl result (fst st) (snd st)) as H.
    destruct (_process_lldp_information self result device_name (fst st) nets tb (snd st))
      as [st' [u|e]]; cbn [fst] in *; apply H; destruct st; exact Hst. }
  destruct (cdp data) as [result|].
  - pose proof (Hpc result device_list [] H0) as H.
    destruct (_process_cdp_information self result device_name device_list nets tb [])
      as [st [u|e]]; cbn [fst] in H; [apply Hl; exact H|exact H].
  - apply Hl. exact H0.
Qed.

Lemma only_links_adds_no_device_witness :
  ~ is_Some (fst (get_device_connections (mk_Topology true "")
                    (mk_data (Some (mk_cdp_result (Some [("1", Sample.cdp_R2)]))) None)
                    "R1" ∅ [] Sample.tb) !! "R2").
Proof.
  intros H.
  destruct (only_links_adds_no_device (mk_Topology true "")
              (mk_data (Some (mk_cdp_result (Some [("1", Sample.cdp_R2)]))) None)
              "R1" ∅ [] Sample.tb "R2" eq_refl H) as [[f Hf]|[Hn|Hm]].
  - rewrite lookup_empty in Hf. discriminate Hf.
  - discriminate Hn.
  - discriminate Hm.
Defined.

(** ** LLDP neighbors named with a domain suffix *)

Lemma get_None_keys {V : Type} (k : string) (d : PyDict.t V) :
  ~ In k (PyDict.keys d) -> PyDict.get k d = None.
Proof.
  induction d as [|[k' v] d IH]; [reflexivity|]. cbn [PyDict.keys map fst PyDict.get].
  intros Hnot. destruct (String.eqb_spec k k') as [->|Hne].
  - exfalso. apply Hnot. left. reflexivity.
  - apply IH. intros Hin. apply Hnot. right. exact Hin.
Qed.

(** X6: the LLDP loop looks the neighbor up under the filtered name.  When
    the filtered name of the first neighbor key is no key of the neighbor
    table, a record that passed the links-only test (links-only is off, or
    the filtered name is a device of the testbed) and the interface tests
    raises [KeyError], and neither the registry nor the ledger is touched. *)
Theorem lldp_filtered_name_raises (self : Topology) (device_name : string)
    (tb : testbed) (nets : list ipaddress.ip_network) (interface port : string)
    (entry : lldp_port) (nbrs : PyDict.t lldp_neighbor) (first : string)
    (rest : list string) (st : gmap string fact * PyDict.t (list conn_entry)) :
  neighbors entry = Some nbrs ->
  PyDict.keys nbrs = first :: rest ->
  ~ In (strip_domain first) (PyDict.keys nbrs) ->
  (_only_links self = true -> PyDict.mem (strip_domain first) (devices tb) = true) ->
  ~ occurs interface (_exclude_interfaces self) ->
  ~ occurs port (_exclude_interfaces self) ->
  lldp_body self device_name tb nets interface (port, entry) st = (st, Raise KeyError).
Proof.
  intros Hn Hkeys Hnot Honly Hi Hp. unfold lldp_body, lldp_filter. cbn [fst snd].
  rewrite Hn. cbn [bind subscript]. rewrite Hkeys.
  assert (Hpass : _only_links self
                  && negb (PyDict.mem (strip_domain first) (devices tb)) = false).
  { destruct (_only_links self); [|reflexivity]. rewrite (Honly eq_refl). reflexivity. }
  rewrite Hpass.
  apply str_in_false_occurs in Hi, Hp. rewrite Hi, Hp.
  rewrite (get_None_keys _ _ Hnot). reflexivity.
Qed.

Lemma lldp_filtered_name_raises_witness :
  lldp_body (mk_Topology true "") "R1" Sample.tb3 [] "Ethernet1"
    ("Ethernet2", Sample2.lldp_fqdn) (∅, [])
  = ((∅, []), Raise KeyError).
Proof.
  apply (lldp_filtered_name_raises (mk_Topology true "") "R1" Sample.tb3 [] "Ethernet1"
           "Ethernet2" Sample2.lldp_fqdn Sample2.neighbors_fqdn "R2.example.com" []
           (∅, []) eq_refl eq_refl).
  - intros [H|[]]. discriminate H.
  - intros _. reflexivity.
  - apply str_in_false_occurs. reflexivity.
  - apply str_in_false_occurs. reflexivity.
Defined.

(** ** What the ledger holds *)

Lemma ledger_fold_entries (dev : string) (calls : list ledger_call)
    (i h p : string) :
  forall dc : PyDict.t (list conn_entry),
    at_most_once dc ->
    (In (i, h, p) calls -> entries_for i h p (fold_left (ledger_add dev) calls dc) = 1)
    /\ (~ In (i, h, p) calls ->
        entries_for i h p (fold_left (ledger_add dev) calls dc) = entries_for i h p dc).
Proof.
  induction calls as [|[[i' h'] p'] calls IH]; intros dc Hinv.
  - split; [intros []|reflexivity].
  - cbn [fold_left].
    pose proof (add_preserves_at_most_once dc i' h' p' dev Hinv) as Hinv'.
    destruct (IH (ledger_add dev dc (i', h', p')) Hinv') as [IHin IHout].
    destruct (in_dec (fun x y : ledger_call => decide (x = y)) (i, h, p) calls)
      as [Hin|Hnin].
    + split; [intros _; exact (IHin Hin)|]. intros Hnot. exfalso. apply Hnot. right.
      exact Hin.
    + split.
      * intros [Heq|Hin]; [|contradiction]. injection Heq as -> -> ->.
        rewrite (IHout Hnin). unfold ledger_add. cbn [fst snd].
        apply entries_for_add_same. apply Hinv.
      * intros Hnot. rewrite (IHout Hnin). unfold ledger_add. cbn [fst snd].
        apply entries_for_add_other. intros Heq. apply Hnot. left. congruence.
Qed.

(** X7: the ledger after any sequence of recordings holds each recorded
    (interface, host, port) triple exactly once and no other triple, in
    whatever order and however often the triples were recorded. *)
Theorem ledger_holds_recorded_triples (dev : string) (calls : list ledger_call)
    (interface host port : string) :
  (In (interface, host, port) calls ->
   entries_for interface host port (ledger_after dev calls) = 1)
  /\ (~ In (interface, host, port) calls ->
      entries_for interface host port (ledger_after dev calls) = 0).
Proof.
  assert (Hempty : at_most_once [])
    by (intros i h p; unfold entries_for; cbn; lia).
  destruct (ledger_fold_entries dev calls interface host port [] Hempty) as [Hin Hout].
  split; [exact Hin|]. intros Hnot. unfold ledger_after. rewrite (Hout Hnot). reflexivity.
Qed.

Lemma ledger_holds_recorded_triples_witness :
  entries_for "Ethernet0/1" "R2" "Ethernet0/2"
    (ledger_after "R1"
       [("Ethernet0/1", "R2", "Ethernet0/2"); ("Ethernet0/3", "R3", "Ethernet0/1");
        ("Ethernet0/1", "R2", "Ethernet0/2")]) = 1.
Proof.
  apply (ledger_holds_recorded_triples "R1"
           [("Ethernet0/1", "R2", "Ethernet0/2"); ("Ethernet0/3", "R3", "Ethernet0/1");
            ("Ethernet0/1", "R2", "Ethernet0/2")] "Ethernet0/1" "R2" "Ethernet0/2").
  left. reflexivity.
Defined.

Lemma keys_set {V : Type} (k : string) (v : V) (d : PyDict.t V) :
  PyDict.keys (PyDict.set k v d)
  = if PyDict.mem k d then PyDict.keys d else (PyDict.keys d ++ [k])%list.
Proof.
  unfold PyDict.mem, PyDict.keys. induction d as [|[k' v'] d IH]; [reflexivity|].
  cbn [PyDict.set PyDict.get]. destruct (String.eqb_spec k k') as [->|Hne].
  - reflexivity.
  - cbn [map fst]. rewrite IH. destruct (PyDict.get k d); reflexivity.
Qed.

(** X8: a recording never removes or reorders what the ledger holds: the
    interfaces keep their order, with at most a new one at the end, the
    entries of every other interface are the same, and the entries of the
    recorded interface are the old ones with at most one entry appended. *)
Theorem add_to_device_connections_appends (dc : PyDict.t (list conn_entry))
    (host port interface dev : string) :
  let dc' := add_to_device_connections dc host port interface dev in
  (PyDict.keys dc' = PyDict.keys dc \/ PyDict.keys dc' = (PyDict.keys dc ++ [interface])%list)
  /\ (forall i : string, i <> interface -> PyDict.get i dc' = PyDict.get i dc)
  /\ (forall entries : list conn_entry,
        PyDict.get interface dc = Some entries ->
        PyDict.get interface dc' = Some entries
        \/ PyDict.get interface dc' = Some (entries ++ [mk_entry host port])%list).
Proof.
  cbv zeta. unfold add_to_device_connections.
  destruct (PyDict.get interface dc) as [entries|] eqn:Hget.
  - destruct (existsb (same_entry host port) entries).
    + split; [left; reflexivity|]. split; [reflexivity|].
      intros es Hes. left. rewrite Hget. exact Hes.
    + split; [|split].
      * left. rewrite keys_set. unfold PyDict.mem. rewrite Hget. reflexivity.
      * intros i Hne. apply get_set_ne. exact Hne.
      * intros es [= <-]. right. apply get_set_eq.
  - split; [|split].
    + right. rewrite keys_set. unfold PyDict.mem. rewrite Hget. reflexivity.
    + intros i Hne. apply get_set_ne. exact Hne.
    + discriminate.
Qed.

(** ** The dictionary of a round *)

Lemma In_keys_get {V : Type} (k : string) (d : PyDict.t V) :
  In k (PyDict.keys d) -> is_Some (PyDict.get k d).
Proof.
  induction d as [|[k' v'] d IH]; [intros []|]. cbn [PyDict.keys map fst PyDict.get].
  destruct (String.eqb_spec k k') as [->|Hne]; [intros _; eexists; reflexivity|].
  intros [Heq|Hin]; [congruence|]. exact (IH Hin).
Qed.

Lemma NoDup_keys_set {V : Type} (k : string) (v : V) (d : PyDict.t V) :
  NoDup (PyDict.keys d) -> NoDup (PyDict.keys (PyDict.set k v d)).
Proof.
  intros Hnd. rewrite keys_set. unfold PyDict.mem.
  destruct (PyDict.get k d) eqn:Hget; [exact Hnd|].
  apply NoDup_app. split; [exact Hnd|]. split; [|apply NoDup_singleton].
  intros x Hx Hk. apply list_elem_of_In in Hx. apply list_elem_of_In in Hk.
  destruct Hk as [Hk|[]]. subst x.
  destruct (In_keys_get k d Hx) as [w Hw]. congruence.
Qed.

Lemma In_keys_set {V : Type} (k k0 : string) (v : V) (d : PyDict.t V) :
  In k0 (PyDict.keys (PyDict.set k v d)) -> k0 = k \/ In k0 (PyDict.keys d).
Proof.
  rewrite keys_set. destruct (PyDict.mem k d); [right; assumption|].
  intros H. apply in_app_or in H. destruct H as [H|[<-|[]]]; [right; exact H|left; reflexivity].
Qed.

Lemma process_entry_keys (self : Topology) (tb : testbed)
    (nets : list ipaddress.ip_network) (entry : PyDict.t neighbor_data) :
  forall (device_list : gmap string fact) (conn_dict : PyDict.t conn_value),
    let r := process_entry self tb nets entry device_list conn_dict in
    (NoDup (PyDict.keys conn_dict) -> NoDup (PyDict.keys (snd (fst r))))
    /\ (forall k, In k (PyDict.keys (snd (fst r))) ->
                  In k (PyDict.keys conn_dict) \/ In k (PyDict.keys entry)).
Proof.
  induction entry as [|[device_name data] rest IH]; intros device_list conn_dict;
    cbn [process_entry].
  - cbn. split; [trivial|]. intros k Hk. left. exact Hk.
  - destruct (get_device_connections self data device_name device_list nets tb)
      as [dl1 [v|e]].
    + destruct (IH dl1 (PyDict.set device_name v conn_dict)) as [Hnd Hin].
      cbv zeta in *. split.
      * intros H. apply Hnd. apply NoDup_keys_set. exact H.
      * intros k Hk. destruct (Hin k Hk) as [H|H].
        -- destruct (In_keys_set _ _ _ _ H) as [->|H'];
             [right; left; reflexivity|left; exact H'].
        -- right. right. exact H.
    + cbn. split; [trivial|]. intros k Hk. left. exact Hk.
Qed.

Lemma process_entries_keys (self : Topology) (tb : testbed)
    (nets : list ipaddress.ip_network) (result : list (PyDict.t neighbor_data)) :
  forall (device_list : gmap string fact) (conn_dict : PyDict.t conn_value),
    let r := process_entries self tb nets result device_list conn_dict in
    (NoDup (PyDict.keys conn_dict) -> NoDup (PyDict.keys (snd (fst r))))
    /\ (forall k, In k (PyDict.keys (snd (fst r))) ->
                  In k (PyDict.keys conn_dict) \/ In k (polled result)).
Proof.
  induction result as [|entry rest IH]; intros device_list conn_dict;
    cbn [process_entries].
  - cbn. split; [trivial|]. intros k Hk. left. exact Hk.
  - pose proof (process_entry_keys self tb nets entry device_list conn_dict) as He.
    cbv zeta in He.
    destruct (process_entry self tb nets entry device_list conn_dict)
      as [[dl1 cd1] [u|e]]; cbn [fst snd] in He; destruct He as [Hnd1 Hin1].
    + destruct (IH dl1 cd1) as [Hnd Hin]. cbv zeta in *. split.
      * intros H. apply Hnd. apply Hnd1. exact H.
      * intros k Hk. unfold polled. cbn [map concat].
        destruct (Hin k Hk) as [H|H].
        -- destruct (Hin1 k H) as [H'|H']; [left; exact H'|].
           right. apply in_or_app. left. exact H'.
        -- right. apply in_or_app. right. exact H.
    + cbn [fst snd]. split; [exact Hnd1|]. intros k Hk. unfold polled. cbn [map concat].
      destruct (Hin1 k Hk) as [H|H]; [left; exact H|].
      right. apply in_or_app. left. exact H.
Qed.

Lemma get_Some_keys {V : Type} (k : string) (v : V) (d : PyDict.t V) :
  PyDict.get k d = Some v -> In k (PyDict.keys d).
Proof.
  induction d as [|[k' v'] d IH]; [discriminate|]. cbn [PyDict.get PyDict.keys map fst].
  destruct (String.eqb_spec k k') as [->|Hne]; [left; reflexivity|].
  intros H. right. exact (IH H).
Qed.

(** X9: when [process_neighbor_data] returns, the keys of its dictionary
    are exactly the names of the polled devices, each once, also when a
    device was polled more than once. *)
Theorem process_neighbor_data_keys (self : Topology) (tb : testbed)
    (device_list : gmap string fact) (nets : list ipaddress.ip_network)
    (result : list (PyDict.t neighbor_data)) (conn_dict : PyDict.t conn_value) :
  snd (process_neighbor_data self tb device_list nets result) = Return conn_dict ->
  NoDup (PyDict.keys conn_dict)
  /\ (forall device : string,
        In device (PyDict.keys conn_dict) <-> In device (polled result)).
Proof.
  intros Hrun. unfold process_neighbor_data in Hrun.
  pose proof (process_entries_keys self tb nets result device_list []) as Hk.
  cbv zeta in Hk.
  destruct (process_entries self tb nets result device_list [])
    as [[dl' cd'] [u|e]] eqn:Hentries; cbn [fst snd] in *; [|discriminate Hrun].
  injection Hrun as ->. destruct Hk as [Hnd Hin]. split; [apply Hnd; constructor|].
  intros device. split.
  - intros H. destruct (Hin device H) as [[]|H']. exact H'.
  - intros H.
    assert (Hempty : all_None []) by (intros k v []).
    destruct (process_entries_None _ _ _ _ _ _ _ _ _ Hentries Hempty) as [_ Hkeys].
    destruct u. apply (get_Some_keys device PyNone). apply (Hkeys eq_refl). left. exact H.
Qed.

Lemma process_neighbor_data_keys_witness :
  NoDup (PyDict.keys [("R1", PyNone)])
  /\ (In "R1" (PyDict.keys [("R1", PyNone)])
      <-> In "R1" (polled (Sample.round ++ Sample.round))).
Proof.
  assert (Hrun : snd (process_neighbor_data Sample.self Sample.tb ∅ []
                        (Sample.round ++ Sample.round))
                 = Return [("R1", PyNone)]) by (vm_compute; reflexivity).
  destruct (process_neighbor_data_keys Sample.self Sample.tb ∅ []
              (Sample.round ++ Sample.round) [("R1", PyNone)] Hrun) as [Hnd Hiff].
  split; [exact Hnd|exact (Hiff "R1")].
Defined.

Lemma add_to_device_connections_appends_witness :
  PyDict.get "Ethernet0/1"
    (add_to_device_connections [("Ethernet0/1", [mk_entry "R2" "Ethernet0/2"])]
       "R3" "Ethernet0/1" "Ethernet0/1" "R1")
  = Some [mk_entry "R2" "Ethernet0/2"]
  \/ PyDict.get "Ethernet0/1"
       (add_to_device_connections [("Ethernet0/1", [mk_entry "R2" "Ethernet0/2"])]
          "R3" "Ethernet0/1" "Ethernet0/1" "R1")
     = Some ([mk_entry "R2" "Ethernet0/2"] ++ [mk_entry "R3" "Ethernet0/1"])%list.
Proof.
  apply (add_to_device_connections_appends
           [("Ethernet0/1", [mk_entry "R2" "Ethernet0/2"])] "R3" "Ethernet0/1"
           "Ethernet0/1" "R1").
  reflexivity.
Defined.

(** ** Links and interfaces of the testbed *)

Lemma iface_eqb_eq (a b : iface) : iface_eqb a b = true <-> a = b.
Proof.
  unfold iface_eqb. rewrite andb_true_iff, !String.eqb_eq.
  destruct a, b. cbn. split; [intros [-> ->]; reflexivity|intros [= -> ->]; split; reflexivity].
Qed.

Lemma iface_in_In (i : iface) (l : list iface) : iface_in i l = true <-> In i l.
Proof.
  unfold iface_in. rewrite existsb_exists. split.
  - intros (x & Hx & Heq). apply iface_eqb_eq in Heq. subst. exact Hx.
  - intros Hin. exists i. split; [exact Hin|]. apply iface_eqb_eq. reflexivity.
Qed.

(** What [interface.link = l] does to every lookup. *)
Lemma find_interface_set_link (tb : testbed) (i j : iface) (l : nat) :
  find_interface (set_link tb i l) j
  = if decide (j = i) then
      match PyDict.get (fst i) (devices tb) with
      | Some _ => Return (mk_interface (Some l))
      | None => Raise KeyError
      end
    else find_interface tb j.
Proof.
  unfold set_link, find_interface.
  destruct (PyDict.get (fst i) (devices tb)) as [d|] eqn:Hd.
  - cbn [devices]. destruct (decide (j = i)) as [->|Hne].
    + rewrite get_set_eq. cbn [bind subscript interfaces]. rewrite get_set_eq. reflexivity.
    + destruct (String.eqb_spec (fst j) (fst i)) as [Heq|Hneq].
      * rewrite Heq, get_set_eq, Hd. cbn [bind subscript interfaces].
        rewrite get_set_ne; [reflexivity|]. intros Hs. apply Hne.
        destruct i, j. cbn in *. congruence.
      * rewrite get_set_ne by exact Hneq. reflexivity.
  - destruct (decide (j = i)) as [->|Hne]; [|reflexivity]. rewrite Hd. reflexivity.
Qed.

Lemma find_interface_set_links (int_list : list iface) (l : nat) :
  forall (tb : testbed) (j : iface),
    (forall i, In i int_list -> exists obj, find_interface tb i = Return obj) ->
    find_interface (fold_left (fun tb i => set_link tb i l) int_list tb) j
    = if iface_in j int_list then Return (mk_interface (Some l)) else find_interface tb j.
Proof.
  induction int_list as [|i int_list IH]; intros tb j Hall; [reflexivity|].
  cbn [fold_left]. rewrite IH.
  - cbn [iface_in existsb]. fold (iface_in j int_list).
    destruct (iface_in j int_list); [rewrite orb_true_r; reflexivity|].
    rewrite orb_false_r, find_interface_set_link.
    destruct (decide (j = i)) as [->|Hne].
    + assert (Hii : iface_eqb i i = true) by (apply iface_eqb_eq; reflexivity).
      rewrite Hii. destruct (Hall i (or_introl eq_refl)) as [obj Hobj].
      unfold find_interface in Hobj.
      destruct (PyDict.get (fst i) (devices tb)); [reflexivity|discriminate Hobj].
    + destruct (iface_eqb j i) eqn:Heq; [|reflexivity].
      apply iface_eqb_eq in Heq. contradiction.
  - intros k Hk. rewrite find_interface_set_link.
    destruct (Hall k (or_intror Hk)) as [obj Hobj].
    destruct (decide (k = i)) as [->|Hne]; [|exists obj; exact Hobj].
    unfold find_interface in Hobj.
    destruct (PyDict.get (fst i) (devices tb)); [eexists; reflexivity|discriminate Hobj].
Qed.

Lemma link_store_set_links (int_list : list iface) (l : nat) :
  forall tb : testbed,
    link_store (fold_left (fun tb i => set_link tb i l) int_list tb) = link_store tb.
Proof.
  induction int_list as [|i int_list IH]; intros tb; [reflexivity|].
  cbn [fold_left]. rewrite IH. apply link_store_set_link.
Qed.

Lemma collect_interfaces_spec (tb : testbed) (entries : list conn_entry) :
  forall acc int_list : list iface,
    collect_interfaces tb entries acc = Return int_list ->
    (exists more, int_list = (acc ++ more)%list)
    /\ (forall e, In e entries -> In (dest_host e, dest_port e) int_list)
    /\ (forall i, In i int_list ->
                  In i acc \/ exists obj, find_interface tb i = Return obj)
    /\ (NoDup acc -> NoDup int_list).
Proof.
  induction entries as [|entry rest IH]; intros acc int_list Hrun; cbn [collect_interfaces] in Hrun.
  - injection Hrun as <-. split; [exists []; rewrite app_nil_r; reflexivity|].
    split; [intros e []|]. split; [intros i Hi; left; exact Hi|trivial].
  - destruct (find_interface tb (dest_host entry, dest_port entry)) as [obj|e] eqn:Hfind;
      cbn [bind] in Hrun; [|discriminate Hrun].
    destruct (iface_in (dest_host entry, dest_port entry) acc) eqn:Hin.
    + destruct (IH _ _ Hrun) as (Hpre & Hall & Hsrc & Hnd).
      split; [exact Hpre|]. split; [|split; assumption].
      intros e [<-|He]; [|exact (Hall e He)].
      destruct Hpre as [more ->]. apply in_or_app. left. apply iface_in_In. exact Hin.
    + destruct (IH _ _ Hrun) as ([more Hpre] & Hall & Hsrc & Hnd).
      split; [exists ((dest_host entry, dest_port entry) :: more);
              rewrite Hpre, <- app_assoc; reflexivity|].
      split; [|split].
      * intros e [<-|He]; [|exact (Hall e He)].
        rewrite Hpre. apply in_or_app. left. apply in_or_app. right. left. reflexivity.
      * intros i Hi. destruct (Hsrc i Hi) as [Hacc|Hfound]; [|right; exact Hfound].
        apply in_app_or in Hacc. destruct Hacc as [Hacc|[<-|[]]]; [left; exact Hacc|].
        right. exists obj. exact Hfind.
      * intros Hacc. apply Hnd. apply NoDup_app. split; [exact Hacc|].
        split; [|apply NoDup_singleton].
        intros x Hx Hx'. apply list_elem_of_In in Hx. apply list_elem_of_In in Hx'.
        destruct Hx' as [<-|[]]. apply iface_in_In in Hx. congruence.
Qed.

(** X10: for an interface of the polled device that has no link yet, a
    call that ends normally creates exactly one link object; the link holds
    the interface and every remote interface of its ledger entries, each once,
    and it is the [link] of each of its members afterwards. *)
Theorem write_interface_creates_link (device_name : string)
    (item : string * list conn_entry) (tb : testbed) (obj : interface_obj) :
  find_interface tb (device_name, fst item) = Return obj ->
  link obj = None ->
  snd (write_interface device_name item tb) = Return tt ->
  let tb' := fst (write_interface device_name item tb) in
  exists o : link_obj,
    link_store tb' = (link_store tb ++ [o])%list
    /\ In (device_name, fst item) (link_interfaces o)
    /\ (forall e, In e (snd item) -> In (dest_host e, dest_port e) (link_interfaces o))
    /\ NoDup (link_interfaces o)
    /\ (forall i, In i (link_interfaces o) ->
                  find_interface tb' i
                  = Return (mk_interface (Some (length (link_store tb))))).
Proof.
  intros Hfind Hlink. unfold write_interface. rewrite Hfind, Hlink.
  destruct (collect_interfaces tb (snd item) [(device_name, fst item)])
    as [int_list|e] eqn:Hcollect; cbn [fst snd]; [|intros H; discriminate H].
  destruct (links tb) as [live|e]; cbn [fst snd]; [|intros H; discriminate H].
  intros _.
  destruct (collect_interfaces_spec _ _ _ _ Hcollect) as ([more Hpre] & Hall & Hsrc & Hnd).
  eexists. split; [|split; [|split; [|split]]].
  - unfold Link. rewrite link_store_set_links. reflexivity.
  - cbn [link_interfaces]. rewrite Hpre. left. reflexivity.
  - exact Hall.
  - cbn [link_interfaces]. apply Hnd. apply NoDup_singleton.
  - cbn [link_interfaces]. intros i Hi. unfold Link. rewrite find_interface_set_links.
    + apply iface_in_In in Hi. rewrite Hi. reflexivity.
    + intros k Hk. destruct (Hsrc k Hk) as [[<-|[]]|Hfound].
      * exists obj. exact Hfind.
      * exact Hfound.
Qed.

Lemma write_interface_creates_link_witness :
  exists o : link_obj,
    link_store (fst (write_interface "R2" ("Ethernet2", [mk_entry "R3" "Ethernet3"])
                       Sample.tb3))
    = ([] ++ [o])%list
    /\ In ("R2", "Ethernet2") (link_interfaces o)
    /\ In ("R3", "Ethernet3") (link_interfaces o).
Proof.
  destruct (write_interface_creates_link "R2" ("Ethernet2", [mk_entry "R3" "Ethernet3"])
              Sample.tb3 (mk_interface None) eq_refl eq_refl eq_refl)
    as (o & Hstore & Hlocal & Hremote & _).
  exists o. split; [exact Hstore|]. split; [exact Hlocal|].
  apply (Hremote (mk_entry "R3" "Ethernet3")). left. reflexivity.
Defined.

(** ** Links are only ever extended *)

Lemma link_store_le_refl (ls : list link_obj) : link_store_le ls ls.
Proof.
  intros l o Ho. exists o. split; [exact Ho|]. split; [reflexivity|].
  exists []. rewrite app_nil_r. reflexivity.
Qed.

Lemma testbed_le_refl (tb : testbed) : testbed_le tb tb.
Proof.
  split; [apply link_store_le_refl|]. intros i obj Hobj. exists obj.
  split; [exact Hobj|trivial].
Qed.

Lemma testbed_le_trans (a b c : testbed) :
  testbed_le a b -> testbed_le b c -> testbed_le a c.
Proof.
  intros [Hl Hi] [Hl' Hi']. split.
  - intros l o Ho. destruct (Hl l o Ho) as (o1 & Ho1 & Hn1 & more1 & Hm1).
    destruct (Hl' l o1 Ho1) as (o2 & Ho2 & Hn2 & more2 & Hm2).
    exists o2. split; [exact Ho2|]. split; [congruence|].
    exists (more1 ++ more2)%list. rewrite Hm2, Hm1, <- app_assoc. reflexivity.
  - intros i obj Hobj. destruct (Hi i obj Hobj) as (obj1 & Hobj1 & Hk1).
    destruct (Hi' i obj1 Hobj1) as (obj2 & Hobj2 & Hk2).
    exists obj2. split; [exact Hobj2|]. intros H. apply Hk2, Hk1, H.
Qed.

Lemma set_link_le (tb : testbed) (i : iface) (l : nat) : testbed_le tb (set_link tb i l).
Proof.
  split; [rewrite link_store_set_link; apply link_store_le_refl|].
  intros j obj Hobj. rewrite find_interface_set_link.
  destruct (decide (j = i)) as [->|Hne]; [|exists obj; split; [exact Hobj|trivial]].
  unfold find_interface in Hobj.
  destruct (PyDict.get (fst i) (devices tb)); [|discriminate Hobj].
  eexists. split; [reflexivity|]. intros _. eexists. reflexivity.
Qed.

Lemma set_links_le (int_list : list iface) (l : nat) :
  forall tb : testbed,
    testbed_le tb (fold_left (fun tb i => set_link tb i l) int_list tb).
Proof.
  induction int_list as [|i int_list IH]; intros tb; [apply testbed_le_refl|].
  cbn [fold_left]. eapply testbed_le_trans; [apply set_link_le|apply IH].
Qed.

Lemma Link_le (tb : testbed) (name : string) (int_list : list iface) :
  testbed_le tb (Link tb name int_list).
Proof.
  unfold Link. eapply testbed_le_trans; [|apply set_links_le]. split.
  - cbn [link_store]. intros l o Ho. exists o. split.
    + apply lookup_app_l_Some. exact Ho.
    + split; [reflexivity|]. exists []. rewrite app_nil_r. reflexivity.
  - intros i obj Hobj. exists obj. split; [exact Hobj|trivial].
Qed.

Lemma connect_interface_le (tb : testbed) (l : nat) (i : iface) :
  testbed_le tb (connect_interface tb l i).
Proof.
  unfold connect_interface. eapply testbed_le_trans; [|apply set_link_le]. split.
  - cbn [link_store]. intros k o Ho. destruct (decide (l = k)) as [->|Hne].
    + eexists. rewrite list_lookup_alter_eq, Ho. cbn. split; [reflexivity|].
      split; [reflexivity|]. exists [i]. reflexivity.
    + exists o. rewrite list_lookup_alter_ne by exact Hne. split; [exact Ho|].
      split; [reflexivity|]. exists []. rewrite app_nil_r. reflexivity.
  - intros j obj Hobj. exists obj. split; [exact Hobj|trivial].
Qed.

Lemma for_each_le {A : Type} (body : A -> testbed -> testbed * outcome unit)
    (l : list A) :
  (forall x tb, testbed_le tb (fst (body x tb))) ->
  forall tb, testbed_le tb (fst (for_each body l tb)).
Proof.
  intros Hbody tb.
  apply (for_each_invariant (fun tb' => testbed_le tb tb')); [|apply testbed_le_refl].
  intros x s Hs. eapply testbed_le_trans; [exact Hs|apply Hbody].
Qed.

Lemma write_interface_le (device_name : string) (item : string * list conn_entry)
    (tb : testbed) :
  testbed_le tb (fst (write_interface device_name item tb)).
Proof.
  unfold write_interface.
  destruct (find_interface tb (device_name, fst item)) as [obj|e];
    [|apply testbed_le_refl].
  destruct (link obj) as [l|].
  - apply for_each_le. intros entry tb'. unfold extend_link.
    destruct (find_interface tb' (dest_host entry, dest_port entry));
      [|apply testbed_le_refl].
    destruct (link_store tb' !! l) as [o|]; [|apply testbed_le_refl].
    destruct (iface_in (dest_host entry, dest_port entry) (link_interfaces o));
      [apply testbed_le_refl|apply connect_interface_le].
  - destruct (collect_interfaces tb (snd item) [(device_name, fst item)]);
      [|apply testbed_le_refl].
    destruct (links tb); [apply Link_le|apply testbed_le_refl].
Qed.

(** A link is named after the number of links of the testbed, which goes
    down when a new link takes every interface of an older one; two links
    then bear one name, and the next look at [testbed.links] raises. *)
Lemma write_connections_duplicate_link_name :
  snd (_write_connections_to_testbed Sample2.dict7 Sample2.tb7)
  = Raise DuplicateLinkError
  /\ map link_name
       (link_store (fst (_write_connections_to_testbed Sample2.dict7 Sample2.tb7)))
     = ["Link_0"; "Link_1"; "Link_1"]
  /\ testbed_links (fst (_write_connections_to_testbed Sample2.dict7 Sample2.tb7))
     = [1; 2].
Proof. split; [reflexivity|]. split; reflexivity. Qed.

Lemma write_connections_le (connection_dict : PyDict.t conn_value) (tb : testbed) :
  testbed_le tb (fst (_write_connections_to_testbed connection_dict tb)).
Proof.
  unfold _write_connections_to_testbed.
  apply (for_each_le _ connection_dict). intros item tb0.
  destruct (snd item) as [|d]; [apply testbed_le_refl|].
  apply for_each_le. intros x tb1. apply write_interface_le.
Qed.

(** X11: whatever dictionary it is given and however it ends, writing
    connections to the testbed takes no interface away and leaves none
    without a link that had one; the interface may be given another link.
    The link object the interface had keeps its name and its interfaces in
    their order, others being added at the end only.  Nothing is said of
    [testbed.links], which loses a link once every interface of it has been
    given another one. *)
Theorem write_connections_keeps_interfaces (connection_dict : PyDict.t conn_value)
    (tb : testbed) (i : iface) (obj : interface_obj) :
  find_interface tb i = Return obj ->
  let tb' := fst (_write_connections_to_testbed connection_dict tb) in
  exists obj' : interface_obj,
    find_interface tb' i = Return obj'
    /\ (is_Some (link obj) -> is_Some (link obj'))
    /\ (forall (l : nat) (o : link_obj),
          link obj = Some l ->
          link_store tb !! l = Some o ->
          exists o' : link_obj,
            link_store tb' !! l = Some o'
            /\ link_name o' = link_name o
            /\ exists more : list iface,
                 link_interfaces o' = (link_interfaces o ++ more)%list).
Proof.
  intros Hobj. cbv zeta.
  destruct (write_connections_le connection_dict tb) as [Hstore Hkept].
  destruct (Hkept i obj Hobj) as (obj' & Hobj' & Hlink).
  exists obj'. split; [exact Hobj'|]. split; [exact Hlink|].
  intros l o _ Ho. exact (Hstore l o Ho).
Qed.

Lemma write_connections_keeps_interfaces_witness :
  exists obj' : interface_obj,
    find_interface
      (fst (_write_connections_to_testbed Sample.chain_dict_R1_first Sample2.tb_linked))
      ("R2", "Ethernet2") = Return obj'
    /\ is_Some (link obj')
    /\ exists o' : link_obj,
         link_store
           (fst (_write_connections_to_testbed Sample.chain_dict_R1_first
                   Sample2.tb_linked)) !! 0 = Some o'
         /\ link_name o' = "Link_0"
         /\ exists more : list iface,
              link_interfaces o'
              = ([("R1", "Ethernet1"); ("R2", "Ethernet2")] ++ more)%list.
Proof.
  destruct (write_connections_keeps_interfaces Sample.chain_dict_R1_first
              Sample2.tb_linked ("R2", "Ethernet2") (mk_interface (Some 0)) eq_refl)
    as (obj' & Hobj' & Hlink & Hold).
  exists obj'. split; [exact Hobj'|]. split; [apply Hlink; eexists; reflexivity|].
  exact (Hold 0 (mk_link "Link_0" [("R1", "Ethernet1"); ("R2", "Ethernet2")])
           eq_refl eq_refl).
Defined.

(** ** The proxy of the finder *)


(** X12: the finder's connections are searched in order, ['defaults']
    skipped: a proxy found is the proxy of an ssh connection of the finder
    that has its address set, and no connection before it is an ssh connection
    with a proxy. *)
Theorem find_ssh_proxy_first (conns : PyDict.t connection_detail)
    (new_proxy : proxy_value) (conn_ip : string) :
  find_ssh_proxy conns = Return (Some (new_proxy, conn_ip)) ->
  exists (before after : PyDict.t connection_detail) (name : string)
         (detail : connection_detail),
    conns = (before ++ (name, detail) :: after)%list
    /\ no_ssh_proxy before
    /\ name <> "defaults"
    /\ cd_protocol detail = Some "ssh"
    /\ cd_proxy detail = Some new_proxy
    /\ cd_ip detail = Some conn_ip.
Proof.
  induction conns as [|[name detail] conns IH]; [discriminate|].
  cbn [find_ssh_proxy].
  assert (Hskip : forall protocol,
            (name = "defaults"
             \/ (cd_protocol detail = Some protocol
                 /\ (protocol = "ssh" -> cd_proxy detail = None))) ->
            find_ssh_proxy conns = Return (Some (new_proxy, conn_ip)) ->
            exists before after name0 detail0,
              (name, detail) :: conns = (before ++ (name0, detail0) :: after)%list
              /\ no_ssh_proxy before /\ name0 <> "defaults"
              /\ cd_protocol detail0 = Some "ssh" /\ cd_proxy detail0 = Some new_proxy
              /\ cd_ip detail0 = Some conn_ip).
  { intros protocol Hwhy Hrest.
    destruct (IH Hrest) as (before & after & n0 & d0 & -> & Hno & Hrest').
    exists ((name, detail) :: before), after, n0, d0. split; [reflexivity|].
    split; [|exact Hrest'].
    intros n d [[= <- <-]|Hin] Hnd; [|exact (Hno n d Hin Hnd)].
    destruct Hwhy as [->|Hp]; [contradiction|]. exists protocol. exact Hp. }
  destruct (String.eqb_spec name "defaults") as [->|Hne].
  { apply (Hskip EmptyString). left. reflexivity. }
  destruct (cd_protocol detail) as [protocol|] eqn:Hp; cbn [bind getattr];
    [|discriminate].
  destruct (String.eqb_spec protocol "ssh") as [->|Hns].
  - destruct (cd_proxy detail) as [p|] eqn:Hproxy.
    + destruct (cd_ip detail) as [address|] eqn:Hip; cbn [bind getattr]; [|discriminate].
      intros [= <- <-]. exists [], conns, name, detail.
      split; [reflexivity|]. split; [intros n d []|]. repeat (split; [assumption|]).
      exact Hip.
    + apply (Hskip "ssh"). right. split; [reflexivity|]. intros _. reflexivity.
  - apply (Hskip protocol). right. split; [reflexivity|]. intros Hs. contradiction.
Qed.

Lemma find_ssh_proxy_first_witness :
  exists (before after : PyDict.t connection_detail) (name : string)
         (detail : connection_detail),
    connections Sample.R1_device = (before ++ (name, detail) :: after)%list
    /\ cd_proxy detail = Some (ProxyName "jump1").
Proof.
  destruct (find_ssh_proxy_first (connections Sample.R1_device) (ProxyName "jump1")
              "10.1.1.1" eq_refl)
    as (before & after & name & detail & Hsplit & _ & _ & _ & Hproxy & _).
  exists before, after, name, detail. split; [exact Hsplit|exact Hproxy].
Defined.



(** What the call does when the finder's proxy is a step list. *)
Lemma write_proxy_chain_list_run (finder_name : string) (tb : testbed)
    (credentials : PyDict.t (PyDict.t string)) (ip_addr : string)
    (store : list (list proxy_step)) (d : device) (default : PyDict.t string)
    (user : string) (loc : nat) (conn_ip : string) (steps : list proxy_step)
    (last : proxy_step) :
  PyDict.get finder_name (devices tb) = Some d ->
  PyDict.get "default" credentials = Some default ->
  PyDict.get "username" default = Some user ->
  find_ssh_proxy (connections d) = Return (Some (ProxySteps loc, conn_ip)) ->
  store !! loc = Some (steps ++ [last])%list ->
  write_proxy_chain finder_name tb credentials ip_addr store
  = (<[loc := (steps ++ [mk_step (step_device last) ("ssh " ++ user ++ "@" ++ conn_ip);
                         mk_step finder_name ("ssh " ++ user ++ "@" ++ ip_addr)])%list]>
       store,
     Return (ProxySteps loc)).
Proof.
  intros Hdev Hdefault Huser Hfind Hloc. unfold write_proxy_chain.
  rewrite Hdev, Hdefault. cbn [bind subscript]. rewrite Huser. cbn [bind subscript].
  rewrite Hfind. cbn [bind]. rewrite Hloc.
  destruct (steps ++ [last])%list as [|x rest] eqn:Heq.
  { destruct steps; discriminate Heq. }
  rewrite <- Heq, set_last_command_app, <- app_assoc. reflexivity.
Qed.

(** X14: two calls for two interface addresses of one new device, with a
    step list as the finder's proxy, hand back the same list object; after the
    second call that list ends with two steps through the finder, the first
    of them rewritten to reach the finder's own address, so the chain handed
    back for the first address no longer leads to it. *)
Theorem write_proxy_chain_twice (finder_name : string) (tb : testbed)
    (credentials : PyDict.t (PyDict.t string)) (ip1 ip2 : string)
    (store : list (list proxy_step)) (d : device) (default : PyDict.t string)
    (user : string) (loc : nat) (conn_ip : string) (steps : list proxy_step)
    (last : proxy_step) :
  PyDict.get finder_name (devices tb) = Some d ->
  PyDict.get "default" credentials = Some default ->
  PyDict.get "username" default = Some user ->
  find_ssh_proxy (connections d) = Return (Some (ProxySteps loc, conn_ip)) ->
  store !! loc = Some (steps ++ [last])%list ->
  let r1 := write_proxy_chain finder_name tb credentials ip1 store in
  let r2 := write_proxy_chain finder_name tb credentials ip2 (fst r1) in
  snd r1 = Return (ProxySteps loc)
  /\ snd r2 = Return (ProxySteps loc)
  /\ steps_of (fst r2) (ProxySteps loc)
     = Some (steps ++ [mk_step (step_device last) ("ssh " ++ user ++ "@" ++ conn_ip);
                       mk_step finder_name ("ssh " ++ user ++ "@" ++ conn_ip);
                       mk_step finder_name ("ssh " ++ user ++ "@" ++ ip2)])%list.
Proof.
  intros Hdev Hdefault Huser Hfind Hloc. cbv zeta.
  rewrite (write_proxy_chain_list_run finder_name tb credentials ip1 store d default user
             loc conn_ip steps last Hdev Hdefault Huser Hfind Hloc).
  cbn [fst snd].
  assert (Hlt : loc < length store) by (eapply lookup_lt_Some; exact Hloc).
  set (cmd := "ssh " ++ user ++ "@" ++ conn_ip).
  assert (Hloc1 : <[loc := (steps ++ [mk_step (step_device last) cmd;
                                     mk_step finder_name ("ssh " ++ user ++ "@" ++ ip1)])%list]>
                    store !! loc
                  = Some ((steps ++ [mk_step (step_device last) cmd])
                          ++ [mk_step finder_name ("ssh " ++ user ++ "@" ++ ip1)])%list).
  { rewrite list_lookup_insert_eq by exact Hlt. rewrite <- app_assoc. reflexivity. }
  rewrite (write_proxy_chain_list_run finder_name tb credentials ip2 _ d default user
             loc conn_ip _ _ Hdev Hdefault Huser Hfind Hloc1).
  cbn [fst snd steps_of step_device]. split; [reflexivity|]. split; [reflexivity|].
  rewrite list_lookup_insert_eq by (rewrite length_insert; exact Hlt).
  rewrite <- app_assoc. reflexivity.
Qed.

Lemma write_proxy_chain_twice_witness :
  steps_of
    (fst (write_proxy_chain "R1" Sample.tb_chained Sample.credentials "172.16.0.10"
            (fst (write_proxy_chain "R1" Sample.tb_chained Sample.credentials
                    "172.16.0.9" Sample.store))))
    (ProxySteps 0)
  = Some [mk_step "jump1" "ssh admin@10.1.1.1"; mk_step "R1" "ssh admin@10.1.1.1";
          mk_step "R1" "ssh admin@172.16.0.10"].
Proof.
  apply (write_proxy_chain_twice "R1" Sample.tb_chained Sample.credentials "172.16.0.9"
           "172.16.0.10" Sample.store
           (mk_device
              [("cli", mk_connection (Some "ssh") (Some "10.1.1.1") (Some (ProxySteps 0)))]
              [("Ethernet0/1", mk_interface None)])
           [("username", "admin"); ("password", "secret")] "admin" 0 "10.1.1.1" []
           (mk_step "jump1" "ssh 10.0.0.254")
           eq_refl eq_refl eq_refl eq_refl eq_refl).
Defined.

(** X15: a call that raises leaves every step list as it was, and a call
    never removes a list from the store nor shortens one. *)
Theorem write_proxy_chain_keeps_store (finder_name : string) (tb : testbed)
    (credentials : PyDict.t (PyDict.t string)) (ip_addr : string)
    (store : list (list proxy_step)) :
  let r := write_proxy_chain finder_name tb credentials ip_addr store in
  (forall e : exn, snd r = Raise e -> fst r = store)
  /\ (forall (loc : nat) (steps : list proxy_step),
        store !! loc = Some steps ->
        exists steps' : list proxy_step,
          fst r !! loc = Some steps' /\ length steps <= length steps').
Proof.
  cbv zeta. unfold write_proxy_chain.
  assert (Hsame : forall (o : outcome proxy_value),
            (forall e : exn, snd (store, o) = Raise e -> fst (store, o) = store)
            /\ (forall loc steps, store !! loc = Some steps ->
                  exists steps', fst (store, o) !! loc = Some steps'
                                 /\ length steps <= length steps')).
  { intros o. split; [reflexivity|]. intros loc steps H. exists steps.
    split; [exact H|lia]. }
  destruct (let* finder_device := subscript (PyDict.get finder_name (devices tb)) in
            let* default := subscript (PyDict.get "default" credentials) in
            let* user := subscript (PyDict.get "username" default) in
            let* found := find_ssh_proxy (connections finder_device) in
            Return (user, found)) as [[user [[[| new_proxy | loc |] conn_ip]|]]|e];
    try apply Hsame.
  - split; [intros e H; discriminate H|]. cbn [fst]. intros loc steps H.
    exists steps. split; [apply lookup_app_l_Some; exact H|lia].
  - destruct (store !! loc) as [[|step steps0]|] eqn:Hloc; try apply Hsame.
    split; [intros e H; discriminate H|]. cbn [fst]. intros k steps H.
    destruct (decide (loc = k)) as [->|Hne].
    + eexists. rewrite list_lookup_insert_eq by (eapply lookup_lt_Some; exact H).
      split; [reflexivity|]. rewrite Hloc in H. injection H as <-.
      rewrite length_app.
      assert (Hlen : forall c l, length (set_last_command c l) = length l).
      { intros c l. induction l as [|x [|y l] IH]; [reflexivity|reflexivity|].
        change (set_last_command c (x :: y :: l))
          with (x :: set_last_command c (y :: l)).
        cbn [length] in *. rewrite IH. reflexivity. }
      rewrite Hlen. lia.
    + exists steps. rewrite list_lookup_insert_ne by exact Hne. split; [exact H|lia].
Qed.

Lemma write_proxy_chain_keeps_store_witness :
  exists steps' : list proxy_step,
    fst (write_proxy_chain "R1" Sample.tb_chained Sample.credentials "172.16.0.9"
           Sample.store) !! 0 = Some steps'
    /\ 1 <= length steps'.
Proof.
  apply (proj2 (write_proxy_chain_keeps_store "R1" Sample.tb_chained Sample.credentials
                  "172.16.0.9" Sample.store) 0 [mk_step "jump1" "ssh 10.0.0.254"]).
  reflexivity.
Defined.

(** ** The type of an interface *)

Lemma until_digit_app (m : string) (d : ascii) (rest : string) :
  string_forall (fun x => negb (PyStr.is_digit x) && negb (is_newline x)) m = true ->
  PyStr.is_digit d = true ->
  until_digit (m ++ String d rest) = Some m.
Proof.
  intros Hm Hd. induction m as [|c m IH].
  - rewrite append_nil. cbn [until_digit]. rewrite Hd. reflexivity.
  - cbn [string_forall] in Hm. apply andb_true_iff in Hm. destruct Hm as [Hc Hm].
    apply andb_true_iff in Hc. destruct Hc as [Hcd Hcn].
    apply negb_true_iff in Hcd, Hcn.
    rewrite append_cons. cbn [until_digit]. rewrite Hcd, Hcn, (IH Hm). reflexivity.
Qed.

Lemma until_digit_none (s : string) :
  string_forall (fun x => negb (PyStr.is_digit x)) s = true -> until_digit s = None.
Proof.
  induction s as [|c s IH]; [reflexivity|]. cbn [string_forall until_digit].
  intros H. apply andb_true_iff in H. destruct H as [Hc Hs].
  apply negb_true_iff in Hc. rewrite Hc, (IH Hs).
  destruct (is_newline c); reflexivity.
Qed.

(** X16: the type given to an interface is the lower-cased part of its
    name before the first digit that is not its first character; a name with
    no digit after its first character has no type, and making the interface
    raises [TypeError]. *)
Theorem interface_type_before_digit (c : ascii) (m : string) :
  (forall (d : ascii) (rest : string),
     is_newline c = false ->
     string_forall (fun x => negb (PyStr.is_digit x) && negb (is_newline x)) m = true ->
     PyStr.is_digit d = true ->
     interface_type (String c m ++ String d rest) = Return (lower (String c m)))
  /\ (string_forall (fun x => negb (PyStr.is_digit x)) m = true ->
      interface_type (String c m) = Raise TypeError)
  /\ interface_type EmptyString = Raise TypeError.
Proof.
  split; [|split; [|reflexivity]].
  - intros d rest Hc Hm Hd. unfold interface_type. rewrite append_cons.
    cbn [interface_filter]. rewrite Hc, (until_digit_app m d rest Hm Hd). reflexivity.
  - intros Hm. unfold interface_type. cbn [interface_filter].
    rewrite (until_digit_none m Hm). destruct (is_newline c); reflexivity.
Qed.

Lemma interface_type_before_digit_witness :
  interface_type "Ethernet0/3" = Return "ethernet"
  /\ interface_type (String Sample2.E_acute "thernet0/1")
     = Return (String Sample2.e_acute "thernet")
  /\ interface_type "Management" = Raise TypeError.
Proof.
  split; [|split].
  - apply (proj1 (interface_type_before_digit "E"%char "thernet") "0"%char "/3");
      reflexivity.
  - apply (proj1 (interface_type_before_digit Sample2.E_acute "thernet") "0"%char "/1");
      reflexivity.
  - apply (proj1 (proj2 (interface_type_before_digit "M"%char "anagement"))). reflexivity.
Defined.

(** ** The device made for a device that was found *)

Lemma In_keys_set_iff {V : Type} (k k0 : string) (v : V) (d : PyDict.t V) :
  In k0 (PyDict.keys (PyDict.set k v d)) <-> k0 = k \/ In k0 (PyDict.keys d).
Proof.
  split; [apply In_keys_set|]. rewrite keys_set. unfold PyDict.mem.
  destruct (PyDict.get k d) as [w|] eqn:Hget.
  - intros [->|H]; [|exact H]. exact (get_Some_keys _ _ _ Hget).
  - intros [->|H]; apply in_or_app; [right; left; reflexivity|left; exact H].
Qed.

Lemma get_set_cases {V : Type} (k k0 : string) (v w : V) (d : PyDict.t V) :
  PyDict.get k0 (PyDict.set k v d) = Some w ->
  (k0 = k /\ w = v) \/ PyDict.get k0 d = Some w.
Proof.
  destruct (String.eqb_spec k0 k) as [->|Hne].
  - rewrite get_set_eq. intros [= <-]. left. split; reflexivity.
  - rewrite get_set_ne by exact Hne. right. assumption.
Qed.

Lemma management_fold_get (pairs : list (address * string)) :
  forall (connections : PyDict.t new_connection) (name : string) (c : new_connection),
    PyDict.get name
      (fold_left
         (fun connections (pair : address * string) =>
            PyDict.set ("ssh" ++ snd pair)
              (mk_new_connection "ssh" (fst pair) (ProxyName (snd pair))) connections)
         pairs connections) = Some c ->
    PyDict.get name connections = Some c
    \/ exists (a : address) (p : string),
         In (a, p) pairs /\ name = "ssh" ++ p
         /\ c = mk_new_connection "ssh" a (ProxyName p).
Proof.
  induction pairs as [|[a p] pairs IH]; intros connections name c Hget;
    [left; exact Hget|].
  cbn [fold_left] in Hget. destruct (IH _ _ _ Hget) as [H|(a' & p' & Hin & Hn & Hc)].
  - cbn [fst snd] in H. destruct (get_set_cases _ _ _ _ _ H) as [[-> ->]|H'].
    + right. exists a, p. split; [left; reflexivity|]. split; reflexivity.
    + left. exact H'.
  - right. exists a', p'. split; [right; exact Hin|]. split; assumption.
Qed.

Lemma finder_connections_get (finder_name : string) (tb : testbed)
    (credentials : PyDict.t (PyDict.t string)) (addresses : list address) :
  forall (connections : PyDict.t new_connection) (store : list (list proxy_step))
         (name : string) (c : new_connection),
    PyDict.get name
      (snd (fst (finder_connections finder_name tb credentials addresses connections
                   store))) = Some c ->
    PyDict.get name connections = Some c
    \/ (name = "finder_proxy" /\ nc_protocol c = "ssh" /\ In (nc_ip c) addresses).
Proof.
  induction addresses as [|a rest IH]; intros connections store name c Hget;
    [left; exact Hget|].
  cbn [finder_connections] in Hget.
  destruct (write_proxy_chain finder_name tb credentials (str_of_address a) store)
    as [store' [finder_proxy|e]]; [|left; exact Hget].
  destruct (IH _ _ _ _ Hget) as [H|(Hn & Hp & Hin)].
  - destruct (get_set_cases _ _ _ _ _ H) as [[-> ->]|H'].
    + right. split; [reflexivity|]. split; [reflexivity|left; reflexivity].
    + left. exact H'.
  - right. split; [exact Hn|]. split; [exact Hp|right; exact Hin].
Qed.

Lemma new_interfaces_spec (port_names : list string) :
  forall (interfaces result : PyDict.t string),
    new_interfaces port_names interfaces = Return result ->
    (forall k, In k (PyDict.keys result) <-> In k (PyDict.keys interfaces) \/ In k port_names)
    /\ (forall k t, PyDict.get k result = Some t ->
                    PyDict.get k interfaces = Some t
                    \/ (In k port_names /\ interface_type k = Return t)).
Proof.
  induction port_names as [|name rest IH]; intros interfaces result Hrun;
    cbn [new_interfaces] in Hrun.
  - injection Hrun as <-. split.
    + intros k. split; [intros H; left; exact H|intros [H|[]]; exact H].
    + intros k t H. left. exact H.
  - destruct (interface_type name) as [type_name|e] eqn:Htype; cbn [bind] in Hrun;
      [|discriminate Hrun].
    destruct (IH _ _ Hrun) as [Hkeys Hvals]. split.
    + intros k. rewrite Hkeys, In_keys_set_iff. cbn [In]. split.
      * intros [[->|H]|H]; [right; left; reflexivity|left; exact H|right; right; exact H].
      * intros [H|[->|H]]; [left; right; exact H|left; left; reflexivity|right; exact H].
    + intros k t H. destruct (Hvals k t H) as [H'|[Hin Ht]].
      * destruct (get_set_cases _ _ _ _ _ H') as [[-> ->]|H''].
        -- right. split; [left; reflexivity|exact Htype].
        -- left. exact H''.
      * right. split; [right; exact Hin|exact Ht].
Qed.


Lemma create_new_device_inv (tb : testbed)
    (credentials_of : PyDict.t (PyDict.t (PyDict.t string)))
    (device_data : fact) (proxy_set : gset string) (device_name : string)
    (store : list (list proxy_step)) (dev : Device) :
  snd (create_new_device tb credentials_of device_data proxy_set device_name store)
  = Return dev ->
  exists (found : string * gset address) (finder_dev : device)
         (addresses : gset address) (os_value : option string)
         (interfaces : PyDict.t string),
    finder device_data = Some found
    /\ PyDict.get (fst found) (devices tb) = Some finder_dev
    /\ ip device_data = Some addresses
    /\ os device_data = Some os_value
    /\ new_interfaces (elements (ports device_data)) [] = Return interfaces
    /\ (let r := finder_connections (fst found) tb
                   (default [] (PyDict.get (fst found) credentials_of))
                   (elements (snd found))
                   (management_connections (elements addresses) (elements proxy_set) [])
                   store in
        snd r = Return tt
        /\ fst (create_new_device tb credentials_of device_data proxy_set device_name store)
           = fst (fst r)
        /\ dev = mk_Device device_name os_value
                   (default [] (PyDict.get (fst found) credentials_of)) "device"
                   (snd (fst r)) ["os"] os_value interfaces).
Proof.
  unfold create_new_device.
  destruct (finder device_data) as [found|]; [|intros H; discriminate H].
  destruct (PyDict.get (fst found) (devices tb)) as [finder_dev|] eqn:Hdev;
    [|intros H; discriminate H].
  destruct (ip device_data) as [addresses|]; [|intros H; discriminate H].
  destruct (finder_connections (fst found) tb
              (default [] (PyDict.get (fst found) credentials_of)) (elements (snd found))
              (management_connections (elements addresses) (elements proxy_set) [])
              store) as [[store' connections] [[]|e]] eqn:Hfc; [|intros H; discriminate H].
  destruct (os device_data) as [os_value|]; [|intros H; discriminate H].
  destruct (new_interfaces (elements (ports device_data)) []) as [interfaces|e];
    [|intros H; discriminate H].
  cbn [fst snd]. intros [= <-].
  exists found, finder_dev, addresses, os_value, interfaces.
  split; [reflexivity|]. split; [exact Hdev|]. do 3 (split; [reflexivity|]).
  cbv zeta. rewrite Hfc. cbn [fst snd].
  split; [reflexivity|]. split; reflexivity.
Qed.

(** X17: every connection of a device made by [create_new_device] is an
    ssh connection, and it is either the connection ['ssh' + p] through a proxy
    [p] of the proxy set to one of the device's management addresses, or the
    connection ['finder_proxy'] to one of the interface addresses its finder
    saw. *)
Theorem create_new_device_connections (tb : testbed)
    (credentials_of : PyDict.t (PyDict.t (PyDict.t string)))
    (device_data : fact) (proxy_set : gset string) (device_name : string)
    (store : list (list proxy_step)) (dev : Device) (name : string)
    (c : new_connection) :
  snd (create_new_device tb credentials_of device_data proxy_set device_name store)
  = Return dev ->
  PyDict.get name (dev_connections dev) = Some c ->
  nc_protocol c = "ssh"
  /\ ((exists p : string,
         p ∈ proxy_set /\ name = "ssh" ++ p /\ nc_proxy c = ProxyName p
         /\ exists addresses : gset address,
              ip device_data = Some addresses /\ nc_ip c ∈ addresses)
      \/ (name = "finder_proxy"
          /\ exists found : string * gset address,
               finder device_data = Some found /\ nc_ip c ∈ snd found)).
Proof.
  intros Hrun Hget.
  destruct (create_new_device_inv _ _ _ _ _ _ _ Hrun)
    as (found & finder_dev & addresses & os_value & interfaces
        & Hfinder & Hdev & Hip & Hos & Hifs & Hr).
  cbv zeta in Hr. destruct Hr as (_ & _ & ->). cbn [dev_connections] in Hget.
  destruct (finder_connections_get _ _ _ _ _ _ _ _ Hget) as [H|(Hn & Hp & Hin)].
  - unfold management_connections in H.
    destruct (management_fold_get _ _ _ _ H) as [H'|(a & p & Hin & Hn & Hc)];
      [discriminate H'|].
    apply in_prod_iff in Hin. destruct Hin as [Ha Hp]. subst c. cbn.
    split; [reflexivity|]. left. exists p. split.
    + apply elem_of_elements, list_elem_of_In. exact Hp.
    + split; [exact Hn|]. split; [reflexivity|]. exists addresses.
      split; [exact Hip|]. apply elem_of_elements, list_elem_of_In. exact Ha.
  - split; [exact Hp|]. right. split; [exact Hn|]. exists found.
    split; [exact Hfinder|]. apply elem_of_elements, list_elem_of_In. exact Hin.
Qed.

Lemma create_new_device_connections_witness :
  exists (dev : Device) (c : new_connection),
    snd (create_new_device Sample.tb Sample2.credentials_of Sample2.R3_fact
           {[ "jump1" ]} "R3" []) = Return dev
    /\ PyDict.get "finder_proxy" (dev_connections dev) = Some c
    /\ nc_protocol c = "ssh".
Proof.
  eexists. eexists. split; [vm_compute; reflexivity|]. split; [vm_compute; reflexivity|].
  eapply (create_new_device_connections Sample.tb Sample2.credentials_of Sample2.R3_fact
            {[ "jump1" ]} "R3" [] _ "finder_proxy");
    vm_compute; reflexivity.
Defined.

Lemma product_nil_r {A B : Type} (l : list A) : product l ([] : list B) = [].
Proof. unfold product. induction l as [|x l IH]; [reflexivity|exact IH]. Qed.

(** X18: a device found with no interface address at its finder gets no
    connection at all when the proxy set is empty, even with management
    addresses known, or when it has no management address; the device object
    is made all the same and no step list is touched. *)
Theorem create_new_device_unreachable (tb : testbed)
    (credentials_of : PyDict.t (PyDict.t (PyDict.t string)))
    (device_data : fact) (proxy_set : gset string) (device_name : string)
    (store : list (list proxy_step)) (dev : Device) (found : string * gset address) :
  snd (create_new_device tb credentials_of device_data proxy_set device_name store)
  = Return dev ->
  finder device_data = Some found ->
  snd found = ∅ ->
  proxy_set = ∅ \/ ip device_data = Some ∅ ->
  dev_connections dev = []
  /\ fst (create_new_device tb credentials_of device_data proxy_set device_name store)
     = store.
Proof.
  intros Hrun Hfinder Hnone Hwhy.
  destruct (create_new_device_inv _ _ _ _ _ _ _ Hrun)
    as (found' & finder_dev & addresses & os_value & interfaces
        & Hfinder' & Hdev & Hip & Hos & Hifs & Hr).
  rewrite Hfinder in Hfinder'. injection Hfinder' as <-.
  cbv zeta in Hr. destruct Hr as (_ & -> & ->). cbn [dev_connections].
  rewrite Hnone, elements_empty. cbn [finder_connections fst snd].
  split; [|reflexivity]. unfold management_connections.
  destruct Hwhy as [->|Hempty].
  - rewrite elements_empty, product_nil_r. reflexivity.
  - rewrite Hip in Hempty. injection Hempty as ->. rewrite elements_empty. reflexivity.
Qed.

Lemma create_new_device_unreachable_witness :
  exists dev : Device,
    snd (create_new_device Sample.tb Sample2.credentials_of Sample2.R4_fact ∅ "R4" [])
    = Return dev
    /\ dev_connections dev = [].
Proof.
  eexists. split; [vm_compute; reflexivity|].
  eapply (create_new_device_unreachable Sample.tb Sample2.credentials_of Sample2.R4_fact
            ∅ "R4" [] _ ("R1", ∅)).
  - vm_compute. reflexivity.
  - reflexivity.
  - reflexivity.
  - left. reflexivity.
Defined.

(** X19: a device made by [create_new_device] bears the given name, the
    type ['device'], the operating system recorded in the registry and the
    credentials of its finder, and it has exactly one interface per recorded
    port, typed by the part of the port name before its first digit. *)
Theorem create_new_device_interfaces (tb : testbed)
    (credentials_of : PyDict.t (PyDict.t (PyDict.t string)))
    (device_data : fact) (proxy_set : gset string) (device_name : string)
    (store : list (list proxy_step)) (dev : Device) :
  snd (create_new_device tb credentials_of device_data proxy_set device_name store)
  = Return dev ->
  dev_name dev = device_name
  /\ dev_type dev = "device"
  /\ os device_data = Some (dev_os dev)
  /\ dev_abstraction_os dev = dev_os dev
  /\ (exists found : string * gset address,
        finder device_data = Some found
        /\ dev_credentials dev = default [] (PyDict.get (fst found) credentials_of))
  /\ (forall port : string,
        port ∈ ports device_data <-> In port (PyDict.keys (dev_interfaces dev)))
  /\ (forall port type_name : string,
        PyDict.get port (dev_interfaces dev) = Some type_name ->
        interface_type port = Return type_name).
Proof.
  intros Hrun.
  destruct (create_new_device_inv _ _ _ _ _ _ _ Hrun)
    as (found & finder_dev & addresses & os_value & interfaces
        & Hfinder & Hdev & Hip & Hos & Hifs & Hr).
  cbv zeta in Hr. destruct Hr as (_ & _ & ->). cbn.
  destruct (new_interfaces_spec _ _ _ Hifs) as [Hkeys Hvals].
  split; [reflexivity|]. split; [reflexivity|]. split; [exact Hos|].
  split; [reflexivity|]. split; [exists found; split; [exact Hfinder|reflexivity]|].
  split.
  - intros port. rewrite Hkeys. cbn [PyDict.keys map In].
    rewrite <- list_elem_of_In, elem_of_elements. tauto.
  - intros port type_name H. destruct (Hvals port type_name H) as [H'|[_ Ht]];
      [discriminate H'|exact Ht].
Qed.

Lemma create_new_device_interfaces_witness :
  exists dev : Device,
    snd (create_new_device Sample.tb Sample2.credentials_of Sample2.R3_fact
           {[ "jump1" ]} "R3" []) = Return dev
    /\ dev_type dev = "device"
    /\ PyDict.get "Ethernet0/0" (dev_interfaces dev) = Some "ethernet".
Proof.
  eexists. split; [vm_compute; reflexivity|]. split.
  - eapply (create_new_device_interfaces Sample.tb Sample2.credentials_of Sample2.R3_fact
              {[ "jump1" ]} "R3" []). vm_compute. reflexivity.
  - vm_compute. reflexivity.
Defined.

Lemma new_interfaces_typed (port_names : list string) :
  forall (interfaces result : PyDict.t string),
    new_interfaces port_names interfaces = Return result ->
    forall port, In port port_names -> exists t, interface_type port = Return t.
Proof.
  induction port_names as [|name rest IH]; intros interfaces result Hrun port Hin;
    [destruct Hin|].
  cbn [new_interfaces] in Hrun.
  destruct (interface_type name) as [type_name|e] eqn:Htype; cbn [bind] in Hrun;
    [|discriminate Hrun].
  destruct Hin as [<-|Hin]; [exists type_name; exact Htype|].
  exact (IH _ _ Hrun port Hin).
Qed.

(** X20: one recorded port whose name has no digit after its first
    character is enough for [create_new_device] never to return a device for
    the entry. *)
Theorem create_new_device_port_without_digit (tb : testbed)
    (credentials_of : PyDict.t (PyDict.t (PyDict.t string)))
    (device_data : fact) (proxy_set : gset string) (device_name : string)
    (store : list (list proxy_step)) (c : ascii) (m : string) :
  String c m ∈ ports device_data ->
  string_forall (fun x => negb (PyStr.is_digit x)) m = true ->
  forall dev : Device,
    snd (create_new_device tb credentials_of device_data proxy_set device_name store)
    <> Return dev.
Proof.
  intros Hport Hm dev Hrun.
  destruct (create_new_device_inv _ _ _ _ _ _ _ Hrun)
    as (found & finder_dev & addresses & os_value & interfaces
        & Hfinder & Hdev & Hip & Hos & Hifs & Hr).
  assert (Hin : In (String c m) (elements (ports device_data)))
    by (apply list_elem_of_In, elem_of_elements; exact Hport).
  destruct (new_interfaces_typed _ _ _ Hifs _ Hin) as [t Ht].
  unfold interface_type in Ht. cbn [interface_filter] in Ht.
  rewrite (until_digit_none m Hm) in Ht. destruct (is_newline c); discriminate Ht.
Qed.

Lemma create_new_device_port_without_digit_witness :
  snd (create_new_device Sample.tb Sample2.credentials_of Sample2.R5_fact ∅ "R5" [])
  = Raise TypeError.
Proof.
  pose proof (create_new_device_port_without_digit Sample.tb Sample2.credentials_of
                Sample2.R5_fact ∅ "R5" [] "M"%char "anagement") as H.
  assert (Hport : "Management" ∈ ports Sample2.R5_fact) by (cbn; set_solver).
  specialize (H Hport eq_refl).
  destruct (snd (create_new_device Sample.tb Sample2.credentials_of Sample2.R5_fact ∅
                   "R5" [])) as [dev|e] eqn:Hrun.
  - exfalso. exact (H dev eq_refl).
  - vm_compute in Hrun. injection Hrun as <-. reflexivity.
Defined.

(** ** The alias argument *)

Lemma string_append_assoc (a b c : string) : (a ++ b) ++ c = a ++ b ++ c.
Proof.
  induction a as [|x a IH]; [reflexivity|]. rewrite !append_cons, IH. reflexivity.
Qed.

Lemma split_on_length (sep : ascii) (s : string) :
  forall cur : list ascii,
    length (PyStr.split_on sep cur s) = S (count_char sep s).
Proof.
  induction s as [|c s IH]; intros cur; [reflexivity|].
  cbn [PyStr.split_on count_char]. destruct (Ascii.eqb c sep).
  - cbn [length]. rewrite IH. reflexivity.
  - rewrite IH. reflexivity.
Qed.

Lemma split_on_one (sep : ascii) (s : string) :
  forall (cur : list ascii) (x : string),
    PyStr.split_on sep cur s = [x] -> x = string_of_list_ascii (rev cur) ++ s.
Proof.
  induction s as [|c s IH]; intros cur x H; cbn [PyStr.split_on] in H.
  - injection H as <-. rewrite append_empty_r. reflexivity.
  - destruct (Ascii.eqb c sep).
    + pose proof (split_on_length sep s []) as Hlen.
      injection H as _ H. rewrite H in Hlen. discriminate Hlen.
    + rewrite (IH _ _ H). cbn [rev]. apply string_of_list_snoc.
Qed.

Lemma split_on_two (sep : ascii) (s : string) :
  forall (cur : list ascii) (a b : string),
    PyStr.split_on sep cur s = [a; b] ->
    string_of_list_ascii (rev cur) ++ s = a ++ String sep b.
Proof.
  induction s as [|c s IH]; intros cur a b H; cbn [PyStr.split_on] in H;
    [discriminate H|].
  destruct (Ascii.eqb_spec c sep) as [->|Hne].
  - injection H as <- H. apply split_on_one in H. rewrite H. reflexivity.
  - rewrite <- (IH _ _ _ H). cbn [rev]. rewrite string_of_list_snoc. reflexivity.
Qed.

Lemma alias_loop_spec (mappings : list string) :
  forall alias_dict : PyDict.t string,
    (forall d : PyDict.t string,
       alias_loop mappings alias_dict = inr d ->
       Forall (fun m => count_char ":" m = 1) mappings
       /\ (forall k v, PyDict.get k d = Some v ->
                       PyDict.get k alias_dict = Some v
                       \/ In (k ++ String ":" v) mappings))
    /\ (forall m : string,
          alias_loop mappings alias_dict = inl (InvalidEntry m) ->
          In m mappings /\ count_char ":" m <> 1).
Proof.
  induction mappings as [|m mappings IH]; intros alias_dict; cbn [alias_loop].
  - split; [|intros m H; discriminate H].
    intros d [= <-]. split; [constructor|]. intros k v H. left. exact H.
  - pose proof (split_on_length ":" m []) as Hlen.
    destruct (PyStr.split_on ":" [] m) as [|a [|b [|c rest]]] eqn:Hsplit.
    + discriminate Hlen.
    + split; [intros d H; discriminate H|]. intros m' [= <-].
      split; [left; reflexivity|]. cbn [length] in Hlen. lia.
    + destruct (IH (PyDict.set a b alias_dict)) as [IHok IHerr]. split.
      * intros d Hrun. destruct (IHok d Hrun) as [Hall Hget]. split.
        -- constructor; [cbn [length] in Hlen; lia|exact Hall].
        -- intros k v H. destruct (Hget k v H) as [H'|H']; [|right; right; exact H'].
           destruct (get_set_cases _ _ _ _ _ H') as [[-> ->]|H'']; [|left; exact H''].
           right. left. apply split_on_two in Hsplit. rewrite <- Hsplit. reflexivity.
      * intros m' Hrun. destruct (IHerr m' Hrun) as [Hin Hc]. split; [right; exact Hin|exact Hc].
    + split; [intros d H; discriminate H|]. intros m' [= <-].
      split; [left; reflexivity|]. cbn [length] in Hlen. lia.
Qed.

(** X21: the alias argument is accepted only when every entry between
    white space has exactly one colon, and then every mapping of the
    dictionary is one of the entries, read as device, colon, alias; when it is
    refused, the entry named in the error is one with no colon or with more
    than one. *)
Theorem alias_dict_of_entries (alias : string) :
  (forall d : PyDict.t string,
     alias_dict_of alias = inr d ->
     Forall (fun m => count_char ":" m = 1) (PyStr.split alias)
     /\ (forall k v, PyDict.get k d = Some v ->
                     In (k ++ String ":" v) (PyStr.split alias)))
  /\ (forall m : string,
        alias_dict_of alias = inl (InvalidEntry m) ->
        In m (PyStr.split alias) /\ count_char ":" m <> 1).
Proof.
  destruct (alias_loop_spec (PyStr.split alias) []) as [Hok Herr].
  split; [|exact Herr]. intros d Hrun. destruct (Hok d Hrun) as [Hall Hget].
  split; [exact Hall|]. intros k v H. destruct (Hget k v H) as [H'|H'];
    [discriminate H'|exact H'].
Qed.

Lemma alias_dict_of_entries_witness :
  alias_dict_of "R1:cli R2:mgmt" = inr [("R1", "cli"); ("R2", "mgmt")]
  /\ In ("R2" ++ String ":" "mgmt") (PyStr.split "R1:cli R2:mgmt")
  /\ alias_dict_of "R1:cli R2" = inl (InvalidEntry "R2")
  /\ count_char ":" "R2" <> 1
  /\ alias_dict_of ("a:b" ++ String Sample2.nbsp "c:d") = inr [("a", "b"); ("c", "d")]
  /\ In ("c" ++ String ":" "d") (PyStr.split ("a:b" ++ String Sample2.nbsp "c:d")).
Proof.
  pose proof (alias_dict_of_entries "R1:cli R2:mgmt") as [Hok _].
  pose proof (alias_dict_of_entries "R1:cli R2") as [_ Herr].
  pose proof (alias_dict_of_entries ("a:b" ++ String Sample2.nbsp "c:d")) as [Hnbsp _].
  split; [reflexivity|]. split; [|split; [reflexivity|split; [|split; [reflexivity|]]]].
  - apply (proj2 (Hok [("R1", "cli"); ("R2", "mgmt")] eq_refl) "R2" "mgmt"). reflexivity.
  - apply (proj2 (Herr "R2" eq_refl)).
  - apply (proj2 (Hnbsp [("a", "b"); ("c", "d")] eq_refl) "c" "d"). reflexivity.
Defined.

(** ** The helpers of the Netbox creator *)

Lemma first_valid_spec (valid_list : list string) (s : option string) :
  (forall v : string,
     Netbox.first_valid valid_list s = Some v ->
     exists (str : string) (before after : list string),
       s = Some str
       /\ valid_list = (before ++ v :: after)%list
       /\ occurs v str
       /\ (forall w, In w before -> ~ occurs w str))
  /\ (Netbox.first_valid valid_list s = None ->
      forall str : string,
        s = Some str -> str = EmptyString \/ forall w, In w valid_list -> ~ occurs w str).
Proof.
  induction valid_list as [|valid rest [IHsome IHnone]]; cbn [Netbox.first_valid].
  - split; [intros v H; discriminate H|]. intros _ str _. right. intros w [].
  - destruct (Netbox.and_in valid s) eqn:Hin.
    + split; [|intros H; discriminate H]. intros v [= <-].
      unfold Netbox.and_in in Hin. destruct s as [[|c str]|]; try discriminate Hin.
      exists (String c str), [], rest. split; [reflexivity|]. split; [reflexivity|].
      split; [apply str_in_occurs; exact Hin|intros w []].
    + assert (Hnot : forall str, s = Some str -> str = EmptyString \/ ~ occurs valid str).
      { intros str ->. unfold Netbox.and_in in Hin. destruct str as [|c str];
          [left; reflexivity|right]. apply str_in_false_occurs. exact Hin. }
      split.
      * intros v Hv. destruct (IHsome v Hv) as (str & before & after & Hs & Hl & Hocc & Hb).
        exists str, (valid :: before), after. split; [exact Hs|].
        split; [rewrite Hl; reflexivity|]. split; [exact Hocc|].
        intros w [<-|Hw]; [|exact (Hb w Hw)].
        destruct (Hnot str Hs) as [->|H]; [|exact H].
        destruct Hocc as (pre & post & Hpp).
        subst s. cbn in Hv. clear -Hv. exfalso.
        induction rest as [|x rest IH]; [discriminate Hv|exact (IH Hv)].
      * intros Hn str Hs. destruct (Hnot str Hs) as [->|Hv]; [left; reflexivity|].
        destruct (IHnone Hn str Hs) as [->|Hrest]; [left; reflexivity|right].
        intros w [<-|Hw]; [exact Hv|exact (Hrest w Hw)].
Qed.

(** X22: [_parse_os] and [_format_type] answer with the first entry of
    their list, in the order of the list, that occurs in the given string, so
    an entry is the answer only when no earlier entry occurs; they answer
    [None] for [None], for the empty string, and when no entry occurs. *)
Theorem netbox_first_listed (s : option string) :
  (forall v : string,
     Netbox._parse_os s = Some v ->
     exists (str : string) (before after : list string),
       s = Some str /\ Netbox.valid_os = (before ++ v :: after)%list
       /\ occurs v str /\ (forall w, In w before -> ~ occurs w str))
  /\ (forall v : string,
        Netbox._format_type s = Some v ->
        exists (str : string) (before after : list string),
          s = Some str /\ Netbox.valid_types = (before ++ v :: after)%list
          /\ occurs v str /\ (forall w, In w before -> ~ occurs w str))
  /\ (Netbox._parse_os s = None ->
      forall str, s = Some str ->
                  str = EmptyString \/ forall w, In w Netbox.valid_os -> ~ occurs w str)
  /\ (Netbox._format_type s = None ->
      forall str, s = Some str ->
                  str = EmptyString \/ forall w, In w Netbox.valid_types -> ~ occurs w str).
Proof.
  destruct (first_valid_spec Netbox.valid_os s) as [Hos Hosn].
  destruct (first_valid_spec Netbox.valid_types s) as [Ht Htn].
  split; [exact Hos|]. split; [exact Ht|]. split; [exact Hosn|exact Htn].
Qed.

Lemma netbox_first_listed_witness :
  Netbox._parse_os (Some "cisco-ios-xe") = Some "ios-xe"
  /\ ~ occurs "com" "cisco-ios-xe".
Proof.
  split; [reflexivity|].
  destruct (proj1 (netbox_first_listed (Some "cisco-ios-xe")) "ios-xe" eq_refl)
    as (str & before & after & Hs & Hl & _ & Hb).
  injection Hs as <-. apply Hb.
  destruct before as [|w before]; [discriminate Hl|].
  injection Hl as <- _. left. reflexivity.
Defined.

Lemma last_char_snoc (base : string) (c : ascii) :
  Netbox.last_char (base ++ String c EmptyString) = Some c.
Proof.
  induction base as [|x base IH]; [reflexivity|]. rewrite append_cons.
  cbn [Netbox.last_char]. rewrite IH.
  destruct (base ++ String c EmptyString) eqn:Heq; [|reflexivity].
  destruct base; discriminate Heq.
Qed.

(** X23: [_format_url] puts exactly one slash between a base and a route
    when the base ends with a slash or with any other character, so a base
    gives the same URL with and without one trailing slash; an empty base
    raises [IndexError]. *)
Theorem format_url_one_slash (base route : string) :
  Netbox._format_url EmptyString route = Raise IndexError
  /\ Netbox._format_url (base ++ "/") route = Return (base ++ "/" ++ route)
  /\ (forall c : ascii,
        Netbox.last_char base = Some c -> c <> "/"%char ->
        Netbox._format_url base route = Return (base ++ "/" ++ route)).
Proof.
  split; [reflexivity|]. split.
  - unfold Netbox._format_url. rewrite last_char_snoc.
    change (Ascii.eqb "/" "/") with true. cbv iota.
    rewrite string_append_assoc. reflexivity.
  - intros c Hlast Hne. unfold Netbox._format_url. rewrite Hlast.
    destruct (Ascii.eqb_spec c "/") as [->|_]; [contradiction|reflexivity].
Qed.

Lemma format_url_one_slash_witness :
  Netbox._format_url "https://netbox.com" "api/dcim/devices/?format=json"
  = Netbox._format_url "https://netbox.com/" "api/dcim/devices/?format=json".
Proof.
  destruct (format_url_one_slash "https://netbox.com" "api/dcim/devices/?format=json")
    as (_ & Hslash & Hother).
  change (Netbox._format_url ("https://netbox.com" ++ "/") "api/dcim/devices/?format=json"
          = Return ("https://netbox.com" ++ "/" ++ "api/dcim/devices/?format=json"))
    in Hslash.
  rewrite (Hother "m"%char eq_refl); [|discriminate].
  symmetry. exact Hslash.
Defined.

Lemma offer_all_spec {V : Type} (key : string) (candidates : list (option V)) :
  forall (container : PyDict.t V) (flag : bool),
    let r := fold_left
               (fun (st : PyDict.t V * bool) entry =>
                  let r := Netbox._set_value_if_exists (fst st) key entry in
                  (fst r, snd st || snd r))
               candidates (container, flag) in
    PyDict.get key (fst r) = first_some (PyDict.get key container :: candidates)
    /\ snd r = flag || existsb (fun e => match e with Some _ => true | None => false end)
                         candidates
    /\ (forall k, k <> key -> PyDict.get k (fst r) = PyDict.get k container).
Proof.
  induction candidates as [|entry candidates IH]; intros container flag; cbn [fold_left].
  - cbn. split; [destruct (PyDict.get key container); reflexivity|].
    split; [rewrite orb_false_r; reflexivity|reflexivity].
  - destruct entry as [value|]; cbn [Netbox._set_value_if_exists fst snd].
    + destruct (IH (Netbox.setdefault key value container) (flag || true))
        as (Hget & Hflag & Hother). cbv zeta in *. split; [|split].
      * rewrite Hget. cbn [first_some]. unfold Netbox.setdefault, PyDict.mem.
        destruct (PyDict.get key container) as [old|] eqn:Hold;
          [rewrite Hold|rewrite get_set_eq]; reflexivity.
      * rewrite Hflag. cbn [existsb]. destruct flag; reflexivity.
      * intros k Hk. rewrite (Hother k Hk). unfold Netbox.setdefault, PyDict.mem.
        destruct (PyDict.get key container); [reflexivity|apply get_set_ne; exact Hk].
    + destruct (IH container (flag || false)) as (Hget & Hflag & Hother). cbv zeta in *.
      split; [|split].
      * rewrite Hget. cbn [first_some]. destruct (PyDict.get key container); reflexivity.
      * rewrite Hflag. cbn [existsb]. destruct flag; reflexivity.
      * exact Hother.
Qed.

(** X24: [_set_value_if_exists] never replaces a value: of candidates
    offered in turn for one key the first that is not [None] stays, unless the
    key was set before, in which case the old value stays; no other key
    changes; and the calls report [True] whenever a candidate is not [None],
    also when nothing was inserted. *)
Theorem set_value_if_exists_first_wins {V : Type} (container : PyDict.t V)
    (key : string) (candidates : list (option V)) :
  let r := offer_all container key candidates in
  PyDict.get key (fst r) = first_some (PyDict.get key container :: candidates)
  /\ snd r = existsb (fun e => match e with Some _ => true | None => false end) candidates
  /\ (forall k, k <> key -> PyDict.get k (fst r) = PyDict.get k container).
Proof.
  exact (offer_all_spec key candidates container false).
Qed.

Lemma set_value_if_exists_first_wins_witness :
  PyDict.get "protocol"
    (fst (offer_all [("protocol", "ssh")] "ip" [None; Some "10.0.0.1"; Some "2001:db8::1"]))
  = PyDict.get "protocol" [("protocol", "ssh")]
  /\ PyDict.get "ip"
       (fst (offer_all [("protocol", "ssh")] "ip" [None; Some "10.0.0.1"; Some "2001:db8::1"]))
     = Some "10.0.0.1".
Proof.
  destruct (set_value_if_exists_first_wins [("protocol", "ssh")] "ip"
              [None; Some "10.0.0.1"; Some "2001:db8::1"]) as (Hget & _ & Hother).
  split; [apply Hother; discriminate|exact Hget].
Defined.

(** ** A round of processing and the registry *)

Lemma for_each_registry {A : Type} (R : gmap string fact -> gmap string fact -> Prop)
    (body : A -> gmap string fact * PyDict.t (list conn_entry)
            -> (gmap string fact * PyDict.t (list conn_entry)) * outcome unit)
    (l : list A) :
  (forall dl, R dl dl) ->
  (forall a b c, R a b -> R b c -> R a c) ->
  (forall x st, R (fst st) (fst (fst (body x st)))) ->
  forall st, R (fst st) (fst (fst (for_each body l st))).
Proof.
  intros Hrefl Htrans Hbody st.
  apply (for_each_invariant (fun st' => R (fst st) (fst st'))); [|apply Hrefl].
  intros x s Hs. exact (Htrans _ _ _ Hs (Hbody x s)).
Qed.

Lemma record_adjacency_le (device_name : string) (a : adjacency)
    (st : gmap string fact * PyDict.t (list conn_entry)) :
  registry_le (fst st) (fst (fst (record_adjacency device_name a st))).
Proof.
  unfold record_adjacency.
  pose proof (add_to_device_list_le (fst st) (adj_dest_host a) (adj_dest_port a)
                (adj_int_set a) (adj_mgmt_set a) (adj_os a) device_name (adj_interface a))
    as Hle.
  destruct (add_to_device_list (fst st) (adj_dest_host a) (adj_dest_port a)
              (adj_int_set a) (adj_mgmt_set a) (adj_os a) device_name (adj_interface a))
    as [dl' [u|e]]; exact Hle.
Qed.

(** How a relation on registries that every recording respects passes to
    the processing of one device's data. *)
Lemma get_device_connections_registry
    (R : gmap string fact -> gmap string fact -> Prop)
    (self : Topology) (data : neighbor_data) (device_name : string)
    (device_list : gmap string fact) (nets : list ipaddress.ip_network) (tb : testbed) :
  (forall dl, R dl dl) ->
  (forall a b c, R a b -> R b c -> R a c) ->
  (forall connection st a,
     cdp_filter self tb nets connection = Return (Some a) ->
     R (fst st) (fst (fst (record_adjacency device_name a st)))) ->
  (forall interface port entry st a,
     lldp_filter self tb nets interface port entry = Return (Some a) ->
     R (fst st) (fst (fst (record_adjacency device_name a st)))) ->
  R device_list (fst (get_device_connections self data device_name device_list nets tb)).
Proof.
  intros Hrefl Htrans Hcdp Hlldp.
  assert (Hcb : forall connection st,
            R (fst st) (fst (fst (cdp_body self device_name tb nets connection st)))).
  { intros connection st. unfold cdp_body.
    pose proof (Hcdp connection st) as H.
    destruct (cdp_filter self tb nets connection) as [[a|]|e];
      [exact (H a eq_refl)|apply Hrefl|apply Hrefl]. }
  assert (Hlb : forall interface item st,
            R (fst st) (fst (fst (lldp_body self device_name tb nets interface item st)))).
  { intros interface item st. unfold lldp_body.
    pose proof (Hlldp interface (fst item) (snd item) st) as H.
    destruct (lldp_filter self tb nets interface (fst item) (snd item)) as [[a|]|e];
      [exact (H a eq_refl)|apply Hrefl|apply Hrefl]. }
  assert (Hpc : forall result dl dc,
            R dl (fst (fst (_process_cdp_information self result device_name dl nets tb dc)))).
  { intros result dl dc. unfold _process_cdp_information.
    destruct (cdp_index result) as [index|]; [|apply Hrefl].
    apply (for_each_registry R _ _ Hrefl Htrans Hcb (dl, dc)). }
  assert (Hpl : forall result dl dc,
            R dl (fst (fst (_process_lldp_information self result device_name dl nets tb dc)))).
  { intros result dl dc. unfold _process_lldp_information.
    destruct (lldp_interfaces result) as [table|]; [|apply Hrefl].
    apply (for_each_registry R _ _ Hrefl Htrans) with (st := (dl, dc)).
    intros item st. destruct (lldp_port_id (snd item)) as [port_list|]; [|apply Hrefl].
    apply (for_each_registry R _ _ Hrefl Htrans). intros x s. apply Hlb. }
  unfold get_device_connections, get_device_connections_frame. cbn [fst].
  assert (Hl : forall st : gmap string fact * PyDict.t (list conn_entry),
            R (fst st)
              (fst (fst (match lldp data with
                         | None => (st, Return PyNone)
                         | Some result =>
                             match total_entries result with
                             | None => (st, Raise KeyError)
                             | Some n =>
                                 if (n =? 0)%Z then (st, Return PyNone)
                                 else
                                   match _process_lldp_information self result device_name
                                           (fst st) nets tb (snd st) with
                                   | (st, Raise e) => (st, Raise e)
                                   | (st, Return _) => (st, Return PyNone)
                                   end
                             end
                         end)))).
  { intros st. destruct (lldp data) as [result|]; [|apply Hrefl].
    destruct (total_entries result) as [n|]; [|apply Hrefl].
    destruct (n =? 0)%Z; [apply Hrefl|].
    pose proof (Hpl result (fst st) (snd st)) as H.
    destruct (_process_lldp_information self result device_name (fst st) nets tb (snd st))
      as [st' [u|e]]; exact H. }
  destruct (cdp data) as [result|].
  - pose proof (Hpc result device_list []) as H.
    destruct (_process_cdp_information self result device_name device_list nets tb [])
      as [st [u|e]]; cbn [fst] in *; [|exact H].
    exact (Htrans _ _ _ H (Hl st)).
  - exact (Hl (device_list, [])).
Qed.

Lemma process_entry_registry (R : gmap string fact -> gmap string fact -> Prop)
    (self : Topology) (tb : testbed) (nets : list ipaddress.ip_network)
    (entry : PyDict.t neighbor_data) :
  (forall dl, R dl dl) ->
  (forall a b c, R a b -> R b c -> R a c) ->
  (forall data device_name dl,
     R dl (fst (get_device_connections self data device_name dl nets tb))) ->
  forall dl cd, R dl (fst (fst (process_entry self tb nets entry dl cd))).
Proof.
  intros Hrefl Htrans Hstep. induction entry as [|[device_name data] rest IH];
    intros dl cd; cbn [process_entry]; [apply Hrefl|].
  pose proof (Hstep data device_name dl) as H.
  destruct (get_device_connections self data device_name dl nets tb) as [dl1 [v|e]];
    cbn [fst] in *; [|exact H].
  exact (Htrans _ _ _ H (IH dl1 _)).
Qed.

Lemma process_neighbor_data_registry
    (R : gmap string fact -> gmap string fact -> Prop)
    (self : Topology) (tb : testbed) (nets : list ipaddress.ip_network)
    (result : list (PyDict.t neighbor_data)) :
  (forall dl, R dl dl) ->
  (forall a b c, R a b -> R b c -> R a c) ->
  (forall data device_name dl,
     R dl (fst (get_device_connections self data device_name dl nets tb))) ->
  forall dl, R dl (fst (process_neighbor_data self tb dl nets result)).
Proof.
  intros Hrefl Htrans Hstep.
  assert (Hes : forall dl cd, R dl (fst (fst (process_entries self tb nets result dl cd)))).
  { induction result as [|entry rest IH]; intros dl cd; cbn [process_entries];
      [apply Hrefl|].
    pose proof (process_entry_registry R self tb nets entry Hrefl Htrans Hstep dl cd) as H.
    destruct (process_entry self tb nets entry dl cd) as [[dl1 cd1] [u|e]];
      cbn [fst] in *; [|exact H].
    exact (Htrans _ _ _ H (IH dl1 cd1)). }
  intros dl. unfold process_neighbor_data. pose proof (Hes dl []) as H.
  destruct (process_entries self tb nets result dl []) as [[dl' cd'] [u|e]]; exact H.
Qed.

(** X25: a whole round of processing, however it ends, removes no device
    from the registry and no port or management address from an entry, and
    leaves the finder and the pending flag of every entry as they were. *)
Theorem process_neighbor_data_only_grows (self : Topology) (tb : testbed)
    (device_list : gmap string fact) (nets : list ipaddress.ip_network)
    (result : list (PyDict.t neighbor_data)) (name : string) (f : fact) :
  device_list !! name = Some f ->
  exists f' : fact,
    fst (process_neighbor_data self tb device_list nets result) !! name = Some f'
    /\ ports f ⊆ ports f'
    /\ finder f' = finder f
    /\ new_device f' = new_device f
    /\ (forall i : gset address, ip f = Some i ->
          exists i' : gset address, ip f' = Some i' /\ i ⊆ i').
Proof.
  intros Hf.
  apply (process_neighbor_data_registry registry_le self tb nets result
           registry_le_refl registry_le_trans); [|exact Hf].
  intros data device_name dl.
  apply (get_device_connections_registry registry_le);
    [apply registry_le_refl|apply registry_le_trans| |].
  - intros connection st a _. apply record_adjacency_le.
  - intros interface port entry st a _. apply record_adjacency_le.
Qed.

Lemma process_neighbor_data_only_grows_witness :
  exists f' : fact,
    fst (process_neighbor_data Sample.self Sample.tb Sample.registry [] Sample.round)
    !! "R2" = Some f'
    /\ finder f' = Some ("R1", ∅).
Proof.
  destruct (process_neighbor_data_only_grows Sample.self Sample.tb Sample.registry []
              Sample.round "R2" Sample.R2_fact eq_refl) as (f' & Hf' & _ & Hfin & _).
  exists f'. split; [exact Hf'|exact Hfin].
Defined.

(** ** Operating systems in the registry *)

Lemma get_os_supported (system_string platform_name o : string) :
  get_os system_string platform_name = Some o -> In o SUPPORTED_OS.
Proof.
  unfold get_os, SUPPORTED_OS.
  destruct (PyStr.str_in "IOS" system_string || PyStr.str_in "IOS" platform_name).
  - destruct (PyStr.str_in "XE" system_string || PyStr.str_in "XE" platform_name).
    + intros [= <-]. right. right. left. reflexivity.
    + destruct (PyStr.str_in "XR" system_string || PyStr.str_in "XR" platform_name);
        intros [= <-]; [right; left; reflexivity|do 3 right; left; reflexivity].
  - destruct (PyStr.str_in "NX-OS" system_string || PyStr.str_in "NX-OS" platform_name);
      [intros [= <-]; left; reflexivity|discriminate].
Qed.

Lemma cdp_filter_os (self : Topology) (tb : testbed)
    (nets : list ipaddress.ip_network) (connection : cdp_connection) (a : adjacency)
    (o : string) :
  cdp_filter self tb nets connection = Return (Some a) ->
  adj_os a = Some o -> In o SUPPORTED_OS.
Proof.
  unfold cdp_filter.
  destruct (match system_name connection with
            | Some (String c s) => Some (String c s)
            | _ => device_id connection
            end) as [host|]; [|discriminate].
  destruct (_only_links self && negb (PyDict.mem (strip_domain host) (devices tb)));
    [discriminate|].
  destruct (cdp_port_id connection) as [port|]; cbn [bind subscript]; [|discriminate].
  destruct (local_interface connection) as [interface|]; cbn [bind subscript];
    [|discriminate].
  destruct (PyStr.str_in interface (_exclude_interfaces self)); [discriminate|].
  destruct (PyStr.str_in port (_exclude_interfaces self)); [discriminate|].
  destruct (interface_addresses connection) as [int_address|];
    destruct (management_addresses connection) as [mgmt_address|]; try discriminate.
  destruct (excluded_scan (product (elements
              (list_to_set (map Some int_address) : gset address)) nets))
    as [stop_int|e]; cbn [bind]; [|discriminate].
  destruct (excluded_scan (product (elements
              (list_to_set (map Some mgmt_address) : gset address)) nets))
    as [stop_mgmt|e]; cbn [bind]; [|discriminate].
  destruct (stop_int || stop_mgmt); [discriminate|].
  destruct (software_version connection) as [version|]; cbn [bind subscript];
    [|discriminate].
  destruct (platform connection) as [plat|]; cbn [bind subscript]; [|discriminate].
  intros [= <-]. cbn [adj_os]. apply get_os_supported.
Qed.

Lemma lldp_filter_os (self : Topology) (tb : testbed)
    (nets : list ipaddress.ip_network) (interface port : string) (entry : lldp_port)
    (a : adjacency) (o : string) :
  lldp_filter self tb nets interface port entry = Return (Some a) ->
  adj_os a = Some o -> In o SUPPORTED_OS.
Proof.
  unfold lldp_filter.
  destruct (neighbors entry) as [nbrs|]; cbn [bind subscript]; [|discriminate].
  destruct (PyDict.keys nbrs) as [|first rest]; [discriminate|].
  destruct (_only_links self && negb (PyDict.mem (strip_domain first) (devices tb)));
    [discriminate|].
  destruct (PyStr.str_in interface (_exclude_interfaces self)); [discriminate|].
  destruct (PyStr.str_in port (_exclude_interfaces self)); [discriminate|].
  destruct (PyDict.get (strip_domain first) nbrs) as [neighbor|];
    cbn [bind subscript]; [|discriminate].
  destruct (match lldp_ip_address neighbor with
            | Some _ =>
                match nets with
                | [] => Return false
                | _ :: _ => excluded_scan (product [lldp_ip_address neighbor] nets)
                end
            | None => Return false
            end) as [stop|e]; cbn [bind]; [|discriminate].
  destruct stop; [discriminate|].
  destruct (system_description neighbor) as [description|]; cbn [bind subscript];
    [|discriminate].
  intros [= <-]. cbn [adj_os]. apply get_os_supported.
Qed.

Lemma registry_supported_discoverer (dl : gmap string fact)
    (host discover_name interface : string) :
  registry_supported dl ->
  registry_supported (fst (add_discoverer_interface dl host discover_name interface)).
Proof.
  intros Hs name f o Hf Ho. unfold add_discoverer_interface in Hf.
  destruct (dl !! discover_name) as [g|].
  - destruct (dl !! host) as [h|] eqn:Hh; cbn [fst] in Hf; [|exact (Hs name f o Hf Ho)].
    destruct (decide (host = name)) as [<-|Hne].
    + rewrite lookup_insert_eq in Hf. injection Hf as <-. exact (Hs host h o Hh Ho).
    + rewrite lookup_insert_ne in Hf by exact Hne. exact (Hs name f o Hf Ho).
  - cbn [fst] in Hf. destruct (decide (discover_name = name)) as [<-|Hne].
    + rewrite lookup_insert_eq in Hf. injection Hf as <-. discriminate Ho.
    + rewrite lookup_insert_ne in Hf by exact Hne. exact (Hs name f o Hf Ho).
Qed.

Lemma registry_supported_insert (dl : gmap string fact) (k : string) (f : fact) :
  registry_supported dl ->
  (forall o, os f = Some (Some o) -> In o SUPPORTED_OS) ->
  registry_supported (<[k := f]> dl).
Proof.
  intros Hs Hf name g o Hg Ho. destruct (decide (k = name)) as [<-|Hne].
  - rewrite lookup_insert_eq in Hg. injection Hg as <-. exact (Hf o Ho).
  - rewrite lookup_insert_ne in Hg by exact Hne. exact (Hs name g o Hg Ho).
Qed.

Lemma add_to_device_list_supported (device_list : gmap string fact)
    (host port : string) (int_address mgmt_address : gset address)
    (os_guess : option string) (discover_name interface : string) :
  registry_supported device_list ->
  (forall o, os_guess = Some o -> In o SUPPORTED_OS) ->
  registry_supported
    (fst (add_to_device_list device_list host port int_address mgmt_address os_guess
            discover_name interface)).
Proof.
  intros Hs Hg. unfold add_to_device_list. destruct (device_list !! host) as [f|] eqn:Hf.
  - cbv zeta.
    assert (Hfo : forall o, os f = Some (Some o) -> In o SUPPORTED_OS)
      by (intros o Ho; exact (Hs host f o Hf Ho)).
    assert (H1 : registry_supported (<[host := add_port port f]> device_list))
      by (apply registry_supported_insert; [exact Hs|exact Hfo]).
    destruct (negb (new_device (add_port port f))); [exact H1|].
    destruct (os (add_port port f)) as [current|] eqn:Hcur; [|exact H1].
    set (f2 := match current with
               | Some _ => add_port port f
               | None => set_os os_guess (add_port port f)
               end).
    assert (Hf2 : forall o, os f2 = Some (Some o) -> In o SUPPORTED_OS).
    { intros o. unfold f2. destruct current as [c|]; [exact (Hfo o)|].
      cbn. intros [= ->]. exact (Hg o eq_refl). }
    assert (H2 : registry_supported (<[host := f2]> (<[host := add_port port f]> device_list)))
      by (apply registry_supported_insert; [exact H1|exact Hf2]).
    destruct (ip f2) as [addresses|]; [|exact H2].
    apply registry_supported_discoverer. apply registry_supported_insert; [exact H2|].
    exact Hf2.
  - apply registry_supported_discoverer. apply registry_supported_insert; [exact Hs|].
    cbn. intros o [= ->]. exact (Hg o eq_refl).
Qed.

(** X26: processing the data of a polled device keeps the registry free of
    operating system names outside [SUPPORTED_OS]: what [get_os] infers from
    CDP and LLDP texts and what earlier calls recorded is one of nxos, iosxr,
    iosxe and ios, or [None]. *)
Theorem registry_os_stays_supported (self : Topology) (data : neighbor_data)
    (device_name : string) (device_list : gmap string fact)
    (nets : list ipaddress.ip_network) (tb : testbed) :
  registry_supported device_list ->
  registry_supported (fst (get_device_connections self data device_name device_list nets tb)).
Proof.
  set (R := fun a b : gmap string fact => registry_supported a -> registry_supported b).
  assert (Hrec : forall st a,
            (forall o, adj_os a = Some o -> In o SUPPORTED_OS) ->
            R (fst st) (fst (fst (record_adjacency device_name a st)))).
  { intros st a Ha Hs. unfold record_adjacency.
    pose proof (add_to_device_list_supported (fst st) (adj_dest_host a) (adj_dest_port a)
                  (adj_int_set a) (adj_mgmt_set a) (adj_os a) device_name
                  (adj_interface a) Hs Ha) as H.
    destruct (add_to_device_list (fst st) (adj_dest_host a) (adj_dest_port a)
                (adj_int_set a) (adj_mgmt_set a) (adj_os a) device_name (adj_interface a))
      as [dl' [u|e]]; exact H. }
  apply (get_device_connections_registry R).
  - intros dl H. exact H.
  - intros a b c Hab Hbc H. exact (Hbc (Hab H)).
  - intros connection st a Hf. apply Hrec. intros o. exact (cdp_filter_os _ _ _ _ _ o Hf).
  - intros interface port entry st a Hf. apply Hrec. intros o.
    exact (lldp_filter_os _ _ _ _ _ _ _ o Hf).
Qed.

Lemma registry_os_stays_supported_witness :
  registry_supported
    (fst (get_device_connections Sample.self
            (mk_data (Some (mk_cdp_result (Some [("1", Sample.cdp_R2)]))) None)
            "R1" ∅ [] Sample.tb)).
Proof.
  apply (registry_os_stays_supported Sample.self
           (mk_data (Some (mk_cdp_result (Some [("1", Sample.cdp_R2)]))) None)
           "R1" ∅ [] Sample.tb).
  intros name f o Hf. rewrite lookup_empty in Hf. discriminate Hf.
Defined.

(** ** The YAML dictionary *)

Lemma fold_set_get_other {A V : Type} (f : A -> V) (l : PyDict.t A) (d : PyDict.t V)
    (k : string) :
  ~ In k (PyDict.keys l) ->
  PyDict.get k (fold_left (fun acc item => PyDict.set (fst item) (f (snd item)) acc) l d)
  = PyDict.get k d.
Proof.
  revert d. induction l as [|[k' a] l IH]; intros d Hk; [reflexivity|].
  cbn [fold_left fst snd]. rewrite IH.
  - apply get_set_ne. intros ->. apply Hk. left. reflexivity.
  - intros H. apply Hk. right. exact H.
Qed.

Lemma fold_set_get {A V : Type} (f : A -> V) (l : PyDict.t A) (d : PyDict.t V)
    (k : string) (a : A) :
  NoDup (PyDict.keys l) -> In (k, a) l ->
  PyDict.get k (fold_left (fun acc item => PyDict.set (fst item) (f (snd item)) acc) l d)
  = Some (f a).
Proof.
  revert d. induction l as [|[k' a'] l IH]; intros d Hnd Hin; [destruct Hin|].
  cbn [PyDict.keys map fst] in Hnd. apply NoDup_cons in Hnd as [Hnotin Hnd].
  cbn [fold_left fst snd]. destruct Hin as [Heq|Hin].
  - injection Heq as -> ->. rewrite fold_set_get_other; [apply get_set_eq|].
    intros H. apply Hnotin. apply list_elem_of_In. exact H.
  - apply IH; assumption.
Qed.

Lemma fold_set_keys {A V : Type} (f : A -> V) (l : PyDict.t A) (d : PyDict.t V)
    (k : string) :
  In k (PyDict.keys (fold_left (fun acc item => PyDict.set (fst item) (f (snd item)) acc)
                       l d))
  <-> In k (PyDict.keys d) \/ In k (PyDict.keys l).
Proof.
  revert d. induction l as [|[k' a] l IH]; intros d.
  - cbn. tauto.
  - cbn [fold_left fst snd]. rewrite IH, In_keys_set_iff. cbn [PyDict.keys map fst].
    split.
    + intros [[->|H]|H]; [right; left; reflexivity|left; exact H|right; right; exact H].
    + intros [H|[->|H]]; [left; right; exact H|left; left; reflexivity|right; exact H].
Qed.

Lemma fold_set_NoDup {A V : Type} (f : A -> V) (l : PyDict.t A) (d : PyDict.t V) :
  NoDup (PyDict.keys d) ->
  NoDup (PyDict.keys (fold_left (fun acc item => PyDict.set (fst item) (f (snd item)) acc)
                        l d)).
Proof.
  revert d. induction l as [|[k' a] l IH]; intros d Hnd; [exact Hnd|].
  cbn [fold_left fst snd]. apply IH. apply NoDup_keys_set. exact Hnd.
Qed.

Lemma get_In {V : Type} (k : string) (v : V) (d : PyDict.t V) :
  PyDict.get k d = Some v -> In (k, v) d.
Proof.
  induction d as [|[k' v'] d IH]; [discriminate|]. cbn [PyDict.get].
  destruct (String.eqb_spec k k') as [->|Hne].
  - intros [= ->]. left. reflexivity.
  - intros H. right. exact (IH H).
Qed.

Lemma In_get {V : Type} (k : string) (v : V) (d : PyDict.t V) :
  NoDup (PyDict.keys d) -> In (k, v) d -> PyDict.get k d = Some v.
Proof.
  induction d as [|[k' v'] d IH]; intros Hnd Hin; [destruct Hin|].
  cbn [PyDict.keys map fst] in Hnd. apply NoDup_cons in Hnd as [Hnotin Hnd].
  cbn [PyDict.get]. destruct Hin as [Heq|Hin].
  - injection Heq as -> ->. rewrite String.eqb_refl. reflexivity.
  - destruct (String.eqb_spec k k') as [->|Hne]; [|exact (IH Hnd Hin)].
    exfalso. apply Hnotin. apply list_elem_of_In.
    apply (in_map fst) in Hin. exact Hin.
Qed.

Lemma In_set {V : Type} (k k0 : string) (v v0 : V) (d : PyDict.t V) :
  In (k0, v0) (PyDict.set k v d) -> (k0 = k /\ v0 = v) \/ In (k0, v0) d.
Proof.
  induction d as [|[k' v'] d IH]; cbn [PyDict.set].
  - intros [[= <- <-]|[]]. left. split; reflexivity.
  - destruct (String.eqb_spec k k') as [->|Hne].
    + intros [[= <- <-]|H]; [left; split; reflexivity|right; right; exact H].
    + intros [H|H]; [right; left; exact H|].
      destruct (IH H) as [Heq|Hin]; [left; exact Heq|right; right; exact Hin].
Qed.

Lemma get_map {V W : Type} (f : V -> W) (k : string) (d : PyDict.t V) :
  PyDict.get k (map (fun item => (fst item, f (snd item))) d)
  = option_map f (PyDict.get k d).
Proof.
  induction d as [|[k' v] d IH]; [reflexivity|]. cbn [map fst snd PyDict.get].
  destruct (String.eqb k k'); [reflexivity|exact IH].
Qed.

Lemma update_get_other {V : Type} (d new : PyDict.t V) (k : string) :
  ~ In k (PyDict.keys new) -> PyDict.get k (update d new) = PyDict.get k d.
Proof. apply (fold_set_get_other (fun v => v)). Qed.

Lemma update_get {V : Type} (d new : PyDict.t V) (k : string) (v : V) :
  NoDup (PyDict.keys new) -> PyDict.get k new = Some v ->
  PyDict.get k (update d new) = Some v.
Proof.
  intros Hnd Hget. apply (fold_set_get (fun v => v)); [exact Hnd|].
  apply get_In. exact Hget.
Qed.

Lemma update_keys {V : Type} (d new : PyDict.t V) (k : string) :
  In k (PyDict.keys d) -> In k (PyDict.keys (update d new)).
Proof. intros H. apply (fold_set_keys (fun v => v)). left. exact H. Qed.

Lemma interface_dict_keys (device : device_view) (i : string) :
  In i (PyDict.keys (interface_dict device)) -> In i (PyDict.keys (dv_interfaces device)).
Proof.
  unfold interface_dict. intros H. apply (fold_set_keys interface_entry) in H.
  destruct H as [[]|H]. exact H.
Qed.

Lemma interface_dict_NoDup (device : device_view) :
  NoDup (PyDict.keys (interface_dict device)).
Proof. apply (fold_set_NoDup interface_entry). apply NoDup_nil_2. Qed.

Lemma mem_false_get {V : Type} (k : string) (d : PyDict.t V) :
  PyDict.mem k d = false -> PyDict.get k d = None.
Proof. unfold PyDict.mem. destruct (PyDict.get k d); [discriminate|reflexivity]. Qed.

Lemma set_new_keeps {V : Type} (k n : string) (v y : V) (d : PyDict.t V) :
  PyDict.mem k d = false -> PyDict.get n d = Some y ->
  PyDict.get n (PyDict.set k v d) = Some y.
Proof.
  intros Hmem Hy. rewrite get_set_ne; [exact Hy|]. intros ->.
  rewrite (mem_false_get _ _ Hmem) in Hy. discriminate Hy.
Qed.

(** The first loop leaves the entries of ['devices'] it finds as they are
    and puts new ones after them. *)
Lemma devices_loop_entries (credential_dict : PyDict.t (PyDict.t string))
    (tb : PyDict.t device_view) (entries : PyDict.t yaml_device)
    (topology : PyDict.t (PyDict.t (PyDict.t string))) (connect : option string) :
  exists (entries' : PyDict.t yaml_device) (more : list string),
    fst (fst (devices_loop credential_dict tb (Some entries) topology connect))
    = Some entries'
    /\ PyDict.keys entries' = (PyDict.keys entries ++ more)%list
    /\ forall n y, PyDict.get n entries = Some y -> PyDict.get n entries' = Some y.
Proof.
  revert entries topology connect.
  induction tb as [|[name device] rest IH]; intros entries topology connect.
  - exists entries, []. cbn. rewrite app_nil_r. auto.
  - cbn [devices_loop]. destruct (PyDict.mem name entries) eqn:Hmem; [apply IH|].
    destruct (connections_loop (dv_connections device) connect) as [conn_dict connect'].
    destruct connect' as [via|].
    + match goal with
      | |- context [devices_loop _ rest (Some ?e) ?t ?c] =>
          destruct (IH e t c) as (e' & more & H1 & H2 & H3)
      end.
      exists e', ([name] ++ more)%list. split; [exact H1|]. split.
      * rewrite H2, keys_set, Hmem, <- app_assoc. reflexivity.
      * intros n y Hy. apply H3. apply set_new_keeps; assumption.
    + eexists _, [name]. cbn [fst]. split; [reflexivity|]. split.
      * rewrite keys_set, Hmem. reflexivity.
      * intros n y Hy. apply set_new_keeps; assumption.
Qed.

Lemma devices_loop_no_devices (credential_dict : PyDict.t (PyDict.t string))
    (tb : PyDict.t device_view) (topology : PyDict.t (PyDict.t (PyDict.t string)))
    (connect : option string) :
  fst (fst (devices_loop credential_dict tb None topology connect)) = None.
Proof. destruct tb as [|[name device] rest]; reflexivity. Qed.

(** What the first loop leaves in [yaml_dict['topology']] when it ends
    normally. *)
Lemma devices_loop_topology (credential_dict : PyDict.t (PyDict.t string))
    (tb : PyDict.t device_view) (devs : option (PyDict.t yaml_device))
    (topology : PyDict.t (PyDict.t (PyDict.t string))) (connect : option string) :
  snd (devices_loop credential_dict tb devs topology connect) = None ->
  let topology' := snd (fst (devices_loop credential_dict tb devs topology connect)) in
  (NoDup (PyDict.keys topology) -> NoDup (PyDict.keys topology'))
  /\ (forall name, ~ In name (PyDict.keys tb) ->
                   PyDict.get name topology' = PyDict.get name topology)
  /\ (NoDup (PyDict.keys tb) ->
      forall name d, In (name, d) tb ->
                     PyDict.get name topology' = Some (interface_dict d))
  /\ (forall name ifs, In (name, ifs) topology' ->
        In (name, ifs) topology
        \/ exists d, In (name, d) tb /\ ifs = interface_dict d).
Proof.
  revert devs topology connect.
  induction tb as [|[name device] rest IH]; intros devs topology connect.
  - intros _. cbn. split; [auto|]. split; [auto|]. split; [intros _ n d []|auto].
  - cbn [devices_loop]. destruct devs as [entries|]; [|cbn; discriminate].
    assert (Hstep : forall devs' connect',
              snd (devices_loop credential_dict rest devs'
                     (PyDict.set name (interface_dict device) topology) connect') = None ->
              let topology' :=
                snd (fst (devices_loop credential_dict rest devs'
                            (PyDict.set name (interface_dict device) topology) connect')) in
              (NoDup (PyDict.keys topology) -> NoDup (PyDict.keys topology'))
              /\ (forall n, ~ In n (PyDict.keys ((name, device) :: rest)) ->
                            PyDict.get n topology' = PyDict.get n topology)
              /\ (NoDup (PyDict.keys ((name, device) :: rest)) ->
                  forall n d, In (n, d) ((name, device) :: rest) ->
                              PyDict.get n topology' = Some (interface_dict d))
              /\ (forall n ifs, In (n, ifs) topology' ->
                    In (n, ifs) topology
                    \/ exists d, In (n, d) ((name, device) :: rest)
                                 /\ ifs = interface_dict d)).
    { intros devs' connect' Hnone.
      destruct (IH devs' (PyDict.set name (interface_dict device) topology) connect' Hnone)
        as (H1 & H2 & H3 & H4).
      cbv zeta. split; [|split; [|split]].
      - intros Hnd. apply H1. apply NoDup_keys_set. exact Hnd.
      - intros n Hn. cbn [PyDict.keys map fst] in Hn. rewrite H2.
        + apply get_set_ne. intros ->. apply Hn. left. reflexivity.
        + intros H. apply Hn. right. exact H.
      - intros Hnd n d Hin. cbn [PyDict.keys map fst] in Hnd.
        apply NoDup_cons in Hnd as [Hnotin Hnd]. destruct Hin as [Heq|Hin].
        + injection Heq as <- <-. rewrite H2; [apply get_set_eq|].
          intros H. apply Hnotin. apply list_elem_of_In. exact H.
        + apply H3; assumption.
      - intros n ifs Hin. destruct (H4 n ifs Hin) as [Hset|(d & Hd & Heq)].
        + apply In_set in Hset. destruct Hset as [[-> ->]|Hold]; [|left; exact Hold].
          right. exists device. split; [left; reflexivity|reflexivity].
        + right. exists d. split; [right; exact Hd|exact Heq]. }
    destruct (PyDict.mem name entries); [apply Hstep|].
    destruct (connections_loop (dv_connections device) connect) as [conn_dict connect'].
    destruct connect' as [via|]; [apply Hstep|cbn; discriminate].
Qed.

(** Devices that have an entry already are passed over. *)
Lemma devices_loop_skip (credential_dict : PyDict.t (PyDict.t string))
    (pre l : PyDict.t device_view) (entries : PyDict.t yaml_device)
    (topology : PyDict.t (PyDict.t (PyDict.t string))) (connect : option string) :
  (forall n, In n (PyDict.keys pre) -> PyDict.mem n entries = true) ->
  exists topology',
    devices_loop credential_dict (pre ++ l)%list (Some entries) topology connect
    = devices_loop credential_dict l (Some entries) topology' connect.
Proof.
  revert topology. induction pre as [|[name device] pre IH]; intros topology Hpre.
  - exists topology. reflexivity.
  - cbn [app devices_loop]. rewrite (Hpre name) by (left; reflexivity).
    apply IH. intros n Hn. apply Hpre. right. exact Hn.
Qed.

Lemma topology_loop_other (new : PyDict.t (PyDict.t (PyDict.t string)))
    (old : PyDict.t topology_entry) (device : string) :
  ~ In device (PyDict.keys new) ->
  PyDict.get device (fst (topology_loop new old)) = PyDict.get device old.
Proof.
  revert old. induction new as [|[dev ifs] rest IH]; intros old Hnot; [reflexivity|].
  cbn [PyDict.keys map fst] in Hnot.
  assert (Hne : device <> dev) by (intros ->; apply Hnot; left; reflexivity).
  assert (Hrest : ~ In device (PyDict.keys rest)) by (intros H; apply Hnot; right; exact H).
  cbn [topology_loop]. destruct (PyDict.get dev old) as [entry|].
  - destruct (te_interfaces entry) as [old_ifs|]; [|reflexivity].
    rewrite (IH _ Hrest). apply get_set_ne. exact Hne.
  - rewrite (IH _ Hrest). apply get_set_ne. exact Hne.
Qed.

(** The second loop removes nothing from the topology of the file. *)
Lemma topology_loop_keeps (new : PyDict.t (PyDict.t (PyDict.t string)))
    (old : PyDict.t topology_entry) (device : string) (entry : topology_entry) :
  PyDict.get device old = Some entry ->
  exists entry' : topology_entry,
    PyDict.get device (fst (topology_loop new old)) = Some entry'
    /\ (~ In device (PyDict.keys new) -> entry' = entry)
    /\ forall ifs, te_interfaces entry = Some ifs ->
         exists ifs',
           te_interfaces entry' = Some ifs'
           /\ (forall i, In i (PyDict.keys ifs) -> In i (PyDict.keys ifs'))
           /\ (forall i v, PyDict.get i ifs = Some v ->
                 (forall news, In (device, news) new -> ~ In i (PyDict.keys news)) ->
                 PyDict.get i ifs' = Some v).
Proof.
  revert old entry. induction new as [|[dev ifsn] rest IH]; intros old entry Hget.
  - exists entry. cbn. split; [exact Hget|]. split; [auto|].
    intros ifs H. exists ifs. auto.
  - assert (Hother : forall old',
              PyDict.get device old' = Some entry ->
              exists entry' : topology_entry,
                PyDict.get device (fst (topology_loop rest old')) = Some entry'
                /\ (~ In device (PyDict.keys ((dev, ifsn) :: rest)) -> entry' = entry)
                /\ forall ifs, te_interfaces entry = Some ifs ->
                     exists ifs',
                       te_interfaces entry' = Some ifs'
                       /\ (forall i, In i (PyDict.keys ifs) -> In i (PyDict.keys ifs'))
                       /\ (forall i v, PyDict.get i ifs = Some v ->
                             (forall news, In (device, news) ((dev, ifsn) :: rest) ->
                                           ~ In i (PyDict.keys news)) ->
                             PyDict.get i ifs' = Some v)).
    { intros old' Hget'. destruct (IH old' entry Hget') as (e' & H1 & H2 & H3).
      exists e'. split; [exact H1|]. split.
      - intros Hnot. apply H2. intros H. apply Hnot. right. exact H.
      - intros ifs Hifs. destruct (H3 ifs Hifs) as (ifs' & Ha & Hb & Hc).
        exists ifs'. split; [exact Ha|]. split; [exact Hb|].
        intros i v Hv Hnot. apply Hc; [exact Hv|].
        intros news Hin. apply Hnot. right. exact Hin. }
    cbn [topology_loop]. destruct (PyDict.get dev old) as [e0|] eqn:Hdev.
    + destruct (te_interfaces e0) as [old_ifs|] eqn:Hte.
      * destruct (String.eqb_spec device dev) as [->|Hne].
        -- rewrite Hget in Hdev. injection Hdev as <-.
           destruct (IH (PyDict.set dev (mk_topology_entry (Some (update old_ifs ifsn))) old)
                       (mk_topology_entry (Some (update old_ifs ifsn)))
                       (get_set_eq _ _ _)) as (e' & H1 & H2 & H3).
           exists e'. split; [exact H1|]. split.
           ++ intros Hnot. exfalso. apply Hnot. left. reflexivity.
           ++ intros ifs Hifs. rewrite Hte in Hifs. injection Hifs as <-.
              destruct (H3 (update old_ifs ifsn) eq_refl) as (ifs' & Ha & Hb & Hc).
              exists ifs'. split; [exact Ha|]. split.
              ** intros i Hi. apply Hb. apply update_keys. exact Hi.
              ** intros i v Hv Hnot. apply Hc.
                 --- rewrite update_get_other; [exact Hv|].
                     apply (Hnot ifsn). left. reflexivity.
                 --- intros news Hin. apply Hnot. right. exact Hin.
        -- apply Hother. rewrite get_set_ne by exact Hne. exact Hget.
      * cbn [fst]. exists entry. split; [exact Hget|]. split; [auto|].
        intros ifs H. exists ifs. auto.
    + apply Hother. rewrite get_set_ne; [exact Hget|].
      intros ->. rewrite Hget in Hdev. discriminate Hdev.
Qed.

(** When it ends normally, the second loop has written every interface of
    the new topology. *)
Lemma topology_loop_written (new : PyDict.t (PyDict.t (PyDict.t string)))
    (old : PyDict.t topology_entry) (device : string)
    (ifs : PyDict.t (PyDict.t string)) :
  snd (topology_loop new old) = None ->
  NoDup (PyDict.keys new) -> In (device, ifs) new -> NoDup (PyDict.keys ifs) ->
  exists ifs',
    PyDict.get device (fst (topology_loop new old))
    = Some (mk_topology_entry (Some ifs'))
    /\ forall i v, PyDict.get i ifs = Some v -> PyDict.get i ifs' = Some v.
Proof.
  revert old. induction new as [|[dev ifsn] rest IH]; intros old Hnone Hnd Hin Hifs;
    [destruct Hin|].
  cbn [PyDict.keys map fst] in Hnd. apply NoDup_cons in Hnd as [Hnotin Hnd].
  assert (Hnot : ~ In dev (PyDict.keys rest))
    by (intros H; apply Hnotin; apply list_elem_of_In; exact H).
  cbn [topology_loop] in *. destruct Hin as [Heq|Hin].
  - injection Heq as -> ->. destruct (PyDict.get device old) as [e0|].
    + destruct (te_interfaces e0) as [old_ifs|]; [|discriminate Hnone].
      exists (update old_ifs ifs). split.
      * rewrite (topology_loop_other _ _ _ Hnot). apply get_set_eq.
      * intros i v Hv. apply update_get; assumption.
    + exists ifs. split; [|auto].
      rewrite (topology_loop_other _ _ _ Hnot). apply get_set_eq.
  - destruct (PyDict.get dev old) as [e0|].
    + destruct (te_interfaces e0) as [old_ifs|]; [|discriminate Hnone].
      apply IH; assumption.
    + apply IH; assumption.
Qed.

Lemma create_yaml_dict_devices (tb : PyDict.t device_view) (testbed_yaml : yaml_file)
    (credential_dict : PyDict.t (PyDict.t string)) :
  yaml_devices (fst (create_yaml_dict tb testbed_yaml credential_dict))
  = fst (fst (devices_loop credential_dict tb (yaml_devices testbed_yaml) [] None)).
Proof.
  unfold create_yaml_dict.
  destruct (devices_loop credential_dict tb (yaml_devices testbed_yaml) [] None)
    as [[devs topology] [e|]]; [reflexivity|].
  destruct (yaml_topology testbed_yaml) as [old|]; [|reflexivity].
  destruct (topology_loop topology old) as [merged e']. reflexivity.
Qed.

Lemma connections_loop_last (conns : PyDict.t connection_detail) (name : string)
    (c : connection_detail) (connect : option string) :
  snd (connections_loop (conns ++ [(name, c)])%list connect) = Some name.
Proof. unfold connections_loop. rewrite fold_left_app. reflexivity. Qed.

(** X27: whatever it is given and however it ends, [create_yaml_dict]
    removes nothing from the YAML dictionary: the entries of ['devices'] stay
    as they are, in their order, with new devices after them; every device of
    the topology stays, unchanged when the testbed has no device of that
    name, and keeps each of its interfaces, unchanged when the testbed's
    device has no interface of that name. *)
Theorem create_yaml_dict_keeps_file (tb : PyDict.t device_view) (testbed_yaml : yaml_file)
    (credential_dict : PyDict.t (PyDict.t string)) :
  let r := fst (create_yaml_dict tb testbed_yaml credential_dict) in
  (forall entries, yaml_devices testbed_yaml = Some entries ->
     exists (entries' : PyDict.t yaml_device) (more : list string),
       yaml_devices r = Some entries'
       /\ PyDict.keys entries' = (PyDict.keys entries ++ more)%list
       /\ forall n y, PyDict.get n entries = Some y -> PyDict.get n entries' = Some y)
  /\ (forall old, yaml_topology testbed_yaml = Some old ->
      exists merged : PyDict.t topology_entry,
        yaml_topology r = Some merged
        /\ forall device entry, PyDict.get device old = Some entry ->
           exists entry' : topology_entry,
             PyDict.get device merged = Some entry'
             /\ (~ In device (PyDict.keys tb) -> entry' = entry)
             /\ forall ifs, te_interfaces entry = Some ifs ->
                exists ifs',
                  te_interfaces entry' = Some ifs'
                  /\ (forall i, In i (PyDict.keys ifs) -> In i (PyDict.keys ifs'))
                  /\ (forall i v, PyDict.get i ifs = Some v ->
                        (forall d, In (device, d) tb ->
                                   ~ In i (PyDict.keys (dv_interfaces d))) ->
                        PyDict.get i ifs' = Some v)).
Proof.
  cbv zeta. split.
  - intros entries Hentries. rewrite create_yaml_dict_devices, Hentries.
    apply devices_loop_entries.
  - unfold create_yaml_dict.
    pose proof (devices_loop_topology credential_dict tb (yaml_devices testbed_yaml)
                  [] None) as Htopo.
    destruct (devices_loop credential_dict tb (yaml_devices testbed_yaml) [] None)
      as [[devs topology] [e|]]; cbn [fst snd] in *.
    + intros old Hold. exists old. split; [exact Hold|].
      intros device entry Hget. exists entry. split; [exact Hget|]. split; [auto|].
      intros ifs Hifs. exists ifs. auto.
    + destruct (Htopo eq_refl) as (_ & _ & _ & Hfrom).
      intros old Hold. rewrite Hold.
      pose proof (topology_loop_keeps topology old) as Hkeep.
      destruct (topology_loop topology old) as [merged e']. cbn [fst snd yaml_topology] in *.
      exists merged. split; [reflexivity|].
      intros device entry Hget. destruct (Hkeep device entry Hget) as (entry' & H1 & H2 & H3).
      exists entry'. split; [exact H1|]. split.
      * intros Hnot. apply H2. intros Hin. apply Hnot.
        unfold PyDict.keys in Hin. apply in_map_iff in Hin.
        destruct Hin as [[n ifs] [Hn Hin]]. cbn in Hn. subst n.
        destruct (Hfrom device ifs Hin) as [[]|(d & Hd & _)].
        apply (in_map fst) in Hd. exact Hd.
      * intros ifs Hifs. destruct (H3 ifs Hifs) as (ifs' & Ha & Hb & Hc).
        exists ifs'. split; [exact Ha|]. split; [exact Hb|].
        intros i v Hv Hnot. apply Hc; [exact Hv|].
        intros news Hin Hi. destruct (Hfrom device news Hin) as [[]|(d & Hd & ->)].
        apply (Hnot d Hd). apply interface_dict_keys. exact Hi.
Qed.

Lemma create_yaml_dict_keeps_file_witness :
  exists merged : PyDict.t topology_entry,
    yaml_topology (fst (create_yaml_dict Sample3.tb Sample3.file Sample3.credential_dict))
    = Some merged
    /\ exists (entry' : topology_entry) (ifs' : PyDict.t (PyDict.t string)),
         PyDict.get "R1" merged = Some entry'
         /\ te_interfaces entry' = Some ifs'
         /\ PyDict.get "Loopback0" ifs' = Some [("type", "loopback")].
Proof.
  destruct (proj2 (create_yaml_dict_keeps_file Sample3.tb Sample3.file
                     Sample3.credential_dict) _ eq_refl) as (merged & Hm & Hkeep).
  exists merged. split; [exact Hm|].
  destruct (Hkeep "R1" _ eq_refl) as (entry' & H1 & _ & H3).
  destruct (H3 _ eq_refl) as (ifs' & Ha & _ & Hc).
  exists entry', ifs'. split; [exact H1|]. split; [exact Ha|].
  apply Hc; [reflexivity|].
  intros d [[= <-]|[[=]|[[=]|[]]]]. cbn. intros [[=]|[]].
Defined.

(** X28: when [create_yaml_dict] returns, the topology of the YAML
    dictionary holds, for every interface of every device of the testbed,
    exactly the dictionary made from the interface — its type, the name of its
    link when it has one, its ipv4 address when it has one — in place of
    whatever the file held for that interface. *)
Theorem create_yaml_dict_topology (tb : PyDict.t device_view) (testbed_yaml : yaml_file)
    (credential_dict : PyDict.t (PyDict.t string)) (name : string) (d : device_view)
    (iname : string) (i : interface_view) :
  snd (create_yaml_dict tb testbed_yaml credential_dict) = None ->
  NoDup (PyDict.keys tb) ->
  In (name, d) tb ->
  NoDup (PyDict.keys (dv_interfaces d)) ->
  In (iname, i) (dv_interfaces d) ->
  exists (topology : PyDict.t topology_entry) (ifs : PyDict.t (PyDict.t string)),
    yaml_topology (fst (create_yaml_dict tb testbed_yaml credential_dict)) = Some topology
    /\ PyDict.get name topology = Some (mk_topology_entry (Some ifs))
    /\ PyDict.get iname ifs = Some (interface_entry i).
Proof.
  unfold create_yaml_dict. intros Hnone Hnd Hd Hndi Hi.
  pose proof (devices_loop_topology credential_dict tb (yaml_devices testbed_yaml)
                [] None) as Htopo.
  destruct (devices_loop credential_dict tb (yaml_devices testbed_yaml) [] None)
    as [[devs topology] [e|]]; cbn [fst snd] in *; [discriminate Hnone|].
  destruct (Htopo eq_refl) as (Hnd' & _ & Hall & _).
  specialize (Hnd' (NoDup_nil_2 : NoDup (PyDict.keys []))).
  pose proof (Hall Hnd name d Hd) as Hget.
  assert (Hentry : PyDict.get iname (interface_dict d) = Some (interface_entry i))
    by (apply (fold_set_get interface_entry); assumption).
  destruct (yaml_topology testbed_yaml) as [old|].
  - pose proof (topology_loop_written topology old name (interface_dict d)) as Hw.
    destruct (topology_loop topology old) as [merged e']. cbn [fst snd yaml_topology] in *.
    destruct (Hw Hnone Hnd' (get_In _ _ _ Hget) (interface_dict_NoDup d))
      as (ifs' & H1 & H2).
    exists merged, ifs'. split; [reflexivity|]. split; [exact H1|].
    apply H2. exact Hentry.
  - cbn [fst yaml_topology]. eexists _, (interface_dict d). split; [reflexivity|].
    split; [|exact Hentry].
    rewrite (get_map (fun v => mk_topology_entry (Some v))), Hget. reflexivity.
Qed.

Lemma create_yaml_dict_topology_witness :
  exists (topology : PyDict.t topology_entry) (ifs : PyDict.t (PyDict.t string)),
    yaml_topology (fst (create_yaml_dict Sample3.tb Sample3.file Sample3.credential_dict))
    = Some topology
    /\ PyDict.get "R1" topology = Some (mk_topology_entry (Some ifs))
    /\ PyDict.get "Ethernet0/1" ifs = Some [("type", "ethernet"); ("link", "Link_0")].
Proof.
  apply (create_yaml_dict_topology Sample3.tb Sample3.file Sample3.credential_dict
           "R1" Sample3.R1 "Ethernet0/1"
           (mk_interface_view "ethernet" (Some "Link_0") None)).
  - reflexivity.
  - apply (bool_decide_unpack _). vm_compute. reflexivity.
  - left. reflexivity.
  - apply (bool_decide_unpack _). vm_compute. reflexivity.
  - left. reflexivity.
Defined.

(** X29: the entry of a new device names in ['defaults'] the loop variable
    [connect].  When the first device of the testbed that has no entry in
    ['devices'] has no connection, the variable was never bound: the call
    raises [UnboundLocalError], with the device's entry already written and
    the topology of the file untouched, whatever devices follow. *)
Theorem create_yaml_dict_connect_unbound (pre rest : PyDict.t device_view)
    (name : string) (d : device_view) (entries : PyDict.t yaml_device)
    (testbed_yaml : yaml_file) (credential_dict : PyDict.t (PyDict.t string)) :
  yaml_devices testbed_yaml = Some entries ->
  (forall n, In n (PyDict.keys pre) -> PyDict.mem n entries = true) ->
  PyDict.mem name entries = false ->
  dv_connections d = [] ->
  create_yaml_dict (pre ++ (name, d) :: rest)%list testbed_yaml credential_dict
  = (mk_yaml_file
       (Some (PyDict.set name (mk_yaml_device (dv_type d) (dv_os d) credential_dict [])
                entries))
       (yaml_topology testbed_yaml),
     Some (UnboundLocalError "connect")).
Proof.
  intros Hentries Hpre Hmem Hconns. unfold create_yaml_dict. rewrite Hentries.
  destruct (devices_loop_skip credential_dict pre ((name, d) :: rest) entries [] None Hpre)
    as [topology' ->].
  cbn [devices_loop]. rewrite Hmem, Hconns. reflexivity.
Qed.

Lemma create_yaml_dict_connect_unbound_witness :
  snd (create_yaml_dict Sample3.tb_R3_first Sample3.file Sample3.credential_dict)
  = Some (UnboundLocalError "connect").
Proof.
  assert (Hpre : forall n, In n (PyDict.keys [("R1", Sample3.R1)]) ->
                           PyDict.mem n [("R1", Sample3.R1_entry)] = true).
  { intros n [<-|[]]. reflexivity. }
  exact (f_equal snd
           (create_yaml_dict_connect_unbound [("R1", Sample3.R1)] [("R2", Sample3.R2)]
              "R3" Sample3.R3 [("R1", Sample3.R1_entry)] Sample3.file
              Sample3.credential_dict eq_refl Hpre eq_refl eq_refl)).
Defined.

(** X30: a new device with connections gets ['defaults'] with the name of
    its last connection as ['via'].  A new device without connections that
    follows it gets the same name: its ['defaults'] names a connection of the
    other device, and that is its only connection entry, however the call
    ends. *)
Theorem create_yaml_dict_defaults_via (pre rest : PyDict.t device_view)
    (n1 n2 : string) (d1 d2 : device_view) (conns : PyDict.t connection_detail)
    (c1 : string) (x : connection_detail) (entries : PyDict.t yaml_device)
    (testbed_yaml : yaml_file) (credential_dict : PyDict.t (PyDict.t string)) :
  yaml_devices testbed_yaml = Some entries ->
  (forall n, In n (PyDict.keys pre) -> PyDict.mem n entries = true) ->
  PyDict.mem n1 entries = false ->
  PyDict.mem n2 entries = false ->
  n1 <> n2 ->
  dv_connections d1 = (conns ++ [(c1, x)])%list ->
  dv_connections d2 = [] ->
  exists entries' : PyDict.t yaml_device,
    yaml_devices
      (fst (create_yaml_dict (pre ++ (n1, d1) :: (n2, d2) :: rest)%list testbed_yaml
              credential_dict))
    = Some entries'
    /\ (exists y1 : yaml_device,
          PyDict.get n1 entries' = Some y1
          /\ PyDict.get "defaults" (yd_connections y1) = Some (Defaults c1))
    /\ PyDict.get n2 entries'
       = Some (mk_yaml_device (dv_type d2) (dv_os d2) credential_dict
                 [("defaults", Defaults c1)]).
Proof.
  intros Hentries Hpre Hm1 Hm2 Hne Hc1 Hc2.
  rewrite create_yaml_dict_devices, Hentries.
  destruct (devices_loop_skip credential_dict pre ((n1, d1) :: (n2, d2) :: rest) entries
              [] None Hpre) as [topology' ->].
  cbn [devices_loop]. rewrite Hm1.
  pose proof (connections_loop_last conns c1 x None) as Hlast. rewrite <- Hc1 in Hlast.
  destruct (connections_loop (dv_connections d1) None) as [conn_dict connect'].
  cbn [snd] in Hlast. subst connect'.
  set (y1 := mk_yaml_device (dv_type d1) (dv_os d1) credential_dict
               (PyDict.set "defaults" (Defaults c1) conn_dict)).
  assert (Hm2' : PyDict.mem n2 (PyDict.set n1 y1 entries) = false).
  { unfold PyDict.mem. rewrite get_set_ne by (intros Heq; apply Hne; symmetry; exact Heq).
    exact Hm2. }
  rewrite Hm2', Hc2. cbn [connections_loop fold_left PyDict.set].
  set (y2 := mk_yaml_device (dv_type d2) (dv_os d2) credential_dict
               [("defaults", Defaults c1)]).
  match goal with
  | |- context [devices_loop _ rest (Some ?e) ?t ?c] =>
      destruct (devices_loop_entries credential_dict rest e t c)
        as (entries' & more & H1 & _ & H3)
  end.
  exists entries'. split; [exact H1|]. split.
  - exists y1. split.
    + apply H3. rewrite get_set_ne by exact Hne. apply get_set_eq.
    + apply get_set_eq.
  - apply H3. apply get_set_eq.
Qed.

Lemma create_yaml_dict_defaults_via_witness :
  exists entries' : PyDict.t yaml_device,
    yaml_devices (fst (create_yaml_dict Sample3.tb Sample3.file Sample3.credential_dict))
    = Some entries'
    /\ PyDict.get "R3" entries'
       = Some (mk_yaml_device "device" None Sample3.credential_dict
                 [("defaults", Defaults "finder_proxy")]).
Proof.
  destruct (create_yaml_dict_defaults_via [("R1", Sample3.R1)] [] "R2" "R3"
              Sample3.R2 Sample3.R3 []
              "finder_proxy"
              (mk_connection (Some "ssh") (Some "172.16.0.9") (Some (ProxyName "R1")))
              [("R1", Sample3.R1_entry)] Sample3.file Sample3.credential_dict)
    as (entries' & H1 & _ & H3).
  - reflexivity.
  - intros n [<-|[]]. reflexivity.
  - reflexivity.
  - reflexivity.
  - discriminate.
  - reflexivity.
  - reflexivity.
  - exists entries'. split; [exact H1|exact H3].
Defined.
